(** * 3DCG Tutorial Simulator: stage validation and progress engine

    A shallow embedding of [src/__init__.py] (a Blender add-on): the stage
    validators of [StageManager], the property group that holds the lesson
    progress, the operators that move it, the modal monitoring operator
    and the stage catalog.

    Conventions.
    - Python [float] is IEEE binary64: it is Rocq's primitive [float], and
      [-], [*], [+], [abs] and the comparisons are the primitive ones.
      The power operator goes through the C library's [pow]; it is the
      variable [float_pow] of the sections below.
    - A Python exception is a value of [exn]; code that may raise returns
      a [result].  A [try] with a handler is [try_except], one that
      returns a default is [except_return], one that passes is
      [try_pass].
    - Reads of [bpy.context] and [bpy.data] that may fault are stored in
      the host record with their outcome.
    - Blender's own operators are parameters ([BpyOps]); operator bodies
      thread the add-on state and exceptions through the monad [M].
    - An f-string is kept unrendered, as the list of its pieces. *)

From Stdlib Require Import ZArith List String Bool Lia Floats.
Import ListNotations.

Set Warnings "-inexact-float".
Local Open Scope string_scope.
Local Open Scope list_scope.
Local Open Scope Z_scope.

(* ================================================================= *)
(** ** Python values *)

Module Py.

(** The exception classes the add-on can meet. *)
Inductive exn : Type :=
| AttributeError (what : string)
| KeyError (key : string)
| TypeError (what : string)
| ValueError (what : string)
| RuntimeError (what : string).

Inductive result (A : Type) : Type :=
| Ok (a : A)
| Raise (e : exn).
Arguments Ok {A} a.
Arguments Raise {A} e.

Definition bind {A B : Type} (m : result A) (k : A -> result B) : result B :=
  match m with
  | Ok a => k a
  | Raise e => Raise e
  end.

(** [try: body / except Exception as e: handler e]. *)
Definition try_except {A : Type} (body : result A) (handler : exn -> result A)
  : result A :=
  match body with
  | Ok a => Ok a
  | Raise e => handler e
  end.

(** The pieces of an f-string, left to right. *)
Inductive piece : Type :=
| Lit (s : string)                    (* literal text *)
| FloatFmt (digits : nat) (x : float) (* {x:.2f}, {x:.1f} *)
| IntFmt (n : Z)                      (* {n} for an int *)
| StrFmt (s : string)                 (* {s} for a str *)
| NoneFmt                             (* {v} when v is None *)
| ExnFmt (e : exn).                   (* {str(e)} *)

Definition message : Type := list piece.

(** [sep.join(parts)] on rendered pieces. *)
Fixpoint join (sep : string) (parts : list message) : message :=
  match parts with
  | [] => []
  | [m] => m
  | m :: rest => m ++ Lit sep :: join sep rest
  end.

(** [needle in hay] on strings. *)
Fixpoint str_in (needle hay : string) : bool :=
  if String.prefix needle hay then true
  else match hay with
       | EmptyString => false
       | String _ rest => str_in needle rest
       end.

(** [d.get(k, default)] on a dict written as its items. *)
Fixpoint dict_get (d : list (Z * Z)) (k default : Z) : Z :=
  match d with
  | [] => default
  | (k', v) :: rest => if k' =? k then v else dict_get rest k default
  end.

(** [x > y] and [x < y] on floats. *)
Definition gt (x y : float) : bool := PrimFloat.ltb y x.
Definition lt (x y : float) : bool := PrimFloat.ltb x y.

(** [math.degrees]: CPython multiplies by the constant [180.0 / pi]. *)
Definition math_pi : float := 0x1.921fb54442d18p+1%float.
Definition degrees (x : float) : float := (x * (180 / math_pi))%float.

(** [any(f(x) for x in l)], [sum(1 for x in l if f(x))]. *)
Definition any {A : Type} (f : A -> bool) (l : list A) : bool := existsb f l.
Definition count {A : Type} (f : A -> bool) (l : list A) : nat :=
  List.length (filter f l).

End Py.

Import Py.

Notation "x <- m ;; k" := (bind m (fun x => k))
  (at level 61, m at next level, right associativity).

(* ================================================================= *)
(** ** Blender data, as far as the add-on reads it *)

Module Bpy.

(** [mathutils.Vector] of size 3 and float-vector properties of size 3. *)
Record vec3 : Type := Vec3 { x : float; y : float; z : float }.

(** [v[i]] for [i] in [range(3)]. *)
Definition vec_get (v : vec3) (i : nat) : float :=
  match i with
  | O => x v
  | S O => y v
  | _ => z v
  end.

(** An edit-mesh: the selection flag of every vertex, edge and face. *)
Record BMesh : Type := {
  verts : list bool;
  edges : list bool;
  faces : list bool
}.

(** [bpy.types.Mesh]: vertex coordinates, edge and polygon counts, and
    the edit-mesh while the mesh is being edited. *)
Record Mesh : Type := {
  vertices : list vec3;
  mesh_edges : nat;
  polygons : nat;
  edit_bmesh : option BMesh
}.

(** The default value of a node socket. *)
Inductive socket_value : Type :=
| SVFloat (v : float)
| SVColor (r g b a : float).

(** A shader node; [node_ptr] is its identity ([==] on nodes compares
    the underlying pointers). *)
Record Node : Type := {
  node_ptr : nat;
  node_type : string;
  image : option string;
  inputs : list (string * socket_value)
}.

Record NodeLink : Type := {
  from_node : nat;
  to_node : nat;
  from_socket_name : string;
  to_socket_name : string
}.

Record NodeTree : Type := {
  nodes : list Node;
  links : list NodeLink
}.

Record Material : Type := {
  use_nodes : bool;
  node_tree : option NodeTree
}.

Record Object : Type := {
  name : string;
  type : string;
  location : vec3;
  rotation_euler : vec3;
  scale : vec3;
  data : option Mesh;
  mode : string;
  material_slots : list (option Material);
  active_material_index : Z
}.

(** [obj.active_material]: the material of the active slot. *)
Definition active_material (obj : Object) : option Material :=
  if active_material_index obj <? 0 then None
  else match nth_error (material_slots obj)
               (Z.to_nat (active_material_index obj)) with
       | Some (Some m) => Some m
       | _ => None
       end.

Record RegionView3D : Type := {
  view_location : vec3;
  view_distance : float
}.

Record Space : Type := {
  space_type : string;
  region_3d : option RegionView3D
}.

Record Area : Type := {
  area_type : string;
  spaces : list Space
}.

Record Brush : Type := { brush_name : string }.
Record Sculpt : Type := { brush : option Brush }.
Record ToolSettings : Type := { sculpt : option Sculpt }.

(** What [bpy.context], [bpy.data] and [time] answer at one instant.
    [context.active_object] is an object or [None]; the other reads
    may fault. *)
Record Host : Type := {
  context_active_object : option Object;
  context_mode : result string;
  context_screen_areas : result (list Area);
  context_tool_settings : result (option ToolSettings);
  data_objects : result (list Object);
  wm_undo_depth : result Z;
  time_time : float
}.

(** [bmesh.from_edit_mesh(obj.data)]. *)
Definition from_edit_mesh (d : option Mesh) : result BMesh :=
  match d with
  | None => Raise (TypeError "expected a Mesh type, not NoneType")
  | Some m =>
      match edit_bmesh m with
      | Some bm => Ok bm
      | None => Raise (ValueError "The mesh must be in editmode")
      end
  end.

(** [coll[key]] on a collection of named sockets. *)
Fixpoint socket_lookup (l : list (string * socket_value)) (key : string)
  : result socket_value :=
  match l with
  | [] => Raise (KeyError key)
  | (k, v) :: rest => if String.eqb k key then Ok v else socket_lookup rest key
  end.

(** Assignment to an [IntProperty] with hard limits: RNA clamps the
    value into [lo, hi] and stores it without raising. *)
Definition IntProperty_set (lo hi v : Z) : Z := Z.max lo (Z.min hi v).

Definition int_min : Z := - 2 ^ 31.
Definition int_max : Z := 2 ^ 31 - 1.

End Bpy.

Import Bpy.

(* ================================================================= *)
(** ** The property group *)

(** [TUTORIAL_PG_Properties], with [VertexPos.co] inlined in
    [initial_vertex_positions]. *)
Record TUTORIAL_PG_Properties : Type := {
  current_chapter : Z;
  current_stage : Z;
  stage_complete : bool;
  monitoring_active : bool;
  initial_position : vec3;
  initial_rotation : vec3;
  initial_scale : vec3;
  initial_view_distance : float;
  initial_view_location : vec3;
  initial_vertex_count : Z;
  initial_edge_count : Z;
  initial_face_count : Z;
  initial_vertex_positions : list vec3;
  last_check_time : float
}.

(** The declared defaults. *)
Definition default_props : TUTORIAL_PG_Properties := {|
  current_chapter := 1;
  current_stage := 1;
  stage_complete := false;
  monitoring_active := false;
  initial_position := Vec3 0 0 0;
  initial_rotation := Vec3 0 0 0;
  initial_scale := Vec3 1 1 1;
  initial_view_distance := 0;
  initial_view_location := Vec3 0 0 0;
  initial_vertex_count := 0;
  initial_edge_count := 0;
  initial_face_count := 0;
  initial_vertex_positions := [];
  last_check_time := 0
|}.

(** Property writes.  [current_chapter] and [current_stage] are declared
    with [min=1, max=5]; the counters have the default limits. *)
Definition set_current_chapter (v : Z) (p : TUTORIAL_PG_Properties) :=
  {| current_chapter := IntProperty_set 1 5 v;
     current_stage := current_stage p;
     stage_complete := stage_complete p;
     monitoring_active := monitoring_active p;
     initial_position := initial_position p;
     initial_rotation := initial_rotation p;
     initial_scale := initial_scale p;
     initial_view_distance := initial_view_distance p;
     initial_view_location := initial_view_location p;
     initial_vertex_count := initial_vertex_count p;
     initial_edge_count := initial_edge_count p;
     initial_face_count := initial_face_count p;
     initial_vertex_positions := initial_vertex_positions p;
     last_check_time := last_check_time p |}.

Definition set_current_stage (v : Z) (p : TUTORIAL_PG_Properties) :=
  {| current_chapter := current_chapter p;
     current_stage := IntProperty_set 1 5 v;
     stage_complete := stage_complete p;
     monitoring_active := monitoring_active p;
     initial_position := initial_position p;
     initial_rotation := initial_rotation p;
     initial_scale := initial_scale p;
     initial_view_distance := initial_view_distance p;
     initial_view_location := initial_view_location p;
     initial_vertex_count := initial_vertex_count p;
     initial_edge_count := initial_edge_count p;
     initial_face_count := initial_face_count p;
     initial_vertex_positions := initial_vertex_positions p;
     last_check_time := last_check_time p |}.

Definition set_stage_complete (v : bool) (p : TUTORIAL_PG_Properties) :=
  {| current_chapter := current_chapter p;
     current_stage := current_stage p;
     stage_complete := v;
     monitoring_active := monitoring_active p;
     initial_position := initial_position p;
     initial_rotation := initial_rotation p;
     initial_scale := initial_scale p;
     initial_view_distance := initial_view_distance p;
     initial_view_location := initial_view_location p;
     initial_vertex_count := initial_vertex_count p;
     initial_edge_count := initial_edge_count p;
     initial_face_count := initial_face_count p;
     initial_vertex_positions := initial_vertex_positions p;
     last_check_time := last_check_time p |}.

Definition set_monitoring_active (v : bool) (p : TUTORIAL_PG_Properties) :=
  {| current_chapter := current_chapter p;
     current_stage := current_stage p;
     stage_complete := stage_complete p;
     monitoring_active := v;
     initial_position := initial_position p;
     initial_rotation := initial_rotation p;
     initial_scale := initial_scale p;
     initial_view_distance := initial_view_distance p;
     initial_view_location := initial_view_location p;
     initial_vertex_count := initial_vertex_count p;
     initial_edge_count := initial_edge_count p;
     initial_face_count := initial_face_count p;
     initial_vertex_positions := initial_vertex_positions p;
     last_check_time := last_check_time p |}.

(** The transform baseline of chapter 1. *)
Definition set_initial_transform (pos rot scl : vec3) (p : TUTORIAL_PG_Properties) :=
  {| current_chapter := current_chapter p;
     current_stage := current_stage p;
     stage_complete := stage_complete p;
     monitoring_active := monitoring_active p;
     initial_position := pos;
     initial_rotation := rot;
     initial_scale := scl;
     initial_view_distance := initial_view_distance p;
     initial_view_location := initial_view_location p;
     initial_vertex_count := initial_vertex_count p;
     initial_edge_count := initial_edge_count p;
     initial_face_count := initial_face_count p;
     initial_vertex_positions := initial_vertex_positions p;
     last_check_time := last_check_time p |}.

(** The view baseline of chapter 2. *)
Definition set_initial_view (dist : float) (loc : vec3) (p : TUTORIAL_PG_Properties) :=
  {| current_chapter := current_chapter p;
     current_stage := current_stage p;
     stage_complete := stage_complete p;
     monitoring_active := monitoring_active p;
     initial_position := initial_position p;
     initial_rotation := initial_rotation p;
     initial_scale := initial_scale p;
     initial_view_distance := dist;
     initial_view_location := loc;
     initial_vertex_count := initial_vertex_count p;
     initial_edge_count := initial_edge_count p;
     initial_face_count := initial_face_count p;
     initial_vertex_positions := initial_vertex_positions p;
     last_check_time := last_check_time p |}.

(** The element counts of chapter 3. *)
Definition set_initial_counts (v e f : Z) (p : TUTORIAL_PG_Properties) :=
  {| current_chapter := current_chapter p;
     current_stage := current_stage p;
     stage_complete := stage_complete p;
     monitoring_active := monitoring_active p;
     initial_position := initial_position p;
     initial_rotation := initial_rotation p;
     initial_scale := initial_scale p;
     initial_view_distance := initial_view_distance p;
     initial_view_location := initial_view_location p;
     initial_vertex_count := IntProperty_set int_min int_max v;
     initial_edge_count := IntProperty_set int_min int_max e;
     initial_face_count := IntProperty_set int_min int_max f;
     initial_vertex_positions := initial_vertex_positions p;
     last_check_time := last_check_time p |}.

(** The vertex baseline of chapter 4: the collection and the count. *)
Definition set_initial_vertices (vs : list vec3) (n : Z) (p : TUTORIAL_PG_Properties) :=
  {| current_chapter := current_chapter p;
     current_stage := current_stage p;
     stage_complete := stage_complete p;
     monitoring_active := monitoring_active p;
     initial_position := initial_position p;
     initial_rotation := initial_rotation p;
     initial_scale := initial_scale p;
     initial_view_distance := initial_view_distance p;
     initial_view_location := initial_view_location p;
     initial_vertex_count := IntProperty_set int_min int_max n;
     initial_edge_count := initial_edge_count p;
     initial_face_count := initial_face_count p;
     initial_vertex_positions := vs;
     last_check_time := last_check_time p |}.

(* ================================================================= *)
(** ** StageManager: reading the host *)

Module StageManager.

Section Validators.

(** The C library's [pow], reached through Python's power operator. *)
Variable float_pow : float -> float -> float.

(** [try: body / except: return default]. *)
Definition except_return {A : Type} (body : result A) (default : A) : A :=
  match body with
  | Ok a => a
  | Raise _ => default
  end.

Definition find_cube (h : Host) : option Object :=
  except_return
    (objs <- data_objects h ;;
     Ok (find (fun obj => String.eqb (type obj) "MESH" && str_in "Cube" (name obj)) objs))
    None.

Definition find_sphere (h : Host) : option Object :=
  except_return
    (objs <- data_objects h ;;
     Ok (find (fun obj => String.eqb (type obj) "MESH" && str_in "Sphere" (name obj)) objs))
    None.

Definition get_bm (h : Host) (obj : option Object) : option BMesh :=
  except_return
    (match obj with
     | None => Ok None
     | Some o =>
         if negb (String.eqb (type o) "MESH") then Ok None
         else
           mode <- context_mode h ;;
           if negb (String.eqb mode "EDIT_MESH") then Ok None
           else bm <- from_edit_mesh (data o) ;; Ok (Some bm)
     end)
    None.

Definition get_mesh_element_count (obj : option Object) : Z * Z * Z :=
  match obj with
  | Some o =>
      if String.eqb (type o) "MESH" then
        match data o with
        | Some m => (Z.of_nat (List.length (vertices m)),
                     Z.of_nat (mesh_edges m),
                     Z.of_nat (polygons m))
        | None => (0, 0, 0)
        end
      else (0, 0, 0)
  | None => (0, 0, 0)
  end.

(** The two nested loops of [get_view3d_space]. *)
Fixpoint first_view3d_space (areas : list Area) : option Space :=
  match areas with
  | [] => None
  | area :: rest =>
      if String.eqb (area_type area) "VIEW_3D" then
        match find (fun space => String.eqb (space_type space) "VIEW_3D")
                   (spaces area) with
        | Some space => Some space
        | None => first_view3d_space rest
        end
      else first_view3d_space rest
  end.

Definition get_view3d_space (h : Host) : option Space :=
  except_return
    (areas <- context_screen_areas h ;; Ok (first_view3d_space areas))
    None.

Definition calculate_vertex_distance (v_co init_co : vec3) : float :=
  let dx := (x v_co - x init_co)%float in
  let dy := (y v_co - y init_co)%float in
  let dz := (z v_co - z init_co)%float in
  float_pow (dx * dx + dy * dy + dz * dz)%float 0.5%float.

Definition is_in_sculpt_mode (h : Host) : bool :=
  except_return (mode <- context_mode h ;; Ok (String.eqb mode "SCULPT")) false.

Definition is_undo_running (h : Host) : bool :=
  except_return (depth <- wm_undo_depth h ;; Ok (0 <? depth)) false.

Definition get_current_brush_name (h : Host) : option string :=
  except_return
    (ts <- context_tool_settings h ;;
     Ok match ts with
        | Some settings =>
            match sculpt settings with
            | Some sc =>
                match brush sc with
                | Some b => Some (brush_name b)
                | None => None
                end
            | None => None
            end
        | None => None
        end)
    None.

Definition is_brush_type_selected (h : Host) (brush_type_name : string) : bool :=
  match get_current_brush_name h with
  | Some EmptyString => false
  | Some brush_name => str_in brush_type_name brush_name
  | None => false
  end.

(** One turn of the loop of [get_vertex_deformation_amount]; a failed
    index is the [IndexError] the loop skips with [continue].  The
    tests [not v], [v.co is None] and [not init_co] never hold: a mesh
    vertex and a stored vector of size 3 are truthy. *)
Definition deformation_step (current initial : list vec3)
           (acc : nat * float) (i : nat) : nat * float :=
  let '(moved, total_distance) := acc in
  match nth_error current i, nth_error initial i with
  | Some v_co, Some init_co =>
      let dist := calculate_vertex_distance v_co init_co in
      if gt dist 0.001%float
      then (S moved, (total_distance + dist)%float)
      else (moved, total_distance)
  | _, _ => (moved, total_distance)
  end.

Definition get_vertex_deformation_amount
           (sphere : option Object) (initial_positions : list vec3)
  : nat * float :=
  match sphere with
  | None => (O, 0%float)
  | Some s =>
      match data s with
      | None => (O, 0%float)
      | Some mesh =>
          match vertices mesh with
          | [] => (O, 0%float)
          | _ =>
              let current_vert_count := List.length (vertices mesh) in
              let initial_vert_count := List.length initial_positions in
              let compare_count := Nat.min current_vert_count initial_vert_count in
              if Nat.eqb compare_count 0 then (O, 0%float)
              else fold_left (deformation_step (vertices mesh) initial_positions)
                             (seq 0 compare_count) (O, 0%float)
          end
      end
  end.

Definition get_active_material (obj : option Object) : option Material :=
  match obj with
  | None => None
  | Some o =>
      match data o with
      | None => None
      | Some _ =>
          match material_slots o with
          | [] => None
          | _ => if active_material_index o <? 0 then None
                 else active_material o
          end
      end
  end.

(** [material.node_tree.nodes] and [material.node_tree.links]. *)
Definition node_tree_nodes (m : Material) : result (list Node) :=
  match node_tree m with
  | Some t => Ok (nodes t)
  | None => Raise (AttributeError "'NoneType' object has no attribute 'nodes'")
  end.

Definition node_tree_links (m : Material) : result (list NodeLink) :=
  match node_tree m with
  | Some t => Ok (links t)
  | None => Raise (AttributeError "'NoneType' object has no attribute 'links'")
  end.

Definition get_principled_bsdf (material : option Material) : option Node :=
  match material with
  | None => None
  | Some m =>
      if negb (use_nodes m) then None
      else except_return
             (ns <- node_tree_nodes m ;;
              Ok (find (fun node => String.eqb (node_type node) "BSDF_PRINCIPLED") ns))
             None
  end.

Definition check_image_texture_node_exists (obj : option Object) : bool :=
  match get_active_material obj with
  | None => false
  | Some mat =>
      if negb (use_nodes mat) then false
      else except_return
             (ns <- node_tree_nodes mat ;;
              Ok (any (fun node => String.eqb (node_type node) "TEX_IMAGE"
                                   && match image node with
                                      | Some _ => true
                                      | None => false
                                      end) ns))
             false
  end.

(** The first loop of [check_correct_node_link]: every matching node
    overwrites the one remembered so far. *)
Definition remember_node (acc : option Node * option Node) (node : Node)
  : option Node * option Node :=
  let '(image_texture_node, bsdf_node) := acc in
  (if String.eqb (node_type node) "TEX_IMAGE" then Some node else image_texture_node,
   if String.eqb (node_type node) "BSDF_PRINCIPLED" then Some node else bsdf_node).

Definition link_is_correct (image_texture_node bsdf_node : Node) (link : NodeLink)
  : bool :=
  Nat.eqb (from_node link) (node_ptr image_texture_node)
  && Nat.eqb (to_node link) (node_ptr bsdf_node)
  && String.eqb (from_socket_name link) "Color"
  && String.eqb (to_socket_name link) "Base Color".

Definition check_correct_node_link (obj : option Object) : bool :=
  match get_active_material obj with
  | None => false
  | Some mat =>
      if negb (use_nodes mat) then false
      else except_return
             (ns <- node_tree_nodes mat ;;
              match fold_left remember_node ns (None, None) with
              | (Some image_texture_node, Some bsdf_node) =>
                  ls <- node_tree_links mat ;;
                  Ok (any (link_is_correct image_texture_node bsdf_node) ls)
              | _ => Ok false
              end)
             false
  end.

(* --------------------------------------------------------------- *)
(** *** validate_stage *)

Definition outcome : Type := (bool * message)%type.

(** [obj and obj.name == "Cube"]. *)
Definition is_cube (obj : option Object) : option Object :=
  match obj with
  | Some o => if String.eqb (name o) "Cube" then Some o else None
  | None => None
  end.

(** Chapter 1: object transform.  [None] is a stage with no branch. *)
Definition validate_chapter1 (props : TUTORIAL_PG_Properties)
           (obj : option Object) : option outcome :=
  let current_stage := current_stage props in
  if current_stage =? 1 then
    match is_cube obj with
    | Some _ => Some (true, [Lit "✓ キューブが選択されました"])
    | None => Some (false, [Lit "❌ キューブを選択してください"])
    end
  else if current_stage =? 2 then
    match is_cube obj with
    | Some o =>
        let movement := (x (location o) - vec_get (initial_position props) 0)%float in
        if lt (abs (movement - 2.0)) 0.1%float
        then Some (true, [Lit "✓ +2移動しました"])
        else Some (false, [Lit "❌ 移動: "; FloatFmt 2 movement])
    | None => Some (false, [Lit "❌ キューブなし"])
    end
  else if current_stage =? 3 then
    match is_cube obj with
    | Some o =>
        let rot := (degrees (x (rotation_euler o))
                    - degrees (vec_get (initial_rotation props) 0))%float in
        if lt (abs (rot - 45.0)) 1.0%float
        then Some (true, [Lit "✓ 45度回転しました"])
        else Some (false, [Lit "❌ 回転: "; FloatFmt 1 rot; Lit "°"])
    | None => Some (false, [Lit "❌ キューブなし"])
    end
  else if current_stage =? 4 then
    match is_cube obj with
    | Some o =>
        let scale_changed :=
          gt (abs (x (scale o) - vec_get (initial_scale props) 0)) 0.01%float in
        if scale_changed
        then Some (true, [Lit "✓ スケール変更完了"])
        else Some (false, [Lit "❌ スケール値を変更してください"])
    | None => Some (false, [Lit "❌ キューブなし"])
    end
  else None.

(** [sum((view_location[i] - initial_view_location[i])**2
        for i in range(3))**0.5]; [sum] starts from [0]. *)
Definition loc_diff (props : TUTORIAL_PG_Properties) (region_3d : RegionView3D)
  : float :=
  float_pow
    (fold_left
       (fun acc i =>
          (acc + float_pow (vec_get (view_location region_3d) i
                            - vec_get (initial_view_location props) i) 2)%float)
       (seq 0 3) 0%float)
    0.5%float.

Definition dist_diff (props : TUTORIAL_PG_Properties) (region_3d : RegionView3D)
  : float :=
  abs (view_distance region_3d - initial_view_distance props).

(** Chapter 2: the 3D view. *)
Definition validate_chapter2 (h : Host) (props : TUTORIAL_PG_Properties)
  : option outcome :=
  let current_stage := current_stage props in
  match get_view3d_space h with
  | None => Some (false, [Lit "❌ 3Dビューなし"])
  | Some space =>
      match region_3d space with
      | None => Some (false, [Lit "❌ 3Dビューなし"])
      | Some region_3d =>
          if current_stage =? 1 then
            if gt (loc_diff props region_3d) 0.1%float
            then Some (true, [Lit "✓ ビュー移動完了"])
            else Some (false, [Lit "❌ ビューをパンしてください"])
          else if current_stage =? 2 then
            if gt (dist_diff props region_3d) 0.5%float
            then Some (true, [Lit "✓ ズーム完了"])
            else Some (false, [Lit "❌ ズームしてください"])
          else if current_stage =? 3 then
            if gt (loc_diff props region_3d) 0.01%float
               || gt (dist_diff props region_3d) 0.01%float
            then Some (true, [Lit "✓ ビュー回転完了"])
            else Some (false, [Lit "❌ ビューを回転させてください"])
          else if current_stage =? 4 then
            if gt (loc_diff props region_3d) 0.1%float
               && gt (dist_diff props region_3d) 0.5%float
            then Some (true, [Lit "✓ すべてのビュー操作をマスターしました"])
            else Some (false, [Lit "❌ パン + ズームを実行してください"])
          else None
      end
  end.

(** Chapter 3: mesh editing.  Stage 1 reads [bpy.context.mode] outside
    any helper, so a fault there leaves the function's [try] block. *)
Definition validate_chapter3 (h : Host) (props : TUTORIAL_PG_Properties)
           (obj : option Object) : result (option outcome) :=
  let current_stage := current_stage props in
  if current_stage =? 1 then
    match obj with
    | Some _ =>
        mode <- context_mode h ;;
        if String.eqb mode "EDIT_MESH"
        then Ok (Some (true, [Lit "✓ エディットモード突入"]))
        else Ok (Some (false, [Lit "❌ エディットモードに入ってください"]))
    | None => Ok (Some (false, [Lit "❌ エディットモードに入ってください"]))
    end
  else if current_stage =? 2 then
    match get_bm h obj with
    | Some bm =>
        let sel_count := Z.of_nat (count (fun v => v) (verts bm)) in
        if 3 <=? sel_count
        then Ok (Some (true, [Lit "✓ 頂点選択: "; IntFmt sel_count; Lit "個"]))
        else Ok (Some (false, [Lit "❌ 頂点を選択してください ("; IntFmt sel_count; Lit "個)"]))
    | None => Ok (Some (false, [Lit "❌ エディットモード必須"]))
    end
  else if current_stage =? 3 then
    match get_bm h obj with
    | Some bm =>
        if any (fun e => e) (edges bm)
        then Ok (Some (true, [Lit "✓ エッジ選択完了"]))
        else Ok (Some (false, [Lit "❌ エッジを選択してください"]))
    | None => Ok (Some (false, [Lit "❌ エッジを選択してください"]))
    end
  else if current_stage =? 4 then
    match get_bm h obj with
    | Some bm =>
        if any (fun f => f) (faces bm)
        then Ok (Some (true, [Lit "✓ フェース選択完了"]))
        else Ok (Some (false, [Lit "❌ フェースを選択してください"]))
    | None => Ok (Some (false, [Lit "❌ フェースを選択してください"]))
    end
  else if current_stage =? 5 then
    match get_bm h obj with
    | Some bm =>
        let n := Z.of_nat (List.length (faces bm)) in
        if initial_face_count props <? n
        then Ok (Some (true, [Lit "✓ 押し出し完了: "; IntFmt (initial_face_count props);
                              Lit "→"; IntFmt n]))
        else Ok (Some (false, [Lit "❌ 面を押し出してください"]))
    | None => Ok (Some (false, [Lit "❌ 面を押し出してください"]))
    end
  else if current_stage =? 6 then
    match get_bm h obj with
    | Some bm =>
        let n := Z.of_nat (List.length (verts bm)) in
        if initial_vertex_count props <? n
        then Ok (Some (true, [Lit "✓ ループカット完了: "; IntFmt (initial_vertex_count props);
                              Lit "��"; IntFmt n]))
        else Ok (Some (false, [Lit "❌ ループカットを追加してください"]))
    | None => Ok (Some (false, [Lit "❌ ループカットを追加してください"]))
    end
  else Ok None.

(** [{brush_name}] inside an f-string. *)
Definition fmt_name (brush_name : option string) : piece :=
  match brush_name with
  | Some s => StrFmt s
  | None => NoneFmt
  end.

(** [brush_name if brush_name else "未選択"]. *)
Definition current_brush (brush_name : option string) : string :=
  match brush_name with
  | Some EmptyString => "未選択"
  | Some s => s
  | None => "未選択"
  end.

(** Chapter 4: sculpting. *)
Definition validate_chapter4 (h : Host) (props : TUTORIAL_PG_Properties)
  : option outcome :=
  let current_stage := current_stage props in
  let sphere := find_sphere h in
  if current_stage =? 1 then
    if is_in_sculpt_mode h then
      match sphere with
      | Some _ => Some (true, [Lit "✓ スカルプトモード入場"])
      | None => Some (false, [Lit "❌ スカルプトモードに入ってください"])
      end
    else Some (false, [Lit "❌ スカルプトモードに入ってください"])
  else if current_stage =? 2 then
    match is_in_sculpt_mode h, sphere with
    | true, Some _ =>
        let '(moved, total_dist) :=
          get_vertex_deformation_amount sphere (initial_vertex_positions props) in
        if (5 <? moved)%nat
        then Some (true, [Lit "✓ Draw ブラシで変形: "; IntFmt (Z.of_nat moved); Lit "頂点"])
        else Some (false, [Lit "❌ Draw ブラシで球を変形 ("; IntFmt (Z.of_nat moved); Lit "頂点)"])
    | _, _ => Some (false, [Lit "❌ スカルプトモード必須"])
    end
  else if current_stage =? 3 then
    if is_in_sculpt_mode h then
      let brush_name := get_current_brush_name h in
      if is_brush_type_selected h "Smooth"
      then Some (true, [Lit "✓ Smooth ブラシを選択しました ("; fmt_name brush_name; Lit ")"])
      else Some (false, [Lit "❌ Smooth ブラシを選択してください (現在: ";
                         StrFmt (current_brush brush_name); Lit ")"])
    else Some (false, [Lit "❌ スカルプトモード必須"])
  else if current_stage =? 4 then
    if is_in_sculpt_mode h then
      let brush_name := get_current_brush_name h in
      if is_brush_type_selected h "Grab"
      then Some (true, [Lit "✓ Grab ブラシを選択しました ("; fmt_name brush_name; Lit ")"])
      else Some (false, [Lit "❌ Grab ブラシを選択してください (現在: ";
                         StrFmt (current_brush brush_name); Lit ")"])
    else Some (false, [Lit "❌ スカルプトモード必須"])
  else None.

Definition no_object : outcome := (false, [Lit "❌ オブジェクトを選択してください"]).
Definition error_outcome (e : exn) : outcome := (false, [Lit "❌ エラー: "; ExnFmt e]).

(** [bsdf.inputs['Base Color'].default_value] read as four channels. *)
Definition as_color (v : socket_value) : result (list float) :=
  match v with
  | SVColor r g b a => Ok [r; g; b; a]
  | SVFloat _ => Raise (TypeError "'float' object is not subscriptable")
  end.

(** A socket value used as an operand of [-]. *)
Definition as_float (v : socket_value) : result float :=
  match v with
  | SVFloat f => Ok f
  | SVColor _ _ _ _ =>
      Raise (TypeError "unsupported operand type(s) for -: 'bpy_prop_array' and 'float'")
  end.

(** [try: body / except Exception as e: return False, f"❌ エラー: {str(e)}"]. *)
Definition except_error (body : result outcome) : outcome :=
  match body with
  | Ok r => r
  | Raise e => error_outcome e
  end.

Definition validate_base_color (bsdf : Node) : outcome :=
  except_error
    (sv <- socket_lookup (inputs bsdf) "Base Color" ;;
     base_color <- as_color sv ;;
     let changed := any (fun c => gt (abs (c - 1.0)) 0.01%float) base_color in
     if changed
     then Ok (true, [Lit "✓ ベースカラーを変更しました: RGB(";
                     FloatFmt 2 (nth 0 base_color 0%float); Lit ", ";
                     FloatFmt 2 (nth 1 base_color 0%float); Lit ", ";
                     FloatFmt 2 (nth 2 base_color 0%float); Lit ")"])
     else Ok (false, [Lit "❌ Base Color を変更してください"])).

Definition validate_pbr (bsdf : Node) : outcome :=
  except_error
    (rv <- socket_lookup (inputs bsdf) "Roughness" ;;
     mv <- socket_lookup (inputs bsdf) "Metallic" ;;
     let default_roughness := 0.5%float in
     let default_metallic := 0.0%float in
     roughness <- as_float rv ;;
     let roughness_changed := gt (abs (roughness - default_roughness)) 0.01%float in
     metallic <- as_float mv ;;
     let metallic_changed := gt (abs (metallic - default_metallic)) 0.01%float in
     if roughness_changed || metallic_changed then
       let changed_params :=
         (if roughness_changed then [[Lit "Roughness: "; FloatFmt 2 roughness]] else [])
         ++ (if metallic_changed then [[Lit "Metallic: "; FloatFmt 2 metallic]] else []) in
       Ok (true, Lit "✓ PBR パラメータを変更: " :: join ", " changed_params)
     else Ok (false, [Lit "❌ Roughness または Metallic を変更してください"])).

(** Chapter 5: materials. *)
Definition validate_chapter5 (props : TUTORIAL_PG_Properties)
           (obj : option Object) : option outcome :=
  let current_stage := current_stage props in
  if current_stage =? 1 then
    match obj with
    | Some _ =>
        match get_active_material obj with
        | Some material =>
            if use_nodes material
            then Some (true, [Lit "✓ マテリアル作成完了"])
            else Some (false, [Lit "❌ マテリアルを作成してください"])
        | None => Some (false, [Lit "❌ マテリアルを作成してください"])
        end
    | None => Some no_object
    end
  else if current_stage =? 2 then
    match obj with
    | Some _ =>
        match get_active_material obj with
        | Some material =>
            match get_principled_bsdf (Some material) with
            | Some bsdf => Some (validate_base_color bsdf)
            | None => Some (false, [Lit "❌ Principled BSDF が見つかりません"])
            end
        | None => Some (false, [Lit "❌ アクティブなマテリアルがありません"])
        end
    | None => Some no_object
    end
  else if current_stage =? 3 then
    match obj with
    | Some _ =>
        if check_image_texture_node_exists obj
        then Some (true, [Lit "✓ 画像テクスチャをロードしました"])
        else Some (false, [Lit "❌ Image Texture ノードに画像をロードしてください"])
    | None => Some no_object
    end
  else if current_stage =? 4 then
    match obj with
    | Some _ =>
        if check_correct_node_link obj
        then Some (true, [Lit "✓ ノードを正しく接続しました"])
        else Some (false, [Lit "❌ ImageTexture の Color を Principled BSDF の BaseColor に接続して��ださい"])
    | None => Some no_object
    end
  else if current_stage =? 5 then
    match obj with
    | Some _ =>
        match get_active_material obj with
        | Some material =>
            match get_principled_bsdf (Some material) with
            | Some bsdf => Some (validate_pbr bsdf)
            | None => Some (false, [Lit "❌ Principled BSDF が見つかりません"])
            end
        | None => Some (false, [Lit "❌ アクティブなマテリアルがありません"])
        end
    | None => Some no_object
    end
  else None.

(** The [try] block of [validate_stage]: [Ok None] when no branch
    returned, [Raise] when a read outside the helpers faulted. *)
Definition validate_stage_try (h : Host) (props : TUTORIAL_PG_Properties)
  : result (option outcome) :=
  let current_chapter := current_chapter props in
  let obj := context_active_object h in
  if current_chapter =? 1 then Ok (validate_chapter1 props obj)
  else if current_chapter =? 2 then Ok (validate_chapter2 h props)
  else if current_chapter =? 3 then validate_chapter3 h props obj
  else if current_chapter =? 4 then Ok (validate_chapter4 h props)
  else if current_chapter =? 5 then Ok (validate_chapter5 props obj)
  else Ok None.

(** [validate_stage(context)]: the [try] block, its handler, and the
    final [return] for a chapter or stage with no branch. *)
Definition validate_stage (h : Host) (props : TUTORIAL_PG_Properties)
  : result outcome :=
  try_except
    (r <- validate_stage_try h props ;;
     match r with
     | Some o => Ok o
     | None => Ok (false, [Lit "❌ 判定エラー"])
     end)
    (fun e => Ok (error_outcome e)).

End Validators.

End StageManager.

Import StageManager.

(* ================================================================= *)
(** ** The running add-on: state, trace, and the operator monad *)

Inductive op_status : Type := FINISHED | CANCELLED | PASS_THROUGH | RUNNING_MODAL.

(** What an operator does besides changing the properties. *)
Inductive event : Type :=
| EvValidate (chapter stage : Z)            (* a call of validate_stage *)
| EvReport (level : string) (msg : message) (* self.report({level}, msg) *)
| EvTimerAdd (timer : nat)                  (* wm.event_timer_add *)
| EvTimerRemove (timer : nat).              (* wm.event_timer_remove *)

Record State : Type := {
  host : Host;                     (* Blender, as bpy shows it *)
  props : TUTORIAL_PG_Properties;  (* context.scene.tutorial_props *)
  timers : list nat;               (* the window manager's timers *)
  trace : list event               (* oldest first *)
}.

Definition with_props (f : TUTORIAL_PG_Properties -> TUTORIAL_PG_Properties)
           (s : State) : State :=
  {| host := host s; props := f (props s); timers := timers s; trace := trace s |}.

Definition with_host (h : Host) (s : State) : State :=
  {| host := h; props := props s; timers := timers s; trace := trace s |}.

Definition emit (ev : event) (s : State) : State :=
  {| host := host s; props := props s; timers := timers s; trace := trace s ++ [ev] |}.

Definition report (level : string) (msg : message) : State -> State :=
  emit (EvReport level msg).

(** An operator body: it may raise, and what it did before raising stays
    done. *)
Definition M (A : Type) : Type := State -> result A * State.

Definition ret {A : Type} (a : A) : M A := fun s => (Ok a, s).

Definition bindM {A B : Type} (m : M A) (k : A -> M B) : M B :=
  fun s => match m s with
           | (Ok a, s') => k a s'
           | (Raise e, s') => (Raise e, s')
           end.

Notation "x <~ m ;; k" := (bindM m (fun x => k))
  (at level 61, m at next level, right associativity).
Notation "m ;;; k" := (bindM m (fun _ => k))
  (at level 61, right associativity).

(** [try: m / except: pass]. *)
Definition try_pass (m : M unit) : M unit :=
  fun s => match m s with
           | (_, s') => (Ok tt, s')
           end.

(** A read of the host that may fault. *)
Definition read {A : Type} (r : Host -> result A) : M A :=
  fun s => (r (host s), s).

(** A read that cannot fault. *)
Definition gets {A : Type} (f : State -> A) : M A := fun s => (Ok (f s), s).

(** A write to the property group. *)
Definition modify_props (f : TUTORIAL_PG_Properties -> TUTORIAL_PG_Properties)
  : M unit :=
  fun s => (Ok tt, with_props f s).

(** A Blender operator or data write acting on the host. *)
Definition host_action : Type := Host -> result unit * Host.

Definition run_action (a : host_action) : M unit :=
  fun s => let '(r, h') := a (host s) in (r, with_host h' s).

(** The parts of Blender that [TUTORIAL_OT_setup_stage] drives.  Their
    code is Blender's, so each is a parameter. *)
Record BpyOps : Type := {
  (* bpy.ops.object.select_all(action='SELECT') *)
  object_select_all : host_action;
  (* bpy.ops.object.delete(use_global=False) *)
  object_delete : host_action;
  (* bpy.ops.mesh.primitive_cube_add(size=2, location=(0, 0, 0)) *)
  mesh_primitive_cube_add : host_action;
  (* bpy.ops.mesh.primitive_uv_sphere_add(radius=1.0, location=(0, 0, 0)) *)
  mesh_primitive_uv_sphere_add : host_action;
  (* bpy.ops.object.mode_set(mode=...) *)
  object_mode_set : string -> host_action;
  (* bpy.context.view_layer.update() *)
  view_layer_update : host_action;
  (* obj.name = ... on the active object *)
  set_active_name : string -> host_action;
  (* cube.location, cube.rotation_euler, cube.scale = ... on the active object *)
  set_active_transform : vec3 -> vec3 -> vec3 -> host_action;
  (* bpy.context.view_layer.objects.active = obj; obj.select_set(True) *)
  make_active : Object -> host_action;
  (* bm = bmesh.from_edit_mesh(cube.data); clear every select flag;
     bmesh.update_edit_mesh(cube.data) *)
  deselect_edit_mesh : host_action;
  (* StageManager.open_shader_editor_at_bottom(): screen-area splitting
     through bpy.ops.screen; it catches every exception itself *)
  open_shader_editor_at_bottom : Host -> bool * Host
}.

(* ================================================================= *)
(** ** The operators *)

Section Operators.

Variable float_pow : float -> float -> float.
Variable ops : BpyOps.

(** [obj = bpy.context.active_object] followed by an attribute access:
    [None] has no attributes. *)
Definition active_object_ref : M Object :=
  obj <~ gets (fun s => context_active_object (host s)) ;;
  match obj with
  | Some o => ret o
  | None => fun s => (Raise (AttributeError "'NoneType' object has no attribute 'name'"), s)
  end.

(** The object a Python variable was bound to, after later operator
    calls: the add-on only keeps references to the active object. *)
Definition bound_object : M (option Object) :=
  gets (fun s => context_active_object (host s)).

(** The counts of [get_mesh_element_count] stored as the baseline. *)
Definition capture_counts : M unit :=
  cube <~ bound_object ;;
  let '(verts, edges, faces) := get_mesh_element_count cube in
  modify_props (set_initial_counts verts edges faces).

(** Leave every element of the edit-mesh unselected. *)
Definition enter_edit_mode_deselected : M unit :=
  run_action (object_mode_set ops "EDIT") ;;;
  run_action (view_layer_update ops) ;;;
  run_action (deselect_edit_mesh ops).

Definition new_cube : M unit :=
  run_action (mesh_primitive_cube_add ops) ;;;
  _ <~ active_object_ref ;;
  run_action (set_active_name ops "Cube").

Definition setup_chapter1 : M unit :=
  try_pass (run_action (object_select_all ops) ;;;
            run_action (object_delete ops)) ;;;
  new_cube ;;;
  run_action (set_active_transform ops (Vec3 0 0 0) (Vec3 0 0 0) (Vec3 1 1 1)) ;;;
  cube <~ active_object_ref ;;
  modify_props (set_initial_transform (location cube) (rotation_euler cube) (scale cube)).

Definition setup_chapter2 : M unit :=
  space <~ gets (fun s => get_view3d_space (host s)) ;;
  match space with
  | Some sp =>
      match region_3d sp with
      | Some region => modify_props (set_initial_view (view_distance region)
                                                      (view_location region))
      | None => ret tt
      end
  | None => ret tt
  end.

Definition setup_chapter3 (current_stage : Z) : M unit :=
  cube <~ gets (fun s => find_cube (host s)) ;;
  match cube with
  | None => ret tt
  | Some c =>
      try_pass (if String.eqb (mode c) "EDIT"
                then run_action (object_mode_set ops "OBJECT")
                else ret tt) ;;;
      run_action (make_active ops c) ;;;
      enter_edit_mode_deselected ;;;
      capture_counts ;;;
      if current_stage =? 6 then
        run_action (object_mode_set ops "OBJECT") ;;;
        try_pass (run_action (object_delete ops)) ;;;
        new_cube ;;;
        enter_edit_mode_deselected ;;;
        capture_counts
      else ret tt
  end.

(** [try: mode_set(SCULPT) / except: mode_set(SCULPT)]. *)
Definition enter_sculpt_mode : M unit :=
  fun s => match run_action (object_mode_set ops "SCULPT") s with
           | (Ok u, s') => (Ok u, s')
           | (Raise _, s') => run_action (object_mode_set ops "SCULPT") s'
           end.

Definition setup_chapter4 : M unit :=
  try_pass (run_action (object_select_all ops) ;;;
            run_action (object_delete ops)) ;;;
  run_action (mesh_primitive_uv_sphere_add ops) ;;;
  _ <~ active_object_ref ;;
  run_action (set_active_name ops "Sphere") ;;;
  enter_sculpt_mode ;;;
  run_action (view_layer_update ops) ;;;
  sphere <~ bound_object ;;
  let positions := match sphere with
                   | Some o => match data o with
                               | Some m => vertices m
                               | None => []
                               end
                   | None => []
                   end in
  let '(verts, _, _) := get_mesh_element_count sphere in
  modify_props (set_initial_vertices positions verts).

Definition setup_chapter5 (current_stage : Z) : M unit :=
  try_pass (run_action (object_mode_set ops "OBJECT")) ;;;
  objs <~ read data_objects ;;
  cube <~ match find (fun obj => String.eqb (type obj) "MESH") objs with
          | Some c => ret c
          | None => new_cube ;;; active_object_ref
          end ;;
  run_action (make_active ops cube) ;;;
  if current_stage =? 1
  then fun s => let '(_, h') := open_shader_editor_at_bottom ops (host s) in
                (Ok tt, with_host h' s)
  else ret tt.

(** The [try] block of [TUTORIAL_OT_setup_stage.execute] up to the two
    flag writes. *)
Definition setup_prepare : M unit :=
  p <~ gets props ;;
  let current_chapter := current_chapter p in
  let current_stage := current_stage p in
  if current_chapter =? 1 then setup_chapter1
  else if current_chapter =? 2 then setup_chapter2
  else if current_chapter =? 3 then setup_chapter3 current_stage
  else if current_chapter =? 4 then setup_chapter4
  else if current_chapter =? 5 then setup_chapter5 current_stage
  else ret tt.

Definition setup_stage_execute (s : State) : op_status * State :=
  match setup_prepare s with
  | (Ok _, s') =>
      (FINISHED,
       report "INFO" [Lit "セットアップ完了"]
         (with_props (fun p => set_monitoring_active true (set_stage_complete false p)) s'))
  | (Raise e, s') => (CANCELLED, report "ERROR" [ExnFmt e] s')
  end.

(** [TUTORIAL_OT_validate_stage.execute]. *)
Definition validate_stage_execute (s : State) : op_status * State :=
  let s := emit (EvValidate (current_chapter (props s)) (current_stage (props s))) s in
  match validate_stage float_pow (host s) (props s) with
  | Ok (is_complete, message) =>
      if is_complete
      then (FINISHED, report "INFO" message (with_props (set_stage_complete true) s))
      else (FINISHED, report "WARNING" message s)
  | Raise e => (CANCELLED, report "ERROR" [Lit "エラー: "; ExnFmt e] s)
  end.

Definition max_stages_per_chapter : list (Z * Z) :=
  [(1, 4); (2, 4); (3, 6); (4, 4); (5, 5)].

(** [TUTORIAL_OT_next_stage.execute]. *)
Definition next_stage_execute (s : State) : op_status * State :=
  let max_stages := dict_get max_stages_per_chapter (current_chapter (props s)) 4 in
  if current_stage (props s) <? max_stages then
    let s := with_props (fun p => set_current_stage (current_stage p + 1) p) s in
    let s := with_props (fun p => set_monitoring_active false (set_stage_complete false p)) s in
    (FINISHED, report "INFO" [Lit "第"; IntFmt (current_chapter (props s));
                              Lit "章 ステージ"; IntFmt (current_stage (props s))] s)
  else if current_chapter (props s) <? 5 then
    let s := with_props (fun p => set_current_stage 1
                                    (set_current_chapter (current_chapter p + 1) p)) s in
    let s := with_props (fun p => set_monitoring_active false (set_stage_complete false p)) s in
    (FINISHED, report "INFO" [Lit "第"; IntFmt (current_chapter (props s));
                              Lit "章 ステージ"; IntFmt (current_stage (props s))] s)
  else (FINISHED, report "INFO" [Lit "完了!"] s).

(** [TUTORIAL_OT_reset.execute]. *)
Definition reset_execute (s : State) : op_status * State :=
  let s := with_props (fun p => set_monitoring_active false
                                 (set_stage_complete false
                                    (set_current_stage 1
                                       (set_current_chapter 1 p)))) s in
  (FINISHED, report "INFO" [Lit "リセット完了"] s).

(** [TUTORIAL_OT_goto_chapter]: its own [chapter] property is declared
    with [min=1, max=5] as well. *)
Record TUTORIAL_OT_goto_chapter : Type := { chapter : Z }.

Definition goto_chapter_with (n : Z) : TUTORIAL_OT_goto_chapter :=
  {| chapter := IntProperty_set 1 5 n |}.

Definition goto_chapter_execute (self : TUTORIAL_OT_goto_chapter) (s : State)
  : op_status * State :=
  let s := with_props (fun p => set_monitoring_active false
                                 (set_stage_complete false
                                    (set_current_stage 1
                                       (set_current_chapter (chapter self) p)))) s in
  (FINISHED, report "INFO" [Lit "第"; IntFmt (chapter self); Lit "章へ移動"] s).

End Operators.

(* ================================================================= *)
(** ** The monitoring operator and a session of the add-on *)

Section Monitoring.

Variable float_pow : float -> float -> float.
Variable ops : BpyOps.

(** [StageManager.check_stage]. *)
Definition check_stage (s : State) : State :=
  let s := emit (EvValidate (current_chapter (props s)) (current_stage (props s))) s in
  match validate_stage float_pow (host s) (props s) with
  | Ok (is_complete, _) =>
      if is_complete && negb (stage_complete (props s))
      then with_props (set_stage_complete true) s
      else s
  | Raise _ => s
  end.

(** The instance attributes of [TUTORIAL_OT_monitoring]. *)
Record TUTORIAL_OT_monitoring : Type := {
  _timer : option nat;
  _last_check : float
}.

Definition event_timer_remove (t : nat) (s : State) : State :=
  emit (EvTimerRemove t)
    {| host := host s; props := props s;
       timers := List.remove Nat.eq_dec t (timers s); trace := trace s |}.

Definition event_timer_add (s : State) : nat * State :=
  let t := S (list_max (timers s)) in
  (t, emit (EvTimerAdd t)
        {| host := host s; props := props s;
           timers := timers s ++ [t]; trace := trace s |}).

(** [TUTORIAL_OT_monitoring.modal(self, context, event)]. *)
Definition modal (self : TUTORIAL_OT_monitoring) (event_type : string) (s : State)
  : op_status * TUTORIAL_OT_monitoring * State :=
  if String.eqb event_type "TIMER" then
    if negb (monitoring_active (props s)) then
      (FINISHED, self,
       match _timer self with
       | Some t => event_timer_remove t s
       | None => s
       end)
    else if is_undo_running (host s) then (PASS_THROUGH, self, s)
    else
      let current_time := time_time (host s) in
      if gt (current_time - _last_check self) 0.2%float
      then (PASS_THROUGH,
            {| _timer := _timer self; _last_check := current_time |},
            check_stage s)
      else (PASS_THROUGH, self, s)
  else (PASS_THROUGH, self, s).

(** [TUTORIAL_OT_monitoring.execute]. *)
Definition monitoring_execute (s : State)
  : op_status * TUTORIAL_OT_monitoring * State :=
  let '(t, s') := event_timer_add s in
  (RUNNING_MODAL, {| _timer := Some t; _last_check := time_time (host s') |}, s').

(** The add-on at work: the shared state and the modal operators that
    are still running. *)
Record Session : Type := {
  state : State;
  monitors : list TUTORIAL_OT_monitoring
}.

(** What can happen to a session: a button of the panel, an event
    handed to the modal operators, or the user changing Blender. *)
Inductive command : Type :=
| Setup
| Validate
| Advance
| Reset
| GotoChapter (n : Z)
| StartMonitoring
| Deliver (event_type : string)
| HostChange (h : Host).

(** An event goes to every running modal operator; one that returns
    FINISHED or CANCELLED stops running. *)
Fixpoint deliver (event_type : string) (ms : list TUTORIAL_OT_monitoring)
         (s : State) : list TUTORIAL_OT_monitoring * State :=
  match ms with
  | [] => ([], s)
  | m :: rest =>
      let '(status, m', s') := modal m event_type s in
      let '(rest', s'') := deliver event_type rest s' in
      (match status with
       | FINISHED | CANCELLED => rest'
       | _ => m' :: rest'
       end, s'')
  end.

Definition step (c : command) (ss : Session) : Session :=
  match c with
  | Setup =>
      {| state := snd (setup_stage_execute ops (state ss)); monitors := monitors ss |}
  | Validate =>
      {| state := snd (validate_stage_execute float_pow (state ss));
         monitors := monitors ss |}
  | Advance =>
      {| state := snd (next_stage_execute (state ss)); monitors := monitors ss |}
  | Reset =>
      {| state := snd (reset_execute (state ss)); monitors := monitors ss |}
  | GotoChapter n =>
      {| state := snd (goto_chapter_execute (goto_chapter_with n) (state ss));
         monitors := monitors ss |}
  | StartMonitoring =>
      let '(_, m, s') := monitoring_execute (state ss) in
      {| state := s'; monitors := m :: monitors ss |}
  | Deliver event_type =>
      let '(ms, s') := deliver event_type (monitors ss) (state ss) in
      {| state := s'; monitors := ms |}
  | HostChange h =>
      {| state := with_host h (state ss); monitors := monitors ss |}
  end.

Definition run (cs : list command) (ss : Session) : Session :=
  fold_left (fun acc c => step c acc) cs ss.

(** The session right after the add-on is registered. *)
Definition initial_session (h : Host) : Session :=
  {| state := {| host := h; props := default_props; timers := []; trace := [] |};
     monitors := [] |}.

End Monitoring.

(** The position the lesson is at. *)
Definition position (s : State) : Z * Z :=
  (current_chapter (props s), current_stage (props s)).

(* ================================================================= *)
(** ** The stage catalog *)

Module Catalog.

Inductive info_value : Type :=
| VStr (s : string)
| VBool (b : bool).

(** A stage's dict, as its items. *)
Definition StageInfo : Type := list (string * info_value).

Definition newline : string := String (Ascii.ascii_of_nat 10) EmptyString.

Definition stages_chapter1 : list (Z * StageInfo) :=
  [(1,
     [("title", VStr "第1章: 基本操作");
      ("name", VStr "ステージ1: キューブを選択");
      ("description", VStr "キューブを選択してください");
      ("control", VStr "");
      ("manual", VBool false)]);
   (2,
     [("title", VStr "第1章: 基本操作");
      ("name", VStr "ステージ2: キューブを移動");
      ("description", VStr "X軸方向に+2移動");
      ("control", VStr "");
      ("manual", VBool false)]);
   (3,
     [("title", VStr "第1章: 基本操作");
      ("name", VStr "ス���ージ3: キューブを回転");
      ("description", VStr "X軸周りに45度回転");
      ("control", VStr "");
      ("manual", VBool false)]);
   (4,
     [("title", VStr "第1章: 基本操作");
      ("name", VStr "ステージ4: スケール変更");
      ("description", VStr "サイズを変更");
      ("control", VStr "");
      ("manual", VBool false)])
  ].

Definition stages_chapter2 : list (Z * StageInfo) :=
  [(1,
     [("title", VStr "第2章: ビュー操作");
      ("name", VStr "ステージ1: ビューを移動");
      ("description", VStr "Shift + 中ボタンでパン");
      ("control", VStr "Shift + 中ボタンドラッグ");
      ("manual", VBool false)]);
   (2,
     [("title", VStr "第2章: ビュー操作");
      ("name", VStr "ステージ2: ズーム");
      ("description", VStr "中ボタンスクロール");
      ("control", VStr "中ボタンスクロール");
      ("manual", VBool false)]);
   (3,
     [("title", VStr "第2章: ビュー操作");
      ("name", VStr "ステージ3: ビュー回転");
      ("description", VStr "中ボタンドラッグ");
      ("control", VStr "中ボタンドラッグ");
      ("manual", VBool false)]);
   (4,
     [("title", VStr "第2章: ビュー操作");
      ("name", VStr "ステージ4: すべてマスター");
      ("description", VStr "すべての操作を実行");
      ("control", VStr "すべてのビュー操作");
      ("manual", VBool false)])
  ].

Definition stages_chapter3 : list (Z * StageInfo) :=
  [(1,
     [("title", VStr "第3章: モデリング基礎");
      ("name", VStr "ステージ1: エディットモード");
      ("description", VStr "Tab キーで切り替え");
      ("control", VStr "Tab キー");
      ("manual", VBool false)]);
   (2,
     [("title", VStr "第3章: モデリング基礎");
      ("name", VStr "ステージ2: 頂点選択");
      ("description", VStr "3個以上の頂点を選択");
      ("control", VStr "1 キー");
      ("manual", VBool false)]);
   (3,
     [("title", VStr "第3章: モデリング基礎");
      ("name", VStr "ステージ3: エッジ選択");
      ("description", VStr "エッジを選択");
      ("control", VStr "2 キー");
      ("manual", VBool false)]);
   (4,
     [("title", VStr "第3章: モデリング基礎");
      ("name", VStr "ステージ4: フェース選択");
      ("description", VStr "フェースを選択");
      ("control", VStr "3 キー");
      ("manual", VBool false)]);
   (5,
     [("title", VStr "第3章: モデリング基礎");
      ("name", VStr "ステージ5: エクストルード");
      ("description", VStr "E キーで押し出し");
      ("control", VStr "E キー");
      ("manual", VBool false)]);
   (6,
     [("title", VStr "第3章: モデリング基礎");
      ("name", VStr "ステージ6: ループカット");
      ("description", VStr "Ctrl+R でループカット");
      ("control", VStr "Ctrl+R");
      ("manual", VBool false)])
  ].

Definition stages_chapter4 : list (Z * StageInfo) :=
  [(1,
     [("title", VStr "第4章: スカルプティング体験");
      ("name", VStr "ステージ1: スカルプトモード");
      ("description", VStr "Sculpt Mode に入ってください");
      ("control", VStr "");
      ("manual", VBool false)]);
   (2,
     [("title", VStr "第4章: スカルプティング体験");
      ("name", VStr "ステージ2: Draw ブラシを使う");
      ("description", VStr "Draw ブラシで球の表面を変形");
      ("control", VStr "Draw ブラシでドラッグ");
      ("manual", VBool false);
      ("tip", VStr "💡 ヒント: 自由に実験してみよう!")]);
   (3,
     [("title", VStr "第4章: スカルプティング体験");
      ("name", VStr "ステージ3: Smooth ブラシに切り替え");
      ("description", VStr "Smooth ブラシを選択してください");
      ("control", VStr "Smooth ブラシを選択");
      ("manual", VBool false);
      ("tip", VStr "💡 ヒント: 自由に実験してみよう!")]);
   (4,
     [("title", VStr "第4章: スカルプティング体験");
      ("name", VStr "ステージ4: Grab ブラシに切り替え");
      ("description", VStr "Grab ブラシを選択してください");
      ("control", VStr "Grab ブラシを選択");
      ("manual", VBool false);
      ("tip", VStr "💡 ヒント: 自由に実験してみよう!")])
  ].

Definition stages_chapter5 : list (Z * StageInfo) :=
  [(1,
     [("title", VStr "第5章: マテリアルノード");
      ("name", VStr "🟢 ステージ1: マテリアル作成");
      ("description", VStr "「新規」ボタンを押す");
      ("details", VStr (String.concat newline ["上部メニューの 「シェーディング」 を選択し,"; "表示されたタブの 「新規」 ボタンを押してマテリアルを作成しよう!"]));
      ("control", VStr "");
      ("manual", VBool false)]);
   (2,
     [("title", VStr "第5章: マテリアルノード");
      ("name", VStr "🟢 ステージ2: 色変更");
      ("description", VStr "Base Color を変更");
      ("details", VStr (String.concat newline ["「プリンシプルBSDF」ノードの"; "ベースカラー を変更して,オブジェクトの色を変えてみよう!"]));
      ("control", VStr "");
      ("manual", VBool false)]);
   (3,
     [("title", VStr "第5章: マテリアルノード");
      ("name", VStr "🟢 ステージ3: 画像テクスチャ追加");
      ("description", VStr "追加 → 画像テクスチャで画像読み込み");
      ("details", VStr (String.concat newline ["メニューから"; ""; "追加 → テクスチャ → 画像テクスチャ"; ""; "を選択し,好きな画像を読み込んでみよう!"]));
      ("control", VStr "");
      ("manual", VBool false)]);
   (4,
     [("title", VStr "第5章: マテリアルノード");
      ("name", VStr "🟢 ステージ4: ノード接続");
      ("description", VStr "ImageTexture → BaseColor に接続");
      ("details", VStr (String.concat newline ["ImageTexture ノードの Color 出力を"; "Principled BSDF のベースカラー入力に接続してみよう!"]));
      ("control", VStr "");
      ("manual", VBool false)]);
   (5,
     [("title", VStr "第5章: マテリアルノード");
      ("name", VStr "🟢 ステージ5: 質感調整");
      ("description", VStr "Roughness または Metallic を変更");
      ("details", VStr (String.concat newline ["Principled BSDF の"; "ラフネス または メタリック を変更して,"; "リアルな素材の見た目を作ってみよう!"]));
      ("control", VStr "");
      ("manual", VBool false)])
  ].

(** [stages.get(stage_num, {})]. *)
Fixpoint stages_get (stages : list (Z * StageInfo)) (stage_num : Z) : StageInfo :=
  match stages with
  | [] => []
  | (k, info) :: rest => if k =? stage_num then info else stages_get rest stage_num
  end.

Definition get_stage_info (chapter_num stage_num : Z) : StageInfo :=
  if chapter_num =? 1 then stages_get stages_chapter1 stage_num
  else if chapter_num =? 2 then stages_get stages_chapter2 stage_num
  else if chapter_num =? 3 then stages_get stages_chapter3 stage_num
  else if chapter_num =? 4 then stages_get stages_chapter4 stage_num
  else if chapter_num =? 5 then stages_get stages_chapter5 stage_num
  else [].

End Catalog.

(* ================================================================= *)
(** ** Vocabulary of the statements *)

Module Spec.

(** The [complete] component of a validator's answer. *)
Definition complete (r : result outcome) : bool :=
  match r with
  | Ok (c, _) => c
  | Raise _ => false
  end.

(** The [complete] component of a chapter's answer, [false] when the
    stage has no branch. *)
Definition complete_opt (r : option outcome) : bool :=
  match r with
  | Some (c, _) => c
  | None => false
  end.

(** A (chapter, stage) pair the lesson table knows. *)
Definition has_validator (chapter stage : Z) : bool :=
  (1 <=? stage) && (stage <=? dict_get max_stages_per_chapter chapter 0).

(** The stages of one chapter of the table, in order. *)
Definition stages_of (entry : Z * Z) : list (Z * Z) :=
  map (fun k => (fst entry, Z.of_nat k)) (seq 1 (Z.to_nat (snd entry))).

(** The sequence of positions the table defines, (1,1) to (5,5). *)
Definition lesson_sequence : list (Z * Z) :=
  flat_map stages_of max_stages_per_chapter.

(** One press of the advance button. *)
Definition advance (s : State) : State := snd (next_stage_execute s).

(** What one press does to the position alone. *)
Definition advance_position (pos : Z * Z) : Z * Z :=
  let '(chapter, stage) := pos in
  if stage <? dict_get max_stages_per_chapter chapter 4
  then (chapter, IntProperty_set 1 5 (stage + 1))
  else if chapter <? 5 then (IntProperty_set 1 5 (chapter + 1), 1)
  else (chapter, stage).

(** The first [n] positions seen when advancing from [s]. *)
Fixpoint visited (n : nat) (s : State) : list (Z * Z) :=
  match n with
  | O => []
  | S n' => position s :: visited n' (advance s)
  end.

(** Some scale axis is off its baseline by more than 0.01. *)
Definition any_scale_axis_changed (o : Object) (p : TUTORIAL_PG_Properties) : bool :=
  any (fun i => gt (abs (vec_get (scale o) i - vec_get (initial_scale p) i)) 0.01%float)
      (seq 0 3).

(** The X scale is off its baseline by more than 0.01. *)
Definition x_scale_changed (o : Object) (p : TUTORIAL_PG_Properties) : bool :=
  gt (abs (x (scale o) - x (initial_scale p))) 0.01%float.

(** The vertex coordinates of an object's mesh. *)
Definition current_vertices (o : Object) : list vec3 :=
  match data o with
  | Some m => vertices m
  | None => []
  end.

(** Vertex indices below both counts whose current position lies more
    than 0.001 from the baseline position of the same index. *)
Definition moved_count (float_pow : float -> float -> float)
           (current baseline : list vec3) : nat :=
  count (fun i => gt (calculate_vertex_distance float_pow
                        (nth i current (Vec3 0 0 0))
                        (nth i baseline (Vec3 0 0 0)))
                     0.001%float)
        (seq 0 (Nat.min (List.length current) (List.length baseline))).

(** The last node of a type in node order. *)
Fixpoint last_of_type (ty : string) (ns : list Node) : option Node :=
  match ns with
  | [] => None
  | n :: rest =>
      match last_of_type ty rest with
      | Some m => Some m
      | None => if String.eqb (node_type n) ty then Some n else None
      end
  end.

Definition is_node_of_type (ty : string) (ptr : nat) (ns : list Node) : bool :=
  any (fun n => String.eqb (node_type n) ty && Nat.eqb (node_ptr n) ptr) ns.

(** Some link goes from the "Color" output of an image-texture node to
    the "Base Color" input of a Principled BSDF node. *)
Definition image_color_into_base_color (t : NodeTree) : bool :=
  any (fun l => is_node_of_type "TEX_IMAGE" (from_node l) (nodes t)
                && is_node_of_type "BSDF_PRINCIPLED" (to_node l) (nodes t)
                && String.eqb (from_socket_name l) "Color"
                && String.eqb (to_socket_name l) "Base Color")
      (links t).

(** The node graph of the active material of an object. *)
Definition active_node_tree (o : Object) : option NodeTree :=
  match get_active_material (Some o) with
  | Some mat => node_tree mat
  | None => None
  end.

(** How many times a trace evaluates the validator. *)
Definition validations (tr : list event) : nat :=
  count (fun ev => match ev with EvValidate _ _ => true | _ => false end) tr.

(** The answer a validation in state [s] obtains. *)
Definition validate_answer (float_pow : float -> float -> float) (s : State)
  : result outcome :=
  validate_stage float_pow (host s) (props s).

(** The two callers of the validator: the button and the poll loop. *)
Inductive check : Type := ByButton | ByPoll.

Definition validate_once (float_pow : float -> float -> float)
           (c : check) (s : State) : State :=
  match c with
  | ByButton => snd (validate_stage_execute float_pow s)
  | ByPoll => check_stage float_pow s
  end.

(** A validation after the user has changed Blender to [fst hc]. *)
Definition validate_under (float_pow : float -> float -> float)
           (s : State) (hc : Host * check) : State :=
  validate_once float_pow (snd hc) (with_host (fst hc) s).

(** An operator body that leaves the stored position alone. *)
Definition keeps_position {A : Type} (m : M A) : Prop :=
  forall s r s', m s = (r, s') -> position s' = position s.

(** The declared bounds of the stored position. *)
Definition in_bounds (p : TUTORIAL_PG_Properties) : Prop :=
  1 <= current_chapter p <= 5 /\ 1 <= current_stage p <= 5.

End Spec.

(* ================================================================= *)
(** ** Sample hosts *)

Module Sample.

(** A [pow] that squares and takes square roots with correct rounding,
    the two exponents the validators use. *)
Definition libm_pow (b e : float) : float :=
  if (e =? 0.5)%float then sqrt b
  else if (e =? 2)%float then (b * b)%float
  else nan.

(** Operators that succeed and leave Blender as it is. *)
Definition idle : host_action := fun h => (Ok tt, h).

Definition idle_ops : BpyOps := {|
  object_select_all := idle;
  object_delete := idle;
  mesh_primitive_cube_add := idle;
  mesh_primitive_uv_sphere_add := idle;
  object_mode_set := fun _ => idle;
  view_layer_update := idle;
  set_active_name := fun _ => idle;
  set_active_transform := fun _ _ _ => idle;
  make_active := fun _ => idle;
  deselect_edit_mesh := idle;
  open_shader_editor_at_bottom := fun h => (true, h)
|}.

Definition mesh_of (vs : list vec3) : Mesh :=
  {| vertices := vs; mesh_edges := 0; polygons := 0; edit_bmesh := None |}.

Definition object_named (n : string) (scl : vec3) (vs : list vec3)
           (slots : list (option Material)) : Object :=
  {| name := n; type := "MESH";
     location := Vec3 0 0 0; rotation_euler := Vec3 0 0 0; scale := scl;
     data := Some (mesh_of vs); mode := "OBJECT";
     material_slots := slots; active_material_index := 0 |}.

Definition plain_cube : Object := object_named "Cube" (Vec3 1 1 1) [] [].

(** Blender with one object, active, in the given mode, and one 3D
    view. *)
Definition host_with (o : Object) (mode : string) (view : RegionView3D) : Host :=
  {| context_active_object := Some o;
     context_mode := Ok mode;
     context_screen_areas :=
       Ok [{| area_type := "VIEW_3D";
              spaces := [{| space_type := "VIEW_3D"; region_3d := Some view |}] |}];
     context_tool_settings := Ok None;
     data_objects := Ok [o];
     wm_undo_depth := Ok 0;
     time_time := 0 |}.


Definition home_view : RegionView3D :=
  {| view_location := Vec3 0 0 0; view_distance := 0 |}.

(** The view moved 0.2 along X from the origin, at a given distance. *)
Definition panned_host (dist : float) : Host :=
  host_with plain_cube "OBJECT"
            {| view_location := Vec3 0.2 0 0; view_distance := dist |}.

(** A sphere of six vertices, each one unit from the origin, being
    sculpted. *)
Definition six_vertices : list vec3 :=
  [Vec3 1 0 0; Vec3 (-1) 0 0; Vec3 0 1 0; Vec3 0 (-1) 0; Vec3 0 0 1; Vec3 0 0 (-1)].

Definition sculpted_sphere : Object :=
  object_named "Sphere" (Vec3 1 1 1) six_vertices [].

Definition sculpted_host : Host := host_with sculpted_sphere "SCULPT" home_view.

(** Shader nodes: two image textures and the Principled BSDF. *)
Definition texture_a : Node :=
  {| node_ptr := 1; node_type := "TEX_IMAGE"; image := Some "a.png"; inputs := [] |}.

Definition texture_b : Node :=
  {| node_ptr := 2; node_type := "TEX_IMAGE"; image := Some "b.png"; inputs := [] |}.

Definition principled : Node :=
  {| node_ptr := 3; node_type := "BSDF_PRINCIPLED"; image := None;
     inputs := [("Base Color", SVColor 1 1 1 1);
                ("Metallic", SVFloat 0);
                ("Roughness", SVFloat 0.5)] |}.

(** The link from the first texture's "Color" to "Base Color". *)
Definition color_link : NodeLink :=
  {| from_node := 1; to_node := 3;
     from_socket_name := "Color"; to_socket_name := "Base Color" |}.

Definition one_texture_tree : NodeTree :=
  {| nodes := [texture_a; principled]; links := [color_link] |}.

Definition two_texture_tree : NodeTree :=
  {| nodes := [texture_a; texture_b; principled]; links := [color_link] |}.

(** A second Principled BSDF, added after the linked one. *)
Definition principled_b : Node :=
  {| node_ptr := 4; node_type := "BSDF_PRINCIPLED"; image := None;
     inputs := [("Base Color", SVColor 1 1 1 1);
                ("Metallic", SVFloat 0);
                ("Roughness", SVFloat 0.5)] |}.

Definition two_principled_tree : NodeTree :=
  {| nodes := [texture_a; principled; principled_b]; links := [color_link] |}.

Definition material_of (t : NodeTree) : Material :=
  {| use_nodes := true; node_tree := Some t |}.

Definition shaded_cube (t : NodeTree) : Object :=
  object_named "Cube" (Vec3 1 1 1) [] [Some (material_of t)].

Definition shading_host (t : NodeTree) : Host :=
  host_with (shaded_cube t) "OBJECT" home_view.

(** The property group at a position, baselines at their defaults. *)
Definition props_at (chapter stage : Z) : TUTORIAL_PG_Properties :=
  set_current_stage stage (set_current_chapter chapter default_props).

(** Chapter 4 stage 2 with a baseline of six vertices at the origin. *)
Definition sculpt_props : TUTORIAL_PG_Properties :=
  set_initial_vertices (repeat (Vec3 0 0 0) 6) 6 (props_at 4 2).

(** An undo in progress while the monitor is armed. *)
Definition undoing_host : Host :=
  {| context_active_object := Some plain_cube;
     context_mode := Ok "OBJECT";
     context_screen_areas := Ok [];
     context_tool_settings := Ok None;
     data_objects := Ok [plain_cube];
     wm_undo_depth := Ok 1;
     time_time := 10 |}.

Definition armed_props : TUTORIAL_PG_Properties :=
  set_monitoring_active true (props_at 1 1).

(** A finished stage left over from before the next setup. *)
Definition finished_props : TUTORIAL_PG_Properties :=
  set_stage_complete true (props_at 1 1).

Definition state_of (h : Host) (p : TUTORIAL_PG_Properties) : State :=
  {| host := h; props := p; timers := []; trace := [] |}.

End Sample.

(* ================================================================= *)
(** ** Further vocabulary *)

Module More.

Import Spec.

(** Positions in lesson order: by chapter, then by stage. *)
Definition pos_le (a b : Z * Z) : Prop :=
  fst a < fst b \/ (fst a = fst b /\ snd a <= snd b).

(** The two flags of the property group. *)
Definition flags (p : TUTORIAL_PG_Properties) : bool * bool :=
  (stage_complete p, monitoring_active p).

(** The captured baseline of the property group. *)
Definition baseline (p : TUTORIAL_PG_Properties)
  : vec3 * vec3 * vec3 * float * vec3 * Z * Z * Z * list vec3 :=
  (initial_position p, initial_rotation p, initial_scale p,
   initial_view_distance p, initial_view_location p,
   initial_vertex_count p, initial_edge_count p, initial_face_count p,
   initial_vertex_positions p).

(** An operator body that leaves the two flags alone. *)
Definition keeps_flags {A : Type} (m : M A) : Prop :=
  forall s r s', m s = (r, s') -> flags (props s') = flags (props s).

(** [needle] occurs in [hay]. *)
Definition occurs_in (needle hay : string) : Prop :=
  exists before after, hay = String.append before (String.append needle after).

(** [info.get(key)] on a stage's dict. *)
Fixpoint info_get (info : Catalog.StageInfo) (key : string) : option Catalog.info_value :=
  match info with
  | [] => None
  | (k, v) :: rest => if String.eqb k key then Some v else info_get rest key
  end.

(** A descriptor with the five entries every stage has. *)
Definition well_formed_info (info : Catalog.StageInfo) : Prop :=
  (exists s, info_get info "title" = Some (Catalog.VStr s))
  /\ (exists s, info_get info "name" = Some (Catalog.VStr s))
  /\ (exists s, info_get info "description" = Some (Catalog.VStr s))
  /\ (exists s, info_get info "control" = Some (Catalog.VStr s))
  /\ info_get info "manual" = Some (Catalog.VBool false).

(** A 3D view with its region is on screen. *)
Definition view_available (h : Host) : Prop :=
  exists space region, get_view3d_space h = Some space /\ region_3d space = Some region.

(** What Setup's preparation must not disturb: where the lesson is, the
    flags, the timers and the trace. *)
Definition control (s : State) : Z * Z * (bool * bool) * list nat * list event :=
  (position s, flags (props s), timers s, trace s).

Definition keeps_control {A : Type} (m : M A) : Prop :=
  forall s r s', m s = (r, s') -> control s' = control s.

(** Two timer ticks in a row, the second on what the first left. *)
Definition two_ticks (float_pow : float -> float -> float)
           (self : TUTORIAL_OT_monitoring) (s : State)
  : op_status * TUTORIAL_OT_monitoring * State :=
  let '(_, self1, s1) := modal float_pow self "TIMER" s in
  modal float_pow self1 "TIMER" s1.

End More.

(* ================================================================= *)
(** ** More sample hosts *)

Module Sample2.

Import Sample.

(** A cube moved along X. *)
Definition moved_cube (dx : float) : Object :=
  {| name := "Cube"; type := "MESH";
     location := Vec3 dx 0 0; rotation_euler := Vec3 0 0 0; scale := Vec3 1 1 1;
     data := Some (mesh_of []); mode := "OBJECT";
     material_slots := []; active_material_index := 0 |}.

(** A cube being edited, with the given selection flags. *)
Definition edited_cube (bm : BMesh) : Object :=
  {| name := "Cube"; type := "MESH";
     location := Vec3 0 0 0; rotation_euler := Vec3 0 0 0; scale := Vec3 1 1 1;
     data := Some {| vertices := []; mesh_edges := 0; polygons := 0;
                     edit_bmesh := Some bm |};
     mode := "EDIT";
     material_slots := []; active_material_index := 0 |}.

Definition three_selected : BMesh :=
  {| verts := [true; true; true; false]; edges := []; faces := [] |}.

(** Sculpt mode with a brush in hand. *)
Definition brush_host (brush_name : string) : Host :=
  {| context_active_object := None;
     context_mode := Ok "SCULPT";
     context_screen_areas := Ok [];
     context_tool_settings :=
       Ok (Some {| sculpt := Some {| brush := Some {| Bpy.brush_name := brush_name |} |} |});
     data_objects := Ok [];
     wm_undo_depth := Ok 0;
     time_time := 0 |}.

(** A Principled BSDF with a changed roughness. *)
Definition rough_principled : Node :=
  {| node_ptr := 3; node_type := "BSDF_PRINCIPLED"; image := None;
     inputs := [("Base Color", SVColor 1 1 1 1);
                ("Metallic", SVFloat 0);
                ("Roughness", SVFloat 0.8)] |}.

(** A Principled BSDF that lost its sockets. *)
Definition bare_principled : Node :=
  {| node_ptr := 3; node_type := "BSDF_PRINCIPLED"; image := None; inputs := [] |}.

Definition tree_of (ns : list Node) : NodeTree := {| nodes := ns; links := [] |}.

End Sample2.

(* ================================================================= *)
(** ** Proof tools *)

Import Spec.

(** Split on the scrutinee of the first [match] or [if] of the goal. *)
Ltac break_match :=
  match goal with
  | |- context [match ?x with _ => _ end] => destruct x eqn:?
  | |- context [if ?x then _ else _] => destruct x eqn:?
  end.

(** Split on every integer equality test of the goal. *)
Ltac split_eqb :=
  repeat match goal with
         | |- context [Z.eqb ?a ?b] => destruct (Z.eqb_spec a b)
         end.

Section ValidatorFacts.

Variable float_pow : float -> float -> float.

Lemma validate_stage_of_try (h : Host) (p : TUTORIAL_PG_Properties) :
  validate_stage float_pow h p =
  match validate_stage_try float_pow h p with
  | Ok (Some o) => Ok o
  | Ok None => Ok (false, [Lit "❌ 判定エラー"])
  | Raise e => Ok (error_outcome e)
  end.
Proof.
  unfold validate_stage, try_except, bind.
  destruct (validate_stage_try float_pow h p) as [[o|]|e]; reflexivity.
Qed.

Lemma complete_validate_stage (h : Host) (p : TUTORIAL_PG_Properties) :
  complete (validate_stage float_pow h p) =
  match validate_stage_try float_pow h p with
  | Ok r => complete_opt r
  | Raise _ => false
  end.
Proof.
  rewrite validate_stage_of_try.
  destruct (validate_stage_try float_pow h p) as [[[c m]|]|e]; reflexivity.
Qed.

Lemma validate_stage_total (h : Host) (p : TUTORIAL_PG_Properties) :
  exists c msg, validate_stage float_pow h p = Ok (c, msg).
Proof.
  rewrite validate_stage_of_try.
  unfold error_outcome.
  destruct (validate_stage_try float_pow h p) as [[[c m]|]|e]; eauto.
Qed.

Lemma complete_false_msg (h : Host) (p : TUTORIAL_PG_Properties) :
  complete (validate_stage float_pow h p) = false ->
  exists msg, validate_stage float_pow h p = Ok (false, msg).
Proof.
  destruct (validate_stage_total h p) as (c & msg & E).
  rewrite E. simpl. intros ->. eauto.
Qed.

Lemma complete_true_msg (h : Host) (p : TUTORIAL_PG_Properties) :
  complete (validate_stage float_pow h p) = true <->
  exists msg, validate_stage float_pow h p = Ok (true, msg).
Proof.
  split.
  - destruct (validate_stage_total h p) as (c & msg & E).
    rewrite E. simpl. intros ->. eauto.
  - intros (msg & E). rewrite E. reflexivity.
Qed.

(** A stage outside the table has no branch in its chapter. *)
Lemma unknown_stage_chapter1 p obj :
  has_validator 1 (current_stage p) = false -> validate_chapter1 p obj = None.
Proof.
  unfold has_validator, validate_chapter1. simpl. intros H.
  split_eqb; try reflexivity; exfalso; lia.
Qed.




Lemma get_bm_none (h : Host) : get_bm h None = None.
Proof. reflexivity. Qed.


(** Chapter 3 answers [false] whenever [get_bm] has nothing to give. *)
Lemma chapter3_without_bm (h : Host) (p : TUTORIAL_PG_Properties) obj :
  get_bm h obj = None ->
  current_stage p <> 1 ->
  exists r, validate_chapter3 h p obj = Ok r /\ complete_opt r = false.
Proof.
  intros Hbm Hst. unfold validate_chapter3. rewrite Hbm.
  split_eqb; try contradiction; eexists; split; reflexivity.
Qed.

Lemma missing_object_incomplete (h : Host) (p : TUTORIAL_PG_Properties) :
  context_active_object h = None ->
  current_chapter p = 1 \/ current_chapter p = 3 \/ current_chapter p = 5 ->
  complete (validate_stage float_pow h p) = false.
Proof.
  intros Hobj Hch. rewrite complete_validate_stage.
  unfold validate_stage_try. rewrite Hobj.
  destruct Hch as [E|[E|E]]; rewrite E; simpl.
  - unfold validate_chapter1. simpl. split_eqb; reflexivity.
  - destruct (Z.eq_dec (current_stage p) 1) as [E1|N1].
    + unfold validate_chapter3. rewrite E1. reflexivity.
    + destruct (chapter3_without_bm h p None (get_bm_none h) N1) as (r & -> & Hr).
      exact Hr.
  - unfold validate_chapter5. simpl. split_eqb; reflexivity.
Qed.


Lemma not_sculpting_chapter4 (h : Host) (p : TUTORIAL_PG_Properties) :
  is_in_sculpt_mode h = false ->
  current_chapter p = 4 ->
  complete (validate_stage float_pow h p) = false.
Proof.
  intros Hm E. rewrite complete_validate_stage.
  unfold validate_stage_try, bind.
  rewrite E. simpl. unfold validate_chapter4. rewrite Hm.
  split_eqb; reflexivity.
Qed.


Lemma missing_sphere_incomplete (h : Host) (p : TUTORIAL_PG_Properties) :
  find_sphere h = None ->
  current_chapter p = 4 ->
  current_stage p = 1 \/ current_stage p = 2 ->
  complete (validate_stage float_pow h p) = false.
Proof.
  intros Hs E Hst. rewrite complete_validate_stage.
  unfold validate_stage_try, bind.
  rewrite E. simpl. unfold validate_chapter4. rewrite Hs.
  destruct Hst as [-> | ->]; simpl; destruct (is_in_sculpt_mode h); reflexivity.
Qed.

Lemma missing_view_incomplete (h : Host) (p : TUTORIAL_PG_Properties) :
  (forall space, get_view3d_space h = Some space -> region_3d space = None) ->
  current_chapter p = 2 ->
  complete (validate_stage float_pow h p) = false.
Proof.
  intros Hv E. rewrite complete_validate_stage.
  unfold validate_stage_try, bind.
  rewrite E. simpl. unfold validate_chapter2.
  destruct (get_view3d_space h) as [sp|]; [|reflexivity].
  rewrite (Hv sp eq_refl). reflexivity.
Qed.



End ValidatorFacts.

(* ================================================================= *)
(** ** The validator never raises *)



(* ================================================================= *)
(** ** Chapter 1, stage 4: the scale check *)

(** C3, as stated, fails: a cube scaled along Y only is off its baseline
    on one axis, and the validator answers (false, ...). *)
Lemma any_scale_axis_counterexample :
  let o := Sample.object_named "Cube" (Vec3 1 2 1) [] [] in
  let h := Sample.host_with o "OBJECT" Sample.home_view in
  let p := Sample.props_at 1 4 in
  context_active_object h = Some o
  /\ name o = "Cube"
  /\ any_scale_axis_changed o p = true
  /\ validate_stage Sample.libm_pow h p = Ok (false, [Lit "❌ スケール値を変更してください"]).
Proof. repeat split; reflexivity. Qed.

(** C3, amended: at chapter 1 stage 4 the validator answers complete=true
    if and only if the active object is named "Cube" and its X scale is
    off the baseline X scale by more than 0.01. *)
Theorem chapter1_stage4_checks_x_scale
        (float_pow : float -> float -> float) (h : Host) (p : TUTORIAL_PG_Properties) :
  current_chapter p = 1 ->
  current_stage p = 4 ->
  ((exists msg, validate_stage float_pow h p = Ok (true, msg))
   <-> exists o, context_active_object h = Some o
                 /\ name o = "Cube"
                 /\ x_scale_changed o p = true).
Proof.
  intros Hc Hs. rewrite <- complete_true_msg, complete_validate_stage.
  unfold validate_stage_try, bind, validate_chapter1, is_cube, x_scale_changed.
  rewrite Hc, Hs. simpl.
  destruct (context_active_object h) as [o|]; simpl.
  - destruct (String.eqb_spec (name o) "Cube") as [En|Nn].
    + destruct (gt (abs (x (scale o) - x (initial_scale p))) 0.01%float) eqn:G; simpl.
      * split; [intros _; exists o; auto | reflexivity].
      * split; [discriminate|].
        intros (o' & Ho & _ & G'). inversion Ho; subst o'. congruence.
    + split; [discriminate|].
      intros (o' & Ho & Hn & _). inversion Ho; subst o'. contradiction.
  - split; [discriminate | intros (o' & Ho & _); discriminate Ho].
Qed.

Lemma chapter1_stage4_checks_x_scale_witness :
  exists msg,
    validate_stage Sample.libm_pow
      (Sample.host_with (Sample.object_named "Cube" (Vec3 1.5 1 1) [] [])
                        "OBJECT" Sample.home_view)
      (Sample.props_at 1 4)
    = Ok (true, msg).
Proof.
  apply (proj2 (chapter1_stage4_checks_x_scale Sample.libm_pow _ (Sample.props_at 1 4)
                  eq_refl eq_refl)).
  eexists. repeat split; reflexivity.
Defined.

(* ================================================================= *)
(** ** Chapter 2, stage 4: pan and zoom together *)

Section ViewFacts.

Variable float_pow : float -> float -> float.

(** The view-location difference is the square root of the sum of the
    three squared coordinate differences. *)
Lemma loc_diff_euclidean (p : TUTORIAL_PG_Properties) (r : RegionView3D) :
  loc_diff float_pow p r =
  float_pow
    (0 + float_pow (x (view_location r) - x (initial_view_location p)) 2
       + float_pow (y (view_location r) - y (initial_view_location p)) 2
       + float_pow (z (view_location r) - z (initial_view_location p)) 2)%float
    0.5%float.
Proof. reflexivity. Qed.

Lemma chapter2_stage4_answer (h : Host) (p : TUTORIAL_PG_Properties)
      space region :
  current_chapter p = 2 ->
  current_stage p = 4 ->
  get_view3d_space h = Some space ->
  region_3d space = Some region ->
  validate_stage float_pow h p =
  Ok (if gt (loc_diff float_pow p region) 0.1%float
         && gt (dist_diff p region) 0.5%float
      then (true, [Lit "✓ すべてのビュー操作をマスターしました"])
      else (false, [Lit "❌ パン + ズームを実行してください"])).
Proof.
  intros Hc Hs Hv Hr. rewrite validate_stage_of_try.
  unfold validate_stage_try, validate_chapter2.
  rewrite Hc, Hs, Hv, Hr. simpl.
  destruct (gt (loc_diff float_pow p region) 0.1%float
            && gt (dist_diff p region) 0.5%float); reflexivity.
Qed.

End ViewFacts.

(** C4: at chapter 2 stage 4 the validator answers complete=true if and
    only if a 3D view is on screen and, both at once, the Euclidean
    distance between the current and the baseline view location (the
    power 0.5 of the sum, started at 0, of the three squared coordinate
    differences) exceeds 0.1 and the absolute value of the view distance
    minus its baseline exceeds 0.5; deltas 0.2 and 0.3 give (false, ...),
    deltas 0.2 and 0.6 give (true, ...). *)
Theorem chapter2_stage4_needs_pan_and_zoom
        (float_pow : float -> float -> float) (h : Host) (p : TUTORIAL_PG_Properties) :
  current_chapter p = 2 ->
  current_stage p = 4 ->
  let location_delta (region : RegionView3D) : float :=
    float_pow
      (0 + float_pow (x (view_location region) - x (initial_view_location p)) 2
         + float_pow (y (view_location region) - y (initial_view_location p)) 2
         + float_pow (z (view_location region) - z (initial_view_location p)) 2)%float
      0.5%float in
  let distance_delta (region : RegionView3D) : float :=
    abs (view_distance region - initial_view_distance p) in
  ((exists msg, validate_stage float_pow h p = Ok (true, msg))
   <-> exists space region,
         get_view3d_space h = Some space
         /\ region_3d space = Some region
         /\ gt (location_delta region) 0.1%float = true
         /\ gt (distance_delta region) 0.5%float = true)
  /\ (forall space region,
        get_view3d_space h = Some space ->
        region_3d space = Some region ->
        location_delta region = 0.2%float ->
        distance_delta region = 0.3%float ->
        validate_stage float_pow h p
        = Ok (false, [Lit "❌ パン + ズームを実行してください"]))
  /\ (forall space region,
        get_view3d_space h = Some space ->
        region_3d space = Some region ->
        location_delta region = 0.2%float ->
        distance_delta region = 0.6%float ->
        validate_stage float_pow h p
        = Ok (true, [Lit "✓ すべてのビュー操作をマスターしました"])).
Proof.
  intros Hc Hs location_delta distance_delta.
  assert (location_delta = loc_diff float_pow p) as EL by reflexivity.
  assert (distance_delta = dist_diff p) as ED by reflexivity.
  clearbody location_delta distance_delta. subst location_delta distance_delta.
  split; [|split].
  - destruct (get_view3d_space h) as [space|] eqn:Hv.
    + destruct (region_3d space) as [region|] eqn:Hr.
      * rewrite (chapter2_stage4_answer float_pow h p space region Hc Hs Hv Hr).
        destruct (gt (loc_diff float_pow p region) 0.1%float) eqn:G1;
          destruct (gt (dist_diff p region) 0.5%float) eqn:G2; simpl.
        -- split; [intros _; exists space, region; auto | eauto].
        -- split; [intros (m & E); discriminate E|].
           intros (s' & r' & Es & Er & _ & G). inversion Es; subst s'.
           rewrite Hr in Er. inversion Er; subst r'. congruence.
        -- split; [intros (m & E); discriminate E|].
           intros (s' & r' & Es & Er & G & _). inversion Es; subst s'.
           rewrite Hr in Er. inversion Er; subst r'. congruence.
        -- split; [intros (m & E); discriminate E|].
           intros (s' & r' & Es & Er & G & _). inversion Es; subst s'.
           rewrite Hr in Er. inversion Er; subst r'. congruence.
      * rewrite <- complete_true_msg.
        rewrite (missing_view_incomplete float_pow h p); [|
          intros s' Es; rewrite Hv in Es; inversion Es; subst s'; exact Hr | exact Hc].
        split; [discriminate|].
        intros (s' & r' & Es & Er & _). inversion Es; subst s'. congruence.
    + rewrite <- complete_true_msg.
      rewrite (missing_view_incomplete float_pow h p); [|
        intros s' Es; rewrite Hv in Es; discriminate Es | exact Hc].
      split; [discriminate|].
      intros (s' & r' & Es & _). discriminate Es.
  - intros space region Hv Hr Hl Hd.
    rewrite (chapter2_stage4_answer float_pow h p space region Hc Hs Hv Hr).
    rewrite Hl, Hd. reflexivity.
  - intros space region Hv Hr Hl Hd.
    rewrite (chapter2_stage4_answer float_pow h p space region Hc Hs Hv Hr).
    rewrite Hl, Hd. reflexivity.
Qed.

(** Both scenarios on a view moved 0.2 along X from the origin. *)
Lemma chapter2_stage4_needs_pan_and_zoom_witness :
  validate_stage Sample.libm_pow (Sample.panned_host 0.3) (Sample.props_at 2 4)
  = Ok (false, [Lit "❌ パン + ズームを実行してください"])
  /\ validate_stage Sample.libm_pow (Sample.panned_host 0.6) (Sample.props_at 2 4)
     = Ok (true, [Lit "✓ すべてのビュー操作をマスターしました"]).
Proof.
  split.
  - apply (proj1 (proj2 (chapter2_stage4_needs_pan_and_zoom
                           Sample.libm_pow (Sample.panned_host 0.3)
                           (Sample.props_at 2 4) eq_refl eq_refl))
             _ _ eq_refl eq_refl); reflexivity.
  - apply (proj2 (proj2 (chapter2_stage4_needs_pan_and_zoom
                           Sample.libm_pow (Sample.panned_host 0.6)
                           (Sample.props_at 2 4) eq_refl eq_refl))
             _ _ eq_refl eq_refl); reflexivity.
Defined.

(* ================================================================= *)
(** ** Chapter 4, stage 2: counting moved vertices *)

Section DeformationFacts.

Variable float_pow : float -> float -> float.

(** The loop counts exactly the indices whose distance exceeds 0.001,
    as long as every index it meets is within both sequences. *)
Lemma deformation_fold (current baseline : list vec3) (l : list nat) :
  (forall i, In i l ->
             (i < List.length current)%nat /\ (i < List.length baseline)%nat) ->
  forall acc,
    fst (fold_left (deformation_step float_pow current baseline) l acc)
    = (fst acc
       + count (fun i => gt (calculate_vertex_distance float_pow
                               (nth i current (Vec3 0 0 0))
                               (nth i baseline (Vec3 0 0 0)))
                            0.001%float) l)%nat.
Proof.
  induction l as [|i l IH]; intros Hin [moved total].
  - simpl. unfold count. simpl. lia.
  - simpl fold_left. rewrite IH by (intros j Hj; apply Hin; right; exact Hj).
    destruct (Hin i (or_introl eq_refl)) as [Hc Hb].
    unfold deformation_step.
    rewrite (nth_error_nth' current (Vec3 0 0 0) Hc).
    rewrite (nth_error_nth' baseline (Vec3 0 0 0) Hb).
    unfold count. simpl filter.
    destruct (gt (calculate_vertex_distance float_pow
                    (nth i current (Vec3 0 0 0)) (nth i baseline (Vec3 0 0 0)))
                 0.001%float); simpl; lia.
Qed.

Lemma deformation_amount_counts (sphere : Object) (baseline : list vec3) :
  fst (get_vertex_deformation_amount float_pow (Some sphere) baseline)
  = moved_count float_pow (current_vertices sphere) baseline.
Proof.
  unfold get_vertex_deformation_amount, moved_count, current_vertices.
  destruct (data sphere) as [m|]; [|reflexivity].
  destruct (vertices m) as [|v vs] eqn:Hv; [reflexivity|].
  destruct (Nat.eqb_spec (Nat.min (List.length (v :: vs)) (List.length baseline)) 0)
    as [E|N].
  - rewrite E. reflexivity.
  - rewrite deformation_fold; [reflexivity|].
    intros i Hi. apply in_seq in Hi. lia.
Qed.

Lemma chapter4_stage2_answer (h : Host) (p : TUTORIAL_PG_Properties) sphere :
  current_chapter p = 4 ->
  current_stage p = 2 ->
  is_in_sculpt_mode h = true ->
  find_sphere h = Some sphere ->
  let moved := moved_count float_pow (current_vertices sphere)
                           (initial_vertex_positions p) in
  validate_stage float_pow h p =
  Ok (if (5 <? moved)%nat
      then (true, [Lit "✓ Draw ブラシで変形: "; IntFmt (Z.of_nat moved); Lit "頂点"])
      else (false, [Lit "❌ Draw ブラシで球を変形 ("; IntFmt (Z.of_nat moved); Lit "頂点)"])).
Proof.
  intros Hc Hs Hm Hf moved. rewrite validate_stage_of_try.
  unfold validate_stage_try, validate_chapter4.
  rewrite Hc, Hs, Hm, Hf.
  pose proof (deformation_amount_counts sphere (initial_vertex_positions p)) as E.
  fold moved in E.
  destruct (get_vertex_deformation_amount float_pow (Some sphere)
              (initial_vertex_positions p)) as [n total].
  simpl in E. subst n. simpl.
  destruct (5 <? moved)%nat; reflexivity.
Qed.

End DeformationFacts.

(** C5: at chapter 4 stage 2, in sculpt mode with a sphere-named mesh,
    the validator takes every vertex index below both the current and
    the baseline vertex count, computes the Euclidean distance between
    the current and the baseline position of that index (the power 0.5
    of the sum of the three squared coordinate differences), counts the
    index as moved when the distance exceeds 0.001, and answers
    complete=true if and only if the count is greater than 5; an empty
    baseline gives (false, ...), not an error. *)
Theorem chapter4_stage2_counts_moved_vertices
        (float_pow : float -> float -> float) (h : Host) (p : TUTORIAL_PG_Properties)
        (sphere : Object) :
  current_chapter p = 4 ->
  current_stage p = 2 ->
  is_in_sculpt_mode h = true ->
  find_sphere h = Some sphere ->
  let distance (a b : vec3) : float :=
    float_pow ((x a - x b) * (x a - x b)
               + (y a - y b) * (y a - y b)
               + (z a - z b) * (z a - z b))%float
              0.5%float in
  let current := match data sphere with Some m => vertices m | None => [] end in
  let baseline := initial_vertex_positions p in
  let moved (i : nat) : bool :=
    gt (distance (nth i current (Vec3 0 0 0)) (nth i baseline (Vec3 0 0 0)))
       0.001%float in
  let moved_vertices :=
    List.length (filter moved
                        (seq 0 (Nat.min (List.length current) (List.length baseline)))) in
  ((exists msg, validate_stage float_pow h p = Ok (true, msg))
   <-> (5 < moved_vertices)%nat)
  /\ (baseline = [] ->
      validate_stage float_pow h p
      = Ok (false, [Lit "❌ Draw ブラシで球を変形 ("; IntFmt 0; Lit "頂点)"])).
Proof.
  intros Hc Hs Hm Hf distance current baseline moved moved_vertices.
  assert (moved_vertices
          = moved_count float_pow (current_vertices sphere) (initial_vertex_positions p))
    as EM by reflexivity.
  clearbody moved_vertices. subst moved_vertices baseline.
  clear moved current distance.
  pose proof (chapter4_stage2_answer float_pow h p sphere Hc Hs Hm Hf) as A.
  simpl in A. split.
  - rewrite A.
    destruct (Nat.ltb_spec 5 (moved_count float_pow (current_vertices sphere)
                                          (initial_vertex_positions p))) as [L|L].
    + split; [intros _; exact L | eauto].
    + split; [intros (m & E); discriminate E | lia].
  - intros Hb. rewrite A, Hb. unfold moved_count.
    rewrite Nat.min_0_r. reflexivity.
Qed.

(** Six vertices of the sample sphere, each moved by one unit. *)
Lemma chapter4_stage2_counts_moved_vertices_witness :
  exists msg,
    validate_stage Sample.libm_pow Sample.sculpted_host Sample.sculpt_props
    = Ok (true, msg).
Proof.
  apply (proj2 (proj1 (chapter4_stage2_counts_moved_vertices
                         Sample.libm_pow Sample.sculpted_host Sample.sculpt_props
                         Sample.sculpted_sphere
                         eq_refl eq_refl eq_refl eq_refl))).
  vm_compute. lia.
Defined.

(* ================================================================= *)
(** ** Chapter 5, stage 4: the texture link *)

Section LinkFacts.

(** The scan of the node list ends on the last node of each type. *)
Lemma remember_last (ns : list Node) :
  forall a b,
    fold_left remember_node ns (a, b)
    = (match last_of_type "TEX_IMAGE" ns with Some n => Some n | None => a end,
       match last_of_type "BSDF_PRINCIPLED" ns with Some n => Some n | None => b end).
Proof.
  induction ns as [|n ns IH]; intros a b; [reflexivity|].
  simpl. rewrite IH.
  destruct (last_of_type "TEX_IMAGE" ns), (last_of_type "BSDF_PRINCIPLED" ns);
    destruct (String.eqb (node_type n) "TEX_IMAGE");
    destruct (String.eqb (node_type n) "BSDF_PRINCIPLED"); reflexivity.
Qed.

Lemma link_is_correct_spec (img bsdf : Node) (l : NodeLink) :
  link_is_correct img bsdf l = true
  <-> from_node l = node_ptr img /\ to_node l = node_ptr bsdf
      /\ from_socket_name l = "Color" /\ to_socket_name l = "Base Color".
Proof.
  unfold link_is_correct.
  rewrite !andb_true_iff, !Nat.eqb_eq, !String.eqb_eq. tauto.
Qed.

(** What [check_correct_node_link] decides. *)
Lemma check_correct_node_link_spec (o : Object) :
  check_correct_node_link (Some o) = true
  <-> exists mat tree img bsdf l,
        get_active_material (Some o) = Some mat
        /\ use_nodes mat = true
        /\ node_tree mat = Some tree
        /\ last_of_type "TEX_IMAGE" (nodes tree) = Some img
        /\ last_of_type "BSDF_PRINCIPLED" (nodes tree) = Some bsdf
        /\ In l (links tree)
        /\ from_node l = node_ptr img /\ to_node l = node_ptr bsdf
        /\ from_socket_name l = "Color" /\ to_socket_name l = "Base Color".
Proof.
  unfold check_correct_node_link, except_return, bind, node_tree_nodes,
    node_tree_links, any.
  destruct (get_active_material (Some o)) as [mat|].
  2:{ split; [discriminate | intros (? & ? & ? & ? & ? & E & _); discriminate E]. }
  destruct (use_nodes mat) eqn:Hu; simpl.
  2:{ split; [discriminate|].
      intros (? & ? & ? & ? & ? & E & U & _). inversion E; subst. congruence. }
  destruct (node_tree mat) as [tree|] eqn:Ht.
  2:{ split; [discriminate|].
      intros (? & ? & ? & ? & ? & E & _ & T & _). inversion E; subst. congruence. }
  rewrite remember_last.
  destruct (last_of_type "TEX_IMAGE" (nodes tree)) as [img|] eqn:Hi.
  2:{ split; [discriminate|].
      intros (? & ? & ? & ? & ? & E & _ & T & I & _).
      inversion E; subst. rewrite Ht in T. inversion T; subst. congruence. }
  destruct (last_of_type "BSDF_PRINCIPLED" (nodes tree)) as [bsdf|] eqn:Hb.
  2:{ split; [discriminate|].
      intros (? & ? & ? & ? & ? & E & _ & T & _ & B & _).
      inversion E; subst. rewrite Ht in T. inversion T; subst. congruence. }
  rewrite existsb_exists. split.
  - intros (l & Hin & Hl). apply link_is_correct_spec in Hl.
    exists mat, tree, img, bsdf, l. tauto.
  - intros (mat' & tree' & img' & bsdf' & l & E & _ & T & I & B & Hin & Hl).
    inversion E; subst mat'. rewrite Ht in T. inversion T; subst tree'.
    rewrite Hi in I. inversion I; subst img'.
    rewrite Hb in B. inversion B; subst bsdf'.
    exists l. split; [exact Hin|]. apply link_is_correct_spec. exact Hl.
Qed.

Lemma chapter5_stage4_answer (float_pow : float -> float -> float)
      (h : Host) (p : TUTORIAL_PG_Properties) (o : Object) :
  current_chapter p = 5 ->
  current_stage p = 4 ->
  context_active_object h = Some o ->
  validate_stage float_pow h p =
  Ok (if check_correct_node_link (Some o)
      then (true, [Lit "✓ ノードを正しく接続しました"])
      else (false, [Lit "❌ ImageTexture の Color を Principled BSDF の BaseColor に接続して��ださい"])).
Proof.
  intros Hc Hs Ho. rewrite validate_stage_of_try.
  unfold validate_stage_try, validate_chapter5.
  rewrite Ho, Hc, Hs. simpl.
  destruct (check_correct_node_link (Some o)); reflexivity.
Qed.

Lemma last_of_type_found (ty : string) (ns : list Node) (n : Node) :
  last_of_type ty ns = Some n -> In n ns /\ node_type n = ty.
Proof.
  induction ns as [|m ns IH]; simpl; [discriminate|].
  destruct (last_of_type ty ns) as [k|].
  - intros E. inversion E; subst k. destruct (IH eq_refl). auto.
  - destruct (String.eqb_spec (node_type m) ty) as [Em|]; [|discriminate].
    intros E. inversion E; subst m. auto.
Qed.

Lemma none_of_type (ty : string) (ns : list Node) :
  count (fun n => String.eqb (node_type n) ty) ns = O ->
  last_of_type ty ns = None /\ forall n, In n ns -> node_type n <> ty.
Proof.
  unfold count. induction ns as [|m ns IH]; simpl.
  - intros _. split; [reflexivity | intros n []].
  - destruct (String.eqb_spec (node_type m) ty) as [Em|Nm]; simpl; [discriminate|].
    intros H. destruct (IH H) as [L N]. rewrite L. split; [reflexivity|].
    intros n [<-|Hin]; [exact Nm | exact (N n Hin)].
Qed.

(** With one node of a type, that node is the one the scan keeps. *)
Lemma only_of_type (ty : string) (ns : list Node) (n : Node) :
  count (fun n => String.eqb (node_type n) ty) ns = 1%nat ->
  In n ns -> node_type n = ty ->
  last_of_type ty ns = Some n.
Proof.
  unfold count. induction ns as [|m ns IH]; simpl; [discriminate|].
  destruct (String.eqb_spec (node_type m) ty) as [Em|Nm]; simpl.
  - intros H Hin Hn. assert (List.length (filter (fun n => String.eqb (node_type n) ty) ns) = O)
      as Z by lia.
    destruct (none_of_type ty ns Z) as [L N]. rewrite L.
    destruct Hin as [<-|Hin]; [reflexivity|]. exfalso. exact (N n Hin Hn).
  - intros H Hin Hn. destruct Hin as [->|Hin]; [contradiction|].
    rewrite (IH H Hin Hn). reflexivity.
Qed.

Lemma is_node_of_type_only (ty : string) (ns : list Node) (n : Node) (ptr : nat) :
  count (fun n => String.eqb (node_type n) ty) ns = 1%nat ->
  last_of_type ty ns = Some n ->
  (is_node_of_type ty ptr ns = true <-> ptr = node_ptr n).
Proof.
  intros H1 L. unfold is_node_of_type, any. rewrite existsb_exists. split.
  - intros (m & Hin & Hm). apply andb_true_iff in Hm. destruct Hm as [Ht Hp].
    apply String.eqb_eq in Ht. apply Nat.eqb_eq in Hp.
    rewrite (only_of_type ty ns m H1 Hin Ht) in L. inversion L; subst. auto.
  - intros ->. destruct (last_of_type_found ty ns n L) as [Hin Ht].
    exists n. split; [exact Hin|]. rewrite Ht, String.eqb_refl, Nat.eqb_refl. reflexivity.
Qed.

(** With one image-texture node and one Principled BSDF node, the link
    the validator looks for is the link of the specification. *)
Lemma single_nodes_same_link (o : Object) (mat : Material) (tree : NodeTree) :
  get_active_material (Some o) = Some mat ->
  use_nodes mat = true ->
  node_tree mat = Some tree ->
  count (fun n => String.eqb (node_type n) "TEX_IMAGE") (nodes tree) = 1%nat ->
  count (fun n => String.eqb (node_type n) "BSDF_PRINCIPLED") (nodes tree) = 1%nat ->
  check_correct_node_link (Some o) = image_color_into_base_color tree.
Proof.
  intros Hm Hu Ht C1 C2.
  apply eq_true_iff_eq. rewrite check_correct_node_link_spec.
  unfold image_color_into_base_color, any. rewrite existsb_exists. split.
  - intros (mat' & tree' & img & bsdf & l & E & _ & T & I & B & Hin & F & G & N1 & N2).
    rewrite Hm in E. inversion E; subst mat'. rewrite Ht in T. inversion T; subst tree'.
    exists l. split; [exact Hin|].
    rewrite !andb_true_iff, !String.eqb_eq.
    rewrite (is_node_of_type_only _ _ img _ C1 I), (is_node_of_type_only _ _ bsdf _ C2 B).
    auto.
  - intros (l & Hin & Hl).
    rewrite !andb_true_iff, !String.eqb_eq in Hl.
    destruct Hl as [[[F G] N1] N2].
    destruct (last_of_type "TEX_IMAGE" (nodes tree)) as [img|] eqn:I.
    2:{ unfold is_node_of_type, any in F. apply existsb_exists in F.
        destruct F as (m & Hm' & Hx). apply andb_true_iff in Hx. destruct Hx as [Hty _].
        apply String.eqb_eq in Hty.
        rewrite (only_of_type _ _ m C1 Hm' Hty) in I. discriminate I. }
    destruct (last_of_type "BSDF_PRINCIPLED" (nodes tree)) as [bsdf|] eqn:B.
    2:{ unfold is_node_of_type, any in G. apply existsb_exists in G.
        destruct G as (m & Hm' & Hx). apply andb_true_iff in Hx. destruct Hx as [Hty _].
        apply String.eqb_eq in Hty.
        rewrite (only_of_type _ _ m C2 Hm' Hty) in B. discriminate B. }
    apply (is_node_of_type_only _ _ img _ C1 I) in F.
    apply (is_node_of_type_only _ _ bsdf _ C2 B) in G.
    exists mat, tree, img, bsdf, l. auto 12.
Qed.

End LinkFacts.

(** What chapter 5 stage 4 computes: complete=true if and only if the
    active object's active material has nodes enabled and its graph holds
    a link from the "Color" output of the last image-texture node in node
    order into the "Base Color" input of the last Principled BSDF node;
    when no link ends in a "Base Color" input the answer is (false, ...).
    With nodes enabled and exactly one node of each of the two types the
    link may be any link between nodes of the two types. *)
Lemma chapter5_stage4_last_nodes_link
        (float_pow : float -> float -> float) (h : Host) (p : TUTORIAL_PG_Properties) :
  current_chapter p = 5 ->
  current_stage p = 4 ->
  ((exists msg, validate_stage float_pow h p = Ok (true, msg))
   <-> exists o mat tree img bsdf l,
         context_active_object h = Some o
         /\ get_active_material (Some o) = Some mat
         /\ use_nodes mat = true
         /\ node_tree mat = Some tree
         /\ last_of_type "TEX_IMAGE" (nodes tree) = Some img
         /\ last_of_type "BSDF_PRINCIPLED" (nodes tree) = Some bsdf
         /\ In l (links tree)
         /\ from_node l = node_ptr img /\ to_node l = node_ptr bsdf
         /\ from_socket_name l = "Color" /\ to_socket_name l = "Base Color")
  /\ (forall o tree,
        context_active_object h = Some o ->
        Spec.active_node_tree o = Some tree ->
        (forall l, In l (links tree) -> to_socket_name l <> "Base Color") ->
        exists msg, validate_stage float_pow h p = Ok (false, msg))
  /\ (forall o mat tree,
        context_active_object h = Some o ->
        get_active_material (Some o) = Some mat ->
        use_nodes mat = true ->
        node_tree mat = Some tree ->
        count (fun n => String.eqb (node_type n) "TEX_IMAGE") (nodes tree) = 1%nat ->
        count (fun n => String.eqb (node_type n) "BSDF_PRINCIPLED") (nodes tree) = 1%nat ->
        ((exists msg, validate_stage float_pow h p = Ok (true, msg))
         <-> image_color_into_base_color tree = true)).
Proof.
  intros Hc Hs. split; [|split].
  - destruct (context_active_object h) as [o|] eqn:Ho.
    + rewrite (chapter5_stage4_answer float_pow h p o Hc Hs Ho).
      destruct (check_correct_node_link (Some o)) eqn:Hk.
      * split; [intros _ | eauto].
        apply check_correct_node_link_spec in Hk.
        destruct Hk as (mat & tree & img & bsdf & l & Hl).
        exists o, mat, tree, img, bsdf, l. tauto.
      * split; [intros (m & E); discriminate E|].
        intros (o' & mat & tree & img & bsdf & l & E & Hl).
        inversion E; subst o'.
        assert (check_correct_node_link (Some o) = true) as K
            by (apply check_correct_node_link_spec; exists mat, tree, img, bsdf, l; exact Hl).
        congruence.
    + rewrite <- complete_true_msg.
      rewrite missing_object_incomplete by auto.
      split; [discriminate | intros (? & ? & ? & ? & ? & ? & E & _); discriminate E].
  - intros o tree Ho Ht Hl.
    rewrite (chapter5_stage4_answer float_pow h p o Hc Hs Ho).
    destruct (check_correct_node_link (Some o)) eqn:Hk; [|eauto].
    apply check_correct_node_link_spec in Hk.
    destruct Hk as (mat & tree' & img & bsdf & l & Em & _ & Et & _ & _ & Hin & _ & _ & _ & Hb).
    unfold Spec.active_node_tree in Ht. rewrite Em, Et in Ht.
    inversion Ht; subst tree'. exfalso. exact (Hl l Hin Hb).
  - intros o mat tree Ho Hm Hu Ht C1 C2.
    rewrite (chapter5_stage4_answer float_pow h p o Hc Hs Ho).
    rewrite (single_nodes_same_link o mat tree Hm Hu Ht C1 C2).
    destruct (image_color_into_base_color tree).
    + split; [reflexivity | eauto].
    + split; [intros (m & E); discriminate E | discriminate].
Qed.

(** C6, on the code: [check_correct_node_link] remembers one node of
    each type, the last in node order, and looks for a link between
    these two only.  With two image-texture nodes in the graph of a
    material that uses nodes, a link from the first one's "Color" into
    the Principled BSDF's "Base Color" is there and the validator
    answers (false, ...).  With two Principled BSDF nodes the link into
    the first of them, the node [get_principled_bsdf] returns and stages
    2 and 5 read, is missed in the same way.  In general the stage is
    complete exactly for a link between the two last nodes, and it is
    refused whatever else is linked when no link leaves the last
    image-texture node; with one node of each type the validator accepts
    exactly the link of the claim. *)
Theorem chapter5_stage4_misses_link_of_earlier_node
        (float_pow : float -> float -> float) :
  (get_active_material (Some (Sample.shaded_cube Sample.two_texture_tree))
   = Some (Sample.material_of Sample.two_texture_tree)
   /\ use_nodes (Sample.material_of Sample.two_texture_tree) = true
   /\ image_color_into_base_color Sample.two_texture_tree = true
   /\ validate_stage float_pow (Sample.shading_host Sample.two_texture_tree)
        (Sample.props_at 5 4)
      = Ok (false, [Lit "❌ ImageTexture の Color を Principled BSDF の BaseColor に接続して��ださい"]))
  /\ (get_active_material (Some (Sample.shaded_cube Sample.two_principled_tree))
      = Some (Sample.material_of Sample.two_principled_tree)
      /\ image_color_into_base_color Sample.two_principled_tree = true
      /\ get_principled_bsdf (Some (Sample.material_of Sample.two_principled_tree))
         = Some Sample.principled
      /\ to_node Sample.color_link = node_ptr Sample.principled
      /\ snd (fold_left remember_node (nodes Sample.two_principled_tree) (None, None))
         = Some Sample.principled_b
      /\ validate_stage float_pow (Sample.shading_host Sample.two_principled_tree)
           (Sample.props_at 5 4)
         = Ok (false, [Lit "❌ ImageTexture の Color を Principled BSDF の BaseColor に接続して��ださい"]))
  /\ (forall h p,
        current_chapter p = 5 ->
        current_stage p = 4 ->
        ((exists msg, validate_stage float_pow h p = Ok (true, msg))
         <-> exists o mat tree img bsdf l,
               context_active_object h = Some o
               /\ get_active_material (Some o) = Some mat
               /\ use_nodes mat = true
               /\ node_tree mat = Some tree
               /\ last_of_type "TEX_IMAGE" (nodes tree) = Some img
               /\ last_of_type "BSDF_PRINCIPLED" (nodes tree) = Some bsdf
               /\ In l (links tree)
               /\ from_node l = node_ptr img /\ to_node l = node_ptr bsdf
               /\ from_socket_name l = "Color" /\ to_socket_name l = "Base Color"))
  /\ (forall h p o mat tree img,
        current_chapter p = 5 ->
        current_stage p = 4 ->
        context_active_object h = Some o ->
        get_active_material (Some o) = Some mat ->
        node_tree mat = Some tree ->
        last_of_type "TEX_IMAGE" (nodes tree) = Some img ->
        (forall l, In l (links tree) -> from_node l <> node_ptr img) ->
        exists msg, validate_stage float_pow h p = Ok (false, msg))
  /\ (forall h p o mat tree,
        current_chapter p = 5 ->
        current_stage p = 4 ->
        context_active_object h = Some o ->
        get_active_material (Some o) = Some mat ->
        use_nodes mat = true ->
        node_tree mat = Some tree ->
        count (fun n => String.eqb (node_type n) "TEX_IMAGE") (nodes tree) = 1%nat ->
        count (fun n => String.eqb (node_type n) "BSDF_PRINCIPLED") (nodes tree) = 1%nat ->
        ((exists msg, validate_stage float_pow h p = Ok (true, msg))
         <-> image_color_into_base_color tree = true)).
Proof.
  split; [repeat split; reflexivity|].
  split; [repeat split; reflexivity|].
  split; [|split].
  - intros h p Hc Hs.
    exact (proj1 (chapter5_stage4_last_nodes_link float_pow h p Hc Hs)).
  - intros h p o mat tree img Hc Hs Ho Hm Ht Hi Hl.
    destruct (validate_stage_total float_pow h p) as ([|] & msg & E); [|eauto].
    exfalso.
    assert (exists m, validate_stage float_pow h p = Ok (true, m)) as T by eauto.
    apply (proj1 (chapter5_stage4_last_nodes_link float_pow h p Hc Hs)) in T.
    destruct T as (o' & mat' & tree' & img' & bsdf & l
                   & Eo & Em & _ & Et & Ei & _ & Hin & Hf & _).
    rewrite Ho in Eo. inversion Eo; subst o'.
    rewrite Hm in Em. inversion Em; subst mat'.
    rewrite Ht in Et. inversion Et; subst tree'.
    rewrite Hi in Ei. inversion Ei; subst img'.
    exact (Hl l Hin Hf).
  - intros h p o mat tree Hc Hs.
    exact (proj2 (proj2 (chapter5_stage4_last_nodes_link float_pow h p Hc Hs)) o mat tree).
Qed.

(* ================================================================= *)
(** ** Validation and the completion flag *)

Section FlagFacts.

Variable float_pow : float -> float -> float.

(** The validator reads neither flag. *)
Lemma validate_stage_ignores_complete (h : Host) (p : TUTORIAL_PG_Properties) b :
  validate_stage float_pow h (set_stage_complete b p) = validate_stage float_pow h p.
Proof. reflexivity. Qed.

Lemma validate_stage_execute_state (s : State) :
  snd (validate_stage_execute float_pow s)
  = match validate_answer float_pow s with
    | Ok (true, msg) =>
        report "INFO" msg
          (with_props (set_stage_complete true)
             (emit (EvValidate (current_chapter (props s)) (current_stage (props s))) s))
    | Ok (false, msg) =>
        report "WARNING" msg
          (emit (EvValidate (current_chapter (props s)) (current_stage (props s))) s)
    | Raise e =>
        report "ERROR" [Lit "エラー: "; ExnFmt e]
          (emit (EvValidate (current_chapter (props s)) (current_stage (props s))) s)
    end.
Proof.
  unfold validate_stage_execute, validate_answer. simpl.
  destruct (validate_stage float_pow (host s) (props s)) as [[[|] msg]|e]; reflexivity.
Qed.

Lemma validate_once_flag (c : check) (s : State) :
  stage_complete (props (validate_once float_pow c s))
  = stage_complete (props s) || complete (validate_answer float_pow s).
Proof.
  destruct c; simpl.
  - rewrite validate_stage_execute_state.
    destruct (validate_answer float_pow s) as [[[|] msg]|e]; simpl;
      destruct (stage_complete (props s)); reflexivity.
  - unfold check_stage, validate_answer. simpl.
    destruct (validate_stage float_pow (host s) (props s)) as [[[|] msg]|e]; simpl;
      destruct (stage_complete (props s)) eqn:F; simpl; rewrite ?F; reflexivity.
Qed.

Lemma validate_once_keeps (c : check) (s : State) :
  host (validate_once float_pow c s) = host s
  /\ validate_answer float_pow (validate_once float_pow c s)
     = validate_answer float_pow s.
Proof.
  destruct c; simpl.
  - rewrite validate_stage_execute_state. unfold validate_answer.
    destruct (validate_stage float_pow (host s) (props s)) as [[[|] msg]|e] eqn:E;
      split; try reflexivity; simpl;
      rewrite ?validate_stage_ignores_complete; exact E.
  - unfold check_stage, validate_answer. simpl.
    destruct (validate_stage float_pow (host s) (props s)) as [[[|] msg]|e] eqn:E; simpl;
      try destruct (negb (stage_complete (props s))); split; try reflexivity; simpl;
      rewrite ?validate_stage_ignores_complete; exact E.
Qed.

Lemma flag_stays_set (checks : list (Host * check)) :
  forall s, stage_complete (props s) = true ->
            stage_complete (props (fold_left (validate_under float_pow) checks s)) = true.
Proof.
  induction checks as [|hc checks IH]; intros s Hs; [exact Hs|].
  simpl. apply IH. unfold validate_under.
  rewrite validate_once_flag. simpl. rewrite Hs. reflexivity.
Qed.

End FlagFacts.

(** C7: a validation leaves the host and the baseline as they were, so a
    second validation in a row obtains the same (complete, message) pair
    and reports it again; the flag after a validation is the flag before
    or-ed with the answer, so once true it stays true through any later
    validations, by the button or by the poll loop, whatever the user
    does to the host in between. *)
Theorem validate_twice_same_answer
        (float_pow : float -> float -> float) (s : State) :
  let s1 := snd (validate_stage_execute float_pow s) in
  let s2 := snd (validate_stage_execute float_pow s1) in
  validate_answer float_pow s1 = validate_answer float_pow s
  /\ (exists c msg,
        validate_answer float_pow s = Ok (c, msg)
        /\ trace s1 = trace s ++ [EvValidate (current_chapter (props s)) (current_stage (props s));
                                  EvReport (if c then "INFO" else "WARNING") msg]
        /\ trace s2 = trace s1 ++ [EvValidate (current_chapter (props s)) (current_stage (props s));
                                   EvReport (if c then "INFO" else "WARNING") msg])
  /\ (forall c, stage_complete (props (validate_once float_pow c s))
                = stage_complete (props s) || complete (validate_answer float_pow s))
  /\ (forall checks,
        stage_complete
          (props (fold_left (validate_under float_pow) checks
                            (with_props (set_stage_complete true) s))) = true).
Proof.
  intros s1 s2.
  assert (validate_answer float_pow s1 = validate_answer float_pow s) as E1
      by apply (validate_once_keeps float_pow ByButton s).
  split; [exact E1|]. split; [|split].
  - destruct (validate_stage_total float_pow (host s) (props s)) as (c & msg & E).
    exists c, msg. split; [exact E|].
    assert (trace s1 = trace s ++ [EvValidate (current_chapter (props s)) (current_stage (props s));
                                   EvReport (if c then "INFO" else "WARNING") msg]) as T1.
    { subst s1. rewrite validate_stage_execute_state. unfold validate_answer.
      rewrite E. destruct c; simpl; rewrite <- app_assoc; reflexivity. }
    split; [exact T1|].
    assert (current_chapter (props s1) = current_chapter (props s)
            /\ current_stage (props s1) = current_stage (props s)) as [P1 P2].
    { subst s1. rewrite validate_stage_execute_state. unfold validate_answer.
      rewrite E. destruct c; split; reflexivity. }
    subst s2. rewrite validate_stage_execute_state, E1. unfold validate_answer.
    rewrite E, P1, P2. destruct c; simpl; rewrite <- app_assoc; reflexivity.
  - intros c. apply validate_once_flag.
  - intros checks. apply flag_stays_set. reflexivity.
Qed.

(* ================================================================= *)
(** ** Setup *)

(** C8: whatever the flags and the position were, a Setup that completes
    (returns FINISHED) leaves stage_complete=false and
    monitoring_active=true. *)
Theorem setup_sets_flags (ops : BpyOps) (s s' : State) :
  setup_stage_execute ops s = (FINISHED, s') ->
  stage_complete (props s') = false /\ monitoring_active (props s') = true.
Proof.
  unfold setup_stage_execute.
  destruct (setup_prepare ops s) as [[u|e] s1]; intros H; inversion H; subst s'.
  split; reflexivity.
Qed.

(** Setup of chapter 1 stage 1 over a finished stage. *)
Lemma setup_sets_flags_witness :
  stage_complete Sample.finished_props = true
  /\ monitoring_active Sample.finished_props = false
  /\ stage_complete
       (props (snd (setup_stage_execute Sample.idle_ops
                      (Sample.state_of (Sample.host_with Sample.plain_cube "OBJECT"
                                                         Sample.home_view)
                                       Sample.finished_props)))) = false
  /\ monitoring_active
       (props (snd (setup_stage_execute Sample.idle_ops
                      (Sample.state_of (Sample.host_with Sample.plain_cube "OBJECT"
                                                         Sample.home_view)
                                       Sample.finished_props)))) = true.
Proof.
  split; [reflexivity|]. split; [reflexivity|].
  apply (setup_sets_flags Sample.idle_ops
           (Sample.state_of (Sample.host_with Sample.plain_cube "OBJECT" Sample.home_view)
                            Sample.finished_props)).
  reflexivity.
Defined.

(* ================================================================= *)
(** ** The poll loop *)

Section PollFacts.

Variable float_pow : float -> float -> float.

Lemma validations_app (t1 t2 : list event) :
  validations (t1 ++ t2) = (validations t1 + validations t2)%nat.
Proof.
  unfold validations, count. rewrite filter_app, length_app. reflexivity.
Qed.

Lemma check_stage_validates_once (s : State) :
  validations (trace (check_stage float_pow s)) = S (validations (trace s)).
Proof.
  unfold check_stage. simpl.
  assert (validations (trace s ++ [EvValidate (current_chapter (props s))
                                              (current_stage (props s))])
          = S (validations (trace s))) as E
      by (rewrite validations_app; simpl; unfold validations, count; simpl; lia).
  destruct (validate_stage float_pow (host s) (props s)) as [[c msg]|e]; simpl;
    [destruct (c && negb (stage_complete (props s)))|]; exact E.
Qed.

(** An idle monitor: FINISHED, the timer removed, nothing validated. *)
Lemma modal_when_idle (self : TUTORIAL_OT_monitoring) (s : State) :
  monitoring_active (props s) = false ->
  modal float_pow self "TIMER" s
  = (FINISHED, self,
     match _timer self with
     | Some t => event_timer_remove t s
     | None => s
     end).
Proof. intros H. unfold modal. simpl. rewrite H. reflexivity. Qed.

(** An undo in progress under an armed monitor: the tick is skipped. *)
Lemma modal_during_undo (self : TUTORIAL_OT_monitoring) (s : State) :
  monitoring_active (props s) = true ->
  is_undo_running (host s) = true ->
  modal float_pow self "TIMER" s = (PASS_THROUGH, self, s).
Proof. intros H U. unfold modal. simpl. rewrite H, U. reflexivity. Qed.

Lemma modal_no_evaluation (self : TUTORIAL_OT_monitoring) (ev : string) (s : State) :
  monitoring_active (props s) = false \/ is_undo_running (host s) = true ->
  validations (trace (snd (modal float_pow self ev s))) = validations (trace s)
  /\ props (snd (modal float_pow self ev s)) = props s.
Proof.
  intros H. unfold modal.
  destruct (String.eqb ev "TIMER"); [|split; reflexivity].
  destruct (monitoring_active (props s)) eqn:Hm; simpl.
  - destruct H as [H|H]; [discriminate H|]. rewrite H. split; reflexivity.
  - destruct (_timer self) as [t|]; simpl; [|split; reflexivity].
    rewrite validations_app. simpl. split; [|reflexivity].
    unfold validations at 2, count. simpl. lia.
Qed.

End PollFacts.

(** C9: on a tick where monitoring_active is false or an undo is in
    progress the validator is not evaluated and the properties do not
    change.  With monitoring_active=false the timer tick returns
    FINISHED, which ends the operator, and removes its timer; with
    monitoring armed and an undo in progress it returns PASS_THROUGH and
    changes nothing at all.  (An armed tick with no undo, more than 0.2
    after the last check, evaluates the validator once.) *)
Theorem poll_skips_when_idle_or_undoing
        (float_pow : float -> float -> float)
        (self : TUTORIAL_OT_monitoring) (s : State) :
  (forall ev,
      monitoring_active (props s) = false \/ is_undo_running (host s) = true ->
      validations (trace (snd (modal float_pow self ev s))) = validations (trace s)
      /\ props (snd (modal float_pow self ev s)) = props s)
  /\ (monitoring_active (props s) = false ->
      modal float_pow self "TIMER" s
      = (FINISHED, self,
         match _timer self with
         | Some t => event_timer_remove t s
         | None => s
         end)
      /\ fst (deliver float_pow "TIMER" [self] s) = []
      /\ forall t, _timer self = Some t ->
                   ~ In t (timers (snd (modal float_pow self "TIMER" s))))
  /\ (monitoring_active (props s) = true ->
      is_undo_running (host s) = true ->
      modal float_pow self "TIMER" s = (PASS_THROUGH, self, s))
  /\ (monitoring_active (props s) = true ->
      is_undo_running (host s) = false ->
      gt (time_time (host s) - _last_check self) 0.2%float = true ->
      validations (trace (snd (modal float_pow self "TIMER" s)))
      = S (validations (trace s))).
Proof.
  split; [intros ev H; apply modal_no_evaluation; exact H|].
  split; [|split].
  - intros H. split; [apply modal_when_idle; exact H|]. split.
    + simpl. rewrite modal_when_idle by exact H. reflexivity.
    + intros t Ht. rewrite modal_when_idle by exact H. rewrite Ht. simpl.
      apply remove_In.
  - apply modal_during_undo.
  - intros H U G. unfold modal. simpl. rewrite H, U, G. simpl.
    apply check_stage_validates_once.
Qed.

(** A tick of an armed monitor while Blender is undoing. *)
Lemma poll_skips_when_idle_or_undoing_witness :
  modal Sample.libm_pow {| _timer := Some 1%nat; _last_check := 0 |} "TIMER"
        (Sample.state_of Sample.undoing_host Sample.armed_props)
  = (PASS_THROUGH, {| _timer := Some 1%nat; _last_check := 0 |},
     Sample.state_of Sample.undoing_host Sample.armed_props).
Proof.
  apply (proj1 (proj2 (proj2 (poll_skips_when_idle_or_undoing
                                Sample.libm_pow
                                {| _timer := Some 1%nat; _last_check := 0 |}
                                (Sample.state_of Sample.undoing_host
                                                 Sample.armed_props)))));
    reflexivity.
Defined.

(* ================================================================= *)
(** ** The stored position *)

Section PositionFacts.

Variable float_pow : float -> float -> float.
Variable ops : BpyOps.

Lemma IntProperty_set_range (lo hi v : Z) :
  lo <= hi -> lo <= IntProperty_set lo hi v <= hi.
Proof. unfold IntProperty_set. lia. Qed.

(** *** Setup leaves the position alone *)

Lemma keeps_ret {A : Type} (a : A) : keeps_position (ret a).
Proof. intros s r s' H. inversion H. reflexivity. Qed.

Lemma keeps_bind {A B : Type} (m : M A) (k : A -> M B) :
  keeps_position m -> (forall a, keeps_position (k a)) ->
  keeps_position (bindM m k).
Proof.
  intros Hm Hk s r s' H. unfold bindM in H.
  destruct (m s) as [[a|e] s1] eqn:E.
  - rewrite (Hk a s1 r s' H). exact (Hm s _ s1 E).
  - inversion H; subst. exact (Hm s _ s' E).
Qed.

Lemma keeps_try_pass (m : M unit) : keeps_position m -> keeps_position (try_pass m).
Proof.
  intros Hm s r s' H. unfold try_pass in H.
  destruct (m s) as [r1 s1] eqn:E. inversion H; subst. exact (Hm s _ s' E).
Qed.

Lemma keeps_read {A : Type} (f : Host -> result A) : keeps_position (read f).
Proof. intros s r s' H. inversion H. reflexivity. Qed.

Lemma keeps_gets {A : Type} (f : State -> A) : keeps_position (gets f).
Proof. intros s r s' H. inversion H. reflexivity. Qed.

Lemma keeps_run_action (a : host_action) : keeps_position (run_action a).
Proof.
  intros s r s' H. unfold run_action in H.
  destruct (a (host s)) as [r1 h1]. inversion H. reflexivity.
Qed.

Lemma keeps_modify (f : TUTORIAL_PG_Properties -> TUTORIAL_PG_Properties) :
  (forall p, current_chapter (f p) = current_chapter p
             /\ current_stage (f p) = current_stage p) ->
  keeps_position (modify_props f).
Proof.
  intros Hf s r s' H. inversion H. unfold position. simpl.
  destruct (Hf (props s)) as [-> ->]. reflexivity.
Qed.

Lemma keeps_raise {A : Type} (e : exn) :
  keeps_position (fun s : State => (@Raise A e, s)).
Proof. intros s r s' H. inversion H. reflexivity. Qed.

Ltac keeps :=
  repeat first
    [ apply keeps_ret
    | apply keeps_read
    | apply keeps_gets
    | apply keeps_run_action
    | apply keeps_raise
    | apply keeps_try_pass
    | apply keeps_modify; intros; split; reflexivity
    | apply keeps_bind; [|intros]
    | break_match ].

Lemma keeps_active_object_ref : keeps_position active_object_ref.
Proof. unfold active_object_ref. keeps. Qed.

Lemma keeps_new_cube : keeps_position (new_cube ops).
Proof.
  unfold new_cube. keeps; try apply keeps_active_object_ref; keeps.
Qed.

Lemma keeps_capture_counts : keeps_position capture_counts.
Proof. unfold capture_counts, bound_object. keeps. Qed.

Lemma keeps_enter_edit_mode : keeps_position (enter_edit_mode_deselected ops).
Proof. unfold enter_edit_mode_deselected. keeps. Qed.

Lemma keeps_enter_sculpt_mode : keeps_position (enter_sculpt_mode ops).
Proof.
  intros s r s' H. unfold enter_sculpt_mode in H.
  destruct (run_action (object_mode_set ops "SCULPT") s) as [[u|e] s1] eqn:E.
  - inversion H; subst. exact (keeps_run_action _ s _ s' E).
  - rewrite (keeps_run_action _ s1 r s' H). exact (keeps_run_action _ s _ s1 E).
Qed.

Lemma keeps_setup_prepare : keeps_position (setup_prepare ops).
Proof.
  unfold setup_prepare. apply keeps_bind; [apply keeps_gets|]. intros p.
  repeat break_match.
  - unfold setup_chapter1.
    keeps; try apply keeps_new_cube; try apply keeps_active_object_ref; keeps.
  - unfold setup_chapter2. keeps.
  - unfold setup_chapter3.
    keeps; try apply keeps_enter_edit_mode; try apply keeps_capture_counts;
      try apply keeps_new_cube; keeps.
  - unfold setup_chapter4, bound_object.
    keeps; try apply keeps_active_object_ref; try apply keeps_enter_sculpt_mode; keeps.
  - unfold setup_chapter5.
    keeps; try apply keeps_active_object_ref; try apply keeps_new_cube; keeps.
    intros s r s' H.
    destruct (open_shader_editor_at_bottom ops (host s)) as [b h1].
    inversion H. reflexivity.
  - apply keeps_ret.
Qed.

Lemma setup_keeps_position (s : State) :
  position (snd (setup_stage_execute ops s)) = position s.
Proof.
  unfold setup_stage_execute.
  destruct (setup_prepare ops s) as [[u|e] s1] eqn:E; simpl;
    exact (keeps_setup_prepare s _ s1 E).
Qed.

(** *** Validation and the monitor leave the position alone *)

Lemma validate_keeps_position (s : State) :
  position (snd (validate_stage_execute float_pow s)) = position s.
Proof.
  rewrite validate_stage_execute_state.
  destruct (validate_answer float_pow s) as [[[|] msg]|e]; reflexivity.
Qed.

Lemma check_stage_keeps_position (s : State) :
  position (check_stage float_pow s) = position s.
Proof.
  unfold check_stage. simpl.
  destruct (validate_stage float_pow (host s) (props s)) as [[c msg]|e];
    [destruct (c && negb (stage_complete (props s)))|]; reflexivity.
Qed.

Lemma modal_keeps_position (self : TUTORIAL_OT_monitoring) ev (s : State) :
  position (snd (modal float_pow self ev s)) = position s.
Proof.
  unfold modal. repeat break_match; simpl; try reflexivity.
  apply check_stage_keeps_position.
Qed.

Lemma deliver_keeps_position ev (ms : list TUTORIAL_OT_monitoring) :
  forall s, position (snd (deliver float_pow ev ms s)) = position s.
Proof.
  induction ms as [|m ms IH]; intros s; [reflexivity|].
  simpl. pose proof (modal_keeps_position m ev s) as Hm.
  destruct (modal float_pow m ev s) as [[status m'] s1]. simpl in Hm.
  specialize (IH s1). destruct (deliver float_pow ev ms s1) as [rest s2].
  simpl in *. congruence.
Qed.

(** *** Every command keeps the position within the declared bounds *)

Lemma advance_moves_position (s : State) :
  position (advance s) = advance_position (position s).
Proof.
  unfold advance, next_stage_execute, advance_position, position.
  destruct (current_stage (props s)
            <? dict_get max_stages_per_chapter (current_chapter (props s)) 4);
    [reflexivity|].
  destruct (current_chapter (props s) <? 5); reflexivity.
Qed.

Lemma advance_position_in_bounds (c st : Z) :
  1 <= c <= 5 -> 1 <= st <= 5 ->
  1 <= fst (advance_position (c, st)) <= 5
  /\ 1 <= snd (advance_position (c, st)) <= 5.
Proof.
  intros Hc Hs. unfold advance_position.
  destruct (st <? dict_get max_stages_per_chapter c 4); simpl.
  - split; [exact Hc | apply IntProperty_set_range; lia].
  - destruct (c <? 5); simpl.
    + split; [apply IntProperty_set_range; lia | lia].
    + split; assumption.
Qed.

Lemma step_in_bounds (c : command) (ss : Session) :
  in_bounds (props (state ss)) ->
  in_bounds (props (state (step float_pow ops c ss))).
Proof.
  intros Hb.
  assert (forall s', position s' = position (state ss) -> in_bounds (props s')) as Same.
  { intros s' E. unfold position in E. inversion E as [[E1 E2]].
    unfold in_bounds. rewrite E1, E2. exact Hb. }
  destruct c; simpl.
  - apply Same, setup_keeps_position.
  - apply Same, validate_keeps_position.
  - destruct Hb as [Hc Hs].
    pose proof (advance_position_in_bounds _ _ Hc Hs) as [B1 B2].
    change (current_chapter (props (state ss)), current_stage (props (state ss)))
      with (position (state ss)) in B1, B2.
    rewrite <- advance_moves_position in B1, B2. exact (conj B1 B2).
  - unfold in_bounds. simpl. unfold IntProperty_set. lia.
  - unfold in_bounds. simpl. unfold IntProperty_set. lia.
  - destruct (monitoring_execute (state ss)) as [[st m] s1] eqn:E.
    unfold monitoring_execute in E. simpl in E. inversion E. simpl. exact Hb.
  - pose proof (deliver_keeps_position event_type (monitors ss) (state ss)) as E.
    destruct (deliver float_pow event_type (monitors ss) (state ss)) as [ms s1].
    simpl in *. apply Same, E.
  - exact Hb.
Qed.

Lemma run_in_bounds (cs : list command) :
  forall ss, in_bounds (props (state ss)) ->
             in_bounds (props (state (run float_pow ops cs ss))).
Proof.
  induction cs as [|c cs IH]; intros ss Hb; [exact Hb|].
  simpl. apply IH, step_in_bounds, Hb.
Qed.

End PositionFacts.

(** C10: after every command (setup, validation, advance, reset, chapter
    jump, monitoring, events, with the user changing Blender in between)
    current_chapter and current_stage lie in [1, 5]; a write outside the
    bounds stores the clamped value; advancing from (3, 5) stores stage 5
    again, so (3, 6) is never the stored position, although the lesson
    table, the catalog and the validator all know a chapter 3 stage 6. *)
Theorem position_stays_in_declared_bounds
        (float_pow : float -> float -> float) (ops : BpyOps)
        (h : Host) (cs : list command) :
  let p := props (state (run float_pow ops cs (initial_session h))) in
  (1 <= current_chapter p <= 5 /\ 1 <= current_stage p <= 5)
  /\ (current_chapter p, current_stage p) <> (3, 6)
  /\ (forall v q, current_stage (set_current_stage v q) = Z.max 1 (Z.min 5 v)
                  /\ 1 <= current_stage (set_current_stage v q) <= 5)
  /\ (forall v q, current_chapter (set_current_chapter v q) = Z.max 1 (Z.min 5 v)
                  /\ 1 <= current_chapter (set_current_chapter v q) <= 5)
  /\ (forall s, position s = (3, 5) -> position (advance s) = (3, 5))
  /\ has_validator 3 6 = true
  /\ Catalog.get_stage_info 3 6 <> [].
Proof.
  intros p.
  assert (in_bounds p) as Hb.
  { subst p. apply run_in_bounds. unfold in_bounds. simpl. lia. }
  split; [exact Hb|]. split.
  { intros E. inversion E as [[E1 E2]]. destruct Hb as [_ Hs]. lia. }
  split; [intros v q; simpl; unfold IntProperty_set; split; [reflexivity | lia]|].
  split; [intros v q; simpl; unfold IntProperty_set; split; [reflexivity | lia]|].
  split.
  { intros s E. rewrite advance_moves_position, E. reflexivity. }
  split; [reflexivity | discriminate].
Qed.

(** Thirteen presses of the advance button from the start. *)
Lemma position_stays_in_declared_bounds_witness :
  position (advance (Nat.iter 12 advance (state (initial_session Sample.undoing_host))))
  = (3, 5).
Proof.
  apply (proj1 (proj2 (proj2 (proj2 (proj2
           (position_stays_in_declared_bounds Sample.libm_pow Sample.idle_ops
              Sample.undoing_host [])))))).
  reflexivity.
Defined.

(* ================================================================= *)
(** ** Advancing through the lesson *)

Section AdvanceFacts.

Lemma iter_advance_position (n : nat) (s : State) :
  position (Nat.iter n advance s) = Nat.iter n advance_position (position s).
Proof.
  induction n as [|n IH]; [reflexivity|].
  simpl. rewrite advance_moves_position, IH. reflexivity.
Qed.

Lemma stuck_at_3_5 (n : nat) : Nat.iter n advance_position (3, 5) = (3, 5).
Proof. induction n as [|n IH]; [reflexivity|]. simpl. rewrite IH. reflexivity. Qed.

Lemma visited_positions (n : nat) :
  forall s, visited n s
            = map (fun k => Nat.iter k advance_position (position s)) (seq 0 n).
Proof.
  induction n as [|n IH]; intros s; [reflexivity|].
  simpl. rewrite IH, advance_moves_position, <- seq_shift, map_map.
  f_equal. apply map_ext. intros k. simpl.
  clear. induction k as [|k IHk]; [reflexivity|]. simpl. rewrite <- IHk. reflexivity.
Qed.

End AdvanceFacts.

(** C1, on the code: from (1, 1) the advance button walks the table's
    sequence up to (3, 5) and then stays there.  The table's next
    position is (3, 6); the write of stage 6 is clamped to 5, so
    chapters 4 and 5, and (5, 5), are never reached. *)
Theorem advance_stalls_at_chapter3_stage5 (h : Host) (n : nat) :
  let start := state (initial_session h) in
  position start = (1, 1)
  /\ visited 13 start = firstn 13 lesson_sequence
  /\ nth 13 lesson_sequence (0, 0) = (3, 6)
  /\ position (Nat.iter 13 advance start) = (3, 5)
  /\ position (Nat.iter (12 + n) advance start) = (3, 5)
  /\ position (Nat.iter n advance start) <> (5, 5)
  /\ last lesson_sequence (0, 0) = (5, 5).
Proof.
  intros start.
  split; [reflexivity|].
  split; [rewrite visited_positions; reflexivity|].
  split; [reflexivity|].
  split; [rewrite iter_advance_position; reflexivity|].
  assert (forall k, position (Nat.iter (12 + k) advance start) = (3, 5)) as Stuck.
  { intros k. rewrite iter_advance_position, Nat.add_comm, Nat.iter_add.
    simpl position.
    change (Nat.iter 12 advance_position (position start)) with (3, 5).
    apply stuck_at_3_5. }
  split; [apply Stuck|].
  split; [|reflexivity].
  destruct (Nat.lt_ge_cases n 12) as [L|G].
  - rewrite iter_advance_position.
    do 12 (destruct n as [|n]; [simpl; discriminate|]). lia.
  - replace n with (12 + (n - 12))%nat by lia. rewrite Stuck. discriminate.
Qed.


(* ================================================================= *)
(** ** More on the progress machine *)

Import More.

Section AdvanceMore.

Lemma advance_position_fixed (c s : Z) :
  1 <= c <= 5 -> 1 <= s <= 5 ->
  (advance_position (c, s) = (c, s) <-> (c, s) = (3, 5) \/ (c, s) = (5, 5)).
Proof.
  intros Hc Hs.
  assert (c = 1 \/ c = 2 \/ c = 3 \/ c = 4 \/ c = 5) as C by lia.
  assert (s = 1 \/ s = 2 \/ s = 3 \/ s = 4 \/ s = 5) as S by lia.
  destruct C as [->|[->|[->|[->| ->]]]]; destruct S as [->|[->|[->|[->| ->]]]];
    vm_compute; split; intros H;
    try (destruct H as [H|H]); try discriminate H; auto.
Qed.

Lemma advance_position_le (c s : Z) :
  1 <= c <= 5 -> 1 <= s <= 5 ->
  pos_le (c, s) (advance_position (c, s)).
Proof.
  intros Hc Hs.
  assert (c = 1 \/ c = 2 \/ c = 3 \/ c = 4 \/ c = 5) as C by lia.
  assert (s = 1 \/ s = 2 \/ s = 3 \/ s = 4 \/ s = 5) as S by lia.
  destruct C as [->|[->|[->|[->| ->]]]]; destruct S as [->|[->|[->|[->| ->]]]];
    unfold pos_le; vm_compute; intuition congruence.
Qed.

End AdvanceMore.

(** X1: with the position within its declared bounds, pressing Advance
    leaves the position where it was exactly at (3, 5) and at (5, 5). *)
Theorem advance_stalls_exactly_twice (s : State) :
  in_bounds (props s) ->
  (position (advance s) = position s
   <-> position s = (3, 5) \/ position s = (5, 5)).
Proof.
  intros [Hc Hs]. rewrite advance_moves_position. unfold position.
  apply advance_position_fixed; assumption.
Qed.

Lemma advance_stalls_exactly_twice_witness :
  position (advance (Sample.state_of Sample.undoing_host (Sample.props_at 5 5)))
  = position (Sample.state_of Sample.undoing_host (Sample.props_at 5 5)).
Proof.
  apply (proj2 (advance_stalls_exactly_twice
                  (Sample.state_of Sample.undoing_host (Sample.props_at 5 5))
                  ltac:(unfold in_bounds; simpl; unfold IntProperty_set; lia))).
  right. reflexivity.
Defined.

Section ProgressMore.

Variable float_pow : float -> float -> float.
Variable ops : BpyOps.

Lemma pos_le_refl (a : Z * Z) : pos_le a a.
Proof. unfold pos_le. right. lia. Qed.

Lemma pos_le_trans (a b c : Z * Z) : pos_le a b -> pos_le b c -> pos_le a c.
Proof. unfold pos_le. lia. Qed.

Lemma advance_in_bounds (s : State) : in_bounds (props s) -> in_bounds (props (advance s)).
Proof.
  intros [Hc Hs].
  pose proof (advance_position_in_bounds _ _ Hc Hs) as [B1 B2].
  change (current_chapter (props s), current_stage (props s)) with (position s) in B1, B2.
  rewrite <- advance_moves_position in B1, B2. exact (conj B1 B2).
Qed.

Lemma iter_advance_in_bounds (n : nat) (s : State) :
  in_bounds (props s) -> in_bounds (props (Nat.iter n advance s)).
Proof.
  intros Hb. induction n as [|n IH]; [exact Hb|]. simpl. apply advance_in_bounds, IH.
Qed.

(** Pressing the button [n] times in a row. *)
Lemma run_advances (n : nat) :
  forall ss, state (run float_pow ops (repeat Advance n) ss) = Nat.iter n advance (state ss).
Proof.
  unfold run.
  induction n as [|n IH]; intros ss; [reflexivity|].
  simpl repeat. simpl fold_left. rewrite IH.
  rewrite Nat.iter_succ_r. reflexivity.
Qed.

Lemma reaches_the_end (c s : Z) (k : nat) :
  4 <= c <= 5 -> 1 <= s <= 5 ->
  Nat.iter (8 + k) advance_position (c, s) = (5, 5).
Proof.
  intros Hc Hs.
  assert (Nat.iter 8 advance_position (c, s) = (5, 5)) as E.
  { assert (c = 4 \/ c = 5) as C by lia.
    assert (s = 1 \/ s = 2 \/ s = 3 \/ s = 4 \/ s = 5) as S by lia.
    destruct C as [-> | ->]; destruct S as [->|[->|[->|[->| ->]]]]; reflexivity. }
  rewrite Nat.add_comm, Nat.iter_add, E.
  induction k as [|k IH]; [reflexivity|]. simpl. rewrite IH. reflexivity.
Qed.

End ProgressMore.

(** X2: with the position within its declared bounds, no number of
    presses of Advance moves the lesson to an earlier position (earlier
    chapter, or same chapter and earlier stage). *)
Theorem advance_never_goes_back (s : State) (n : nat) :
  in_bounds (props s) ->
  pos_le (position s) (position (Nat.iter n advance s)).
Proof.
  intros Hb. induction n as [|n IH]; [apply pos_le_refl|].
  simpl. eapply pos_le_trans; [exact IH|].
  rewrite advance_moves_position.
  destruct (iter_advance_in_bounds n s Hb) as [Hc Hs].
  unfold position. apply advance_position_le; assumption.
Qed.

Lemma advance_never_goes_back_witness :
  pos_le (position (Sample.state_of Sample.undoing_host (Sample.props_at 2 4)))
         (position (Nat.iter 3 advance
                      (Sample.state_of Sample.undoing_host (Sample.props_at 2 4)))).
Proof.
  apply (advance_never_goes_back
           (Sample.state_of Sample.undoing_host (Sample.props_at 2 4)) 3).
  unfold in_bounds. simpl. unfold IntProperty_set. lia.
Defined.

(** X3: a jump to chapter 4 or beyond (a number above 5 is clamped to 5)
    followed by eight or more presses of Advance ends at (5, 5), whatever
    the session was before. *)
Theorem jump_then_advance_reaches_end
        (float_pow : float -> float -> float) (ops : BpyOps)
        (ss : Session) (c : Z) (k : nat) :
  4 <= c ->
  position (state (run float_pow ops (GotoChapter c :: repeat Advance (8 + k)) ss))
  = (5, 5).
Proof.
  intros Hc.
  change (GotoChapter c :: repeat Advance (8 + k))
    with ([GotoChapter c] ++ repeat Advance (8 + k)).
  unfold run. rewrite fold_left_app.
  change (fold_left (fun acc c0 => step float_pow ops c0 acc) (repeat Advance (8 + k)))
    with (run float_pow ops (repeat Advance (8 + k))).
  rewrite run_advances, iter_advance_position.
  simpl fold_left. unfold position at 1. cbn [state step snd goto_chapter_execute props
    with_props report emit current_chapter current_stage set_monitoring_active
    set_stage_complete set_current_stage set_current_chapter chapter goto_chapter_with].
  apply reaches_the_end; unfold IntProperty_set; lia.
Qed.

Lemma jump_then_advance_reaches_end_witness :
  position (state (run Sample.libm_pow Sample.idle_ops
                       (GotoChapter 4 :: repeat Advance (8 + 0))
                       (initial_session Sample.undoing_host)))
  = (5, 5).
Proof.
  apply (jump_then_advance_reaches_end Sample.libm_pow Sample.idle_ops
           (initial_session Sample.undoing_host) 4 0).
  lia.
Defined.

(** X4: with the position within its declared bounds, Advance at (5, 5)
    changes no property at all; anywhere else, also at (3, 5) where the
    position stays, it clears both flags and keeps the baseline. *)
Theorem advance_clears_flags_unless_done (s : State) :
  in_bounds (props s) ->
  (position s = (5, 5) -> props (advance s) = props s)
  /\ (position s <> (5, 5) ->
      flags (props (advance s)) = (false, false)
      /\ baseline (props (advance s)) = baseline (props s)).
Proof.
  intros [Hc Hs]. unfold position, advance, next_stage_execute. split.
  - intros E. injection E as E1 E2. rewrite E1, E2. reflexivity.
  - intros N.
    destruct (current_stage (props s)
              <? dict_get max_stages_per_chapter (current_chapter (props s)) 4) eqn:L;
      [split; reflexivity|].
    destruct (current_chapter (props s) <? 5) eqn:L5; [split; reflexivity|].
    exfalso. apply N. apply Z.ltb_ge in L5.
    assert (current_chapter (props s) = 5) as E5 by lia.
    rewrite E5 in L. simpl in L. apply Z.ltb_ge in L.
    rewrite E5. f_equal. lia.
Qed.

Lemma advance_clears_flags_unless_done_witness :
  flags (props (advance (Sample.state_of Sample.undoing_host
                           (set_stage_complete true (Sample.props_at 3 5)))))
  = (false, false).
Proof.
  apply (proj2 (advance_clears_flags_unless_done
                  (Sample.state_of Sample.undoing_host
                     (set_stage_complete true (Sample.props_at 3 5)))
                  ltac:(unfold in_bounds; simpl; unfold IntProperty_set; lia))).
  discriminate.
Defined.

(** X5: Reset and GotoChapter(n) always land on stage 1 with both flags
    cleared, in chapter 1 and in chapter n clamped into [1, 5]; neither
    touches the baseline or the host, and Reset is GotoChapter(1) on the
    properties. *)
Theorem reset_and_jump_land_on_stage_1 (s : State) (n : Z) :
  let r := snd (reset_execute s) in
  let g := snd (goto_chapter_execute (goto_chapter_with n) s) in
  position r = (1, 1)
  /\ position g = (Z.max 1 (Z.min 5 n), 1)
  /\ flags (props r) = (false, false)
  /\ flags (props g) = (false, false)
  /\ baseline (props r) = baseline (props s)
  /\ baseline (props g) = baseline (props s)
  /\ host r = host s /\ host g = host s
  /\ props r = props (snd (goto_chapter_execute (goto_chapter_with 1) s)).
Proof.
  intros r g. split; [reflexivity|]. split.
  { unfold position. simpl. unfold IntProperty_set. f_equal. lia. }
  repeat (split; [reflexivity|]). reflexivity.
Qed.

(* ================================================================= *)
(** ** The table, the catalog and the validator agree *)

Section Agreement.

Lemma catalog_entry (stages : list (Z * Catalog.StageInfo)) (n : Z) :
  (forall k info, In (k, info) stages -> info <> [] /\ well_formed_info info) ->
  Catalog.stages_get stages n <> [] ->
  well_formed_info (Catalog.stages_get stages n).
Proof.
  intros Hall. induction stages as [|[k info] rest IH]; simpl; [congruence|].
  destruct (k =? n).
  - intros _. apply (Hall k info). left. reflexivity.
  - apply IH. intros k' info' Hin. apply (Hall k' info'). right. exact Hin.
Qed.

Ltac all_entries :=
  intros k info Hin; simpl in Hin;
  repeat (destruct Hin as [Hin|Hin];
          [inversion Hin; subst; split; [discriminate|];
           unfold well_formed_info; simpl; repeat split; eauto|]);
  contradiction.

Lemma chapter1_entries k info :
  In (k, info) Catalog.stages_chapter1 -> info <> [] /\ well_formed_info info.
Proof. revert k info. all_entries. Qed.

Lemma chapter2_entries k info :
  In (k, info) Catalog.stages_chapter2 -> info <> [] /\ well_formed_info info.
Proof. revert k info. all_entries. Qed.

Lemma chapter3_entries k info :
  In (k, info) Catalog.stages_chapter3 -> info <> [] /\ well_formed_info info.
Proof. revert k info. all_entries. Qed.

Lemma chapter4_entries k info :
  In (k, info) Catalog.stages_chapter4 -> info <> [] /\ well_formed_info info.
Proof. revert k info. all_entries. Qed.

Lemma chapter5_entries k info :
  In (k, info) Catalog.stages_chapter5 -> info <> [] /\ well_formed_info info.
Proof. revert k info. all_entries. Qed.

(** The keys of a chapter's dict are the stages 1 to [n]. *)
Lemma stages_get_known (stages : list (Z * Catalog.StageInfo)) (n s : Z) :
  map fst stages = map Z.of_nat (seq 1 (Z.to_nat n)) ->
  (forall k info, In (k, info) stages -> info <> [] /\ well_formed_info info) ->
  0 <= n ->
  (Catalog.stages_get stages s <> [] <-> 1 <= s <= n).
Proof.
  intros Hk Hall Hn. split.
  - intros Hne.
    assert (In s (map fst stages)) as Hin.
    { clear Hk Hall. induction stages as [|[k info] rest IH]; simpl in *; [congruence|].
      destruct (Z.eqb_spec k s); [left; assumption | right; apply IH; exact Hne]. }
    rewrite Hk in Hin. apply in_map_iff in Hin. destruct Hin as (i & <- & Hi).
    apply in_seq in Hi. lia.
  - intros Hs.
    assert (In s (map fst stages)) as Hin.
    { rewrite Hk. apply in_map_iff. exists (Z.to_nat s). split; [lia|].
      apply in_seq. lia. }
    clear Hk. induction stages as [|[k info] rest IH]; simpl in *; [contradiction|].
    destruct (Z.eqb_spec k s) as [E|N].
    + apply (Hall k info). left. reflexivity.
    + apply IH.
      * intros k' info' H'. apply (Hall k' info'). right. exact H'.
      * destruct Hin as [E|Hin]; [contradiction | exact Hin].
Qed.

End Agreement.

(** X6: the catalog has a descriptor exactly for the (chapter, stage)
    pairs of the stage table (chapter 3 stage 6 included); any other pair
    gives the empty dict, and every descriptor has a title, a name, a
    description, a control text and manual=False. *)
Theorem catalog_matches_stage_table (chapter_num stage_num : Z) :
  (Catalog.get_stage_info chapter_num stage_num <> []
   <-> has_validator chapter_num stage_num = true)
  /\ (Catalog.get_stage_info chapter_num stage_num <> [] ->
      well_formed_info (Catalog.get_stage_info chapter_num stage_num)).
Proof.
  unfold Catalog.get_stage_info, has_validator.
  destruct (Z.eqb_spec chapter_num 1) as [->|N1].
  { split; [|apply catalog_entry, chapter1_entries].
    rewrite (stages_get_known _ 4); [simpl dict_get; rewrite andb_true_iff, !Z.leb_le; reflexivity | reflexivity | apply chapter1_entries | lia]. }
  destruct (Z.eqb_spec chapter_num 2) as [->|N2].
  { split; [|apply catalog_entry, chapter2_entries].
    rewrite (stages_get_known _ 4); [simpl dict_get; rewrite andb_true_iff, !Z.leb_le; reflexivity | reflexivity | apply chapter2_entries | lia]. }
  destruct (Z.eqb_spec chapter_num 3) as [->|N3].
  { split; [|apply catalog_entry, chapter3_entries].
    rewrite (stages_get_known _ 6); [simpl dict_get; rewrite andb_true_iff, !Z.leb_le; reflexivity | reflexivity | apply chapter3_entries | lia]. }
  destruct (Z.eqb_spec chapter_num 4) as [->|N4].
  { split; [|apply catalog_entry, chapter4_entries].
    rewrite (stages_get_known _ 4); [simpl dict_get; rewrite andb_true_iff, !Z.leb_le; reflexivity | reflexivity | apply chapter4_entries | lia]. }
  destruct (Z.eqb_spec chapter_num 5) as [->|N5].
  { split; [|apply catalog_entry, chapter5_entries].
    rewrite (stages_get_known _ 5); [simpl dict_get; rewrite andb_true_iff, !Z.leb_le; reflexivity | reflexivity | apply chapter5_entries | lia]. }
  split; [|congruence].
  split; [congruence|].
  intros H. exfalso.
  assert (dict_get max_stages_per_chapter chapter_num 0 = 0) as E.
  { unfold max_stages_per_chapter. cbn [dict_get].
    repeat match goal with
           | |- context [Z.eqb ?a chapter_num] => destruct (Z.eqb_spec a chapter_num)
           end; try reflexivity; exfalso; lia. }
  rewrite E in H. lia.
Qed.

Section GenericMessage.

Variable float_pow : float -> float -> float.

Ltac known_stage p n :=
  let S := fresh "S" in
  assert (S : 1 <= current_stage p <= n) by lia;
  let E := fresh "E" in
  repeat match type of S with
         | 1 <= current_stage p <= _ =>
             destruct (Z.eq_dec (current_stage p) 1) as [E|];
             [|destruct (Z.eq_dec (current_stage p) 2) as [E|];
               [|destruct (Z.eq_dec (current_stage p) 3) as [E|];
                 [|destruct (Z.eq_dec (current_stage p) 4) as [E|];
                   [|destruct (Z.eq_dec (current_stage p) 5) as [E|];
                     [|destruct (Z.eq_dec (current_stage p) 6) as [E|];
                       [|exfalso; lia]]]]]]; clear S
         end.

(** Split on a scrutinee that holds no further [match]. *)
Ltac break_inner :=
  match goal with
  | |- context [match ?x with _ => _ end] =>
      lazymatch x with
      | context [match _ with _ => _ end] => fail
      | _ => destruct x eqn:?
      end
  end.

Ltac leaves :=
  repeat break_inner;
  try (let H := fresh in intro H; discriminate H).

(** A pair of the table always gets the answer of its own branch. *)
Lemma known_pair_has_branch (h : Host) (p : TUTORIAL_PG_Properties) :
  has_validator (current_chapter p) (current_stage p) = true ->
  validate_stage float_pow h p <> Ok (false, [Lit "❌ 判定エラー"]).
Proof.
  unfold has_validator. intros H.
  apply andb_true_iff in H. destruct H as [H1 H2].
  apply Z.leb_le in H1. apply Z.leb_le in H2.
  rewrite validate_stage_of_try. unfold validate_stage_try.
  destruct (Z.eqb_spec (current_chapter p) 1) as [C|N1].
  { rewrite C in H2. simpl in H2. known_stage p 4; try (exfalso; lia);
      unfold validate_chapter1; rewrite E; simpl; leaves. }
  destruct (Z.eqb_spec (current_chapter p) 2) as [C|N2].
  { rewrite C in H2. simpl in H2. known_stage p 4; try (exfalso; lia);
      unfold validate_chapter2; rewrite E; simpl; leaves. }
  destruct (Z.eqb_spec (current_chapter p) 3) as [C|N3].
  { rewrite C in H2. simpl in H2. known_stage p 6; try (exfalso; lia);
      unfold validate_chapter3, bind; rewrite E; simpl; leaves. }
  destruct (Z.eqb_spec (current_chapter p) 4) as [C|N4].
  { rewrite C in H2. simpl in H2. known_stage p 4; try (exfalso; lia);
      unfold validate_chapter4; rewrite E; simpl; leaves. }
  destruct (Z.eqb_spec (current_chapter p) 5) as [C|N5].
  { rewrite C in H2. simpl in H2. known_stage p 5; try (exfalso; lia);
      unfold validate_chapter5, validate_base_color, validate_pbr, except_error,
        error_outcome, no_object, bind;
      rewrite E; simpl; leaves. }
  exfalso.
  assert (dict_get max_stages_per_chapter (current_chapter p) 0 = 0) as Z0.
  { unfold max_stages_per_chapter. cbn [dict_get].
    repeat match goal with
           | |- context [Z.eqb ?a (current_chapter p)] =>
               destruct (Z.eqb_spec a (current_chapter p))
           end; try reflexivity; exfalso; lia. }
  lia.
Qed.

Lemma unknown_pair_no_branch (h : Host) (p : TUTORIAL_PG_Properties) :
  has_validator (current_chapter p) (current_stage p) = false ->
  (current_chapter p = 2 -> view_available h) ->
  validate_stage_try float_pow h p = Ok None.
Proof.
  intros H V. unfold validate_stage_try. unfold has_validator in H.
  destruct (Z.eqb_spec (current_chapter p) 1) as [E|N1].
  { rewrite E in H. rewrite unknown_stage_chapter1; auto. }
  destruct (Z.eqb_spec (current_chapter p) 2) as [E|N2].
  { rewrite E in H. simpl in H. destruct (V E) as (space & region & Hs & Hr).
    unfold validate_chapter2. rewrite Hs, Hr.
    split_eqb; try reflexivity; exfalso; lia. }
  destruct (Z.eqb_spec (current_chapter p) 3) as [E|N3].
  { rewrite E in H. simpl in H. unfold validate_chapter3.
    split_eqb; try reflexivity; exfalso; lia. }
  destruct (Z.eqb_spec (current_chapter p) 4) as [E|N4].
  { rewrite E in H. simpl in H. unfold validate_chapter4.
    split_eqb; try reflexivity; exfalso; lia. }
  destruct (Z.eqb_spec (current_chapter p) 5) as [E|N5].
  { rewrite E in H. simpl in H. unfold validate_chapter5.
    split_eqb; try reflexivity; exfalso; lia. }
  reflexivity.
Qed.

End GenericMessage.

(** X7: the validator answers with its generic last message
    (false, "❌ 判定エラー") exactly when the (chapter, stage) pair is
    outside the stage table and, for chapter 2, a 3D view is on screen
    (without one, chapter 2 answers "no 3D view" at every stage). *)
Theorem generic_error_only_off_table
        (float_pow : float -> float -> float) (h : Host) (p : TUTORIAL_PG_Properties) :
  validate_stage float_pow h p = Ok (false, [Lit "❌ 判定エラー"])
  <-> has_validator (current_chapter p) (current_stage p) = false
      /\ (current_chapter p = 2 -> view_available h).
Proof.
  split.
  - intros G.
    destruct (has_validator (current_chapter p) (current_stage p)) eqn:K.
    { exfalso. exact (known_pair_has_branch float_pow h p K G). }
    split; [reflexivity|]. intros C2.
    rewrite validate_stage_of_try in G. unfold validate_stage_try in G.
    rewrite C2 in G. simpl in G. unfold validate_chapter2 in G.
    destruct (get_view3d_space h) as [space|] eqn:Hs; [|discriminate G].
    destruct (region_3d space) as [region|] eqn:Hr; [|discriminate G].
    exists space, region. auto.
  - intros [K V]. rewrite validate_stage_of_try.
    rewrite (unknown_pair_no_branch float_pow h p K V). reflexivity.
Qed.

(* ================================================================= *)
(** ** Finding objects and views *)

Section Finding.

Lemma prefix_spec (needle hay : string) :
  String.prefix needle hay = true <-> exists after, hay = String.append needle after.
Proof.
  revert hay. induction needle as [|a needle IH]; intros hay.
  - split; [intros _; exists hay; reflexivity | intros _; destruct hay; reflexivity].
  - destruct hay as [|b hay]; simpl.
    + split; [discriminate | intros (after & E); discriminate E].
    + destruct (Ascii.ascii_dec a b) as [->|N].
      * rewrite IH. split; intros (after & E); exists after.
        -- rewrite E. reflexivity.
        -- inversion E. reflexivity.
      * split; [discriminate|]. intros (after & E). inversion E. congruence.
Qed.

(** [str_in] is Python's [in] on strings. *)
Lemma str_in_spec (needle hay : string) :
  str_in needle hay = true <-> occurs_in needle hay.
Proof.
  unfold occurs_in. induction hay as [|c hay IH].
  - change (str_in needle "") with (if String.prefix needle "" then true else false).
    destruct (String.prefix needle "") eqn:P.
    + split; [intros _|reflexivity].
      apply prefix_spec in P. destruct P as (after & E).
      exists "", after. exact E.
    + split; [discriminate|]. intros (before & after & E).
      destruct before; [|discriminate E]. simpl in E.
      assert (String.prefix needle "" = true) as P'
          by (apply prefix_spec; exists after; exact E).
      congruence.
  - change (str_in needle (String c hay))
      with (if String.prefix needle (String c hay) then true else str_in needle hay).
    destruct (String.prefix needle (String c hay)) eqn:P.
    + split; [intros _|reflexivity].
      apply prefix_spec in P. destruct P as (after & E).
      exists "", after. exact E.
    + rewrite IH. split.
      * intros (before & after & E). exists (String c before), after.
        simpl. rewrite E. reflexivity.
      * intros (before & after & E). destruct before as [|b before].
        -- simpl in E.
           assert (String.prefix needle (String c hay) = true) as P'
               by (apply prefix_spec; exists after; exact E).
           congruence.
        -- simpl in E. inversion E. exists before, after. reflexivity.
Qed.

Lemma find_first {A : Type} (f : A -> bool) (l : list A) (a : A) :
  find f l = Some a ->
  exists before after,
    l = before ++ a :: after /\ f a = true /\ forall b, In b before -> f b = false.
Proof.
  induction l as [|b l IH]; simpl; [discriminate|].
  destruct (f b) eqn:F.
  - intros E. inversion E; subst b. exists [], l. repeat split; auto.
    intros b [].
  - intros E. destruct (IH E) as (before & after & -> & Fa & Hb).
    exists (b :: before), after. repeat split; auto.
    intros b' [<-|Hin]; auto.
Qed.

(** What the helpers look for: a mesh whose name holds [part]. *)
Lemma mesh_named_spec (part : string) (obj : Object) :
  String.eqb (type obj) "MESH" && str_in part (name obj) = true
  <-> type obj = "MESH" /\ occurs_in part (name obj).
Proof. rewrite andb_true_iff, String.eqb_eq, str_in_spec. reflexivity. Qed.

Lemma first_view3d_space_sound (areas : list Area) (sp : Space) :
  first_view3d_space areas = Some sp ->
  exists area, In area areas /\ area_type area = "VIEW_3D"
               /\ In sp (spaces area) /\ space_type sp = "VIEW_3D".
Proof.
  induction areas as [|area areas IH]; simpl; [discriminate|].
  destruct (String.eqb_spec (area_type area) "VIEW_3D") as [Ea|Na].
  - destruct (find (fun space => String.eqb (space_type space) "VIEW_3D") (spaces area))
      as [sp'|] eqn:F.
    + intros E. inversion E; subst sp'. apply find_some in F. destruct F as [Hin Ht].
      apply String.eqb_eq in Ht. exists area. auto.
    + intros E. destruct (IH E) as (a & Hin & H). exists a. auto.
  - intros E. destruct (IH E) as (a & Hin & H). exists a. auto.
Qed.

Lemma first_view3d_space_complete (areas : list Area) :
  first_view3d_space areas = None ->
  forall area sp, In area areas -> area_type area = "VIEW_3D" ->
                  In sp (spaces area) -> space_type sp <> "VIEW_3D".
Proof.
  induction areas as [|area areas IH]; simpl; [intros _ a sp []|].
  destruct (String.eqb_spec (area_type area) "VIEW_3D") as [Ea|Na].
  - destruct (find (fun space => String.eqb (space_type space) "VIEW_3D") (spaces area))
      as [sp'|] eqn:F; [discriminate|].
    intros E a sp [<-|Hin] Ht Hs.
    + pose proof (find_none _ _ F sp Hs) as Hf. simpl in Hf.
      apply String.eqb_neq in Hf. exact Hf.
    + exact (IH E a sp Hin Ht Hs).
  - intros E a sp [<-|Hin] Ht Hs; [contradiction|].
    exact (IH E a sp Hin Ht Hs).
Qed.

End Finding.

(** X8: [find_sphere] returns the first object of [bpy.data.objects]
    that is a mesh and whose name contains "Sphere" (and [find_cube] the
    same for "Cube"); it returns [None] exactly when reading the objects
    faults or no object qualifies. *)
Theorem find_sphere_first_named_mesh (h : Host) :
  (forall o, find_sphere h = Some o ->
     exists before after,
       data_objects h = Ok (before ++ o :: after)
       /\ type o = "MESH" /\ occurs_in "Sphere" (name o)
       /\ forall b, In b before -> ~ (type b = "MESH" /\ occurs_in "Sphere" (name b)))
  /\ (find_sphere h = None <->
      (exists e, data_objects h = Raise e)
      \/ exists objs, data_objects h = Ok objs
                      /\ forall b, In b objs ->
                                   ~ (type b = "MESH" /\ occurs_in "Sphere" (name b)))
  /\ (forall o, find_cube h = Some o ->
     exists before after,
       data_objects h = Ok (before ++ o :: after)
       /\ type o = "MESH" /\ occurs_in "Cube" (name o)
       /\ forall b, In b before -> ~ (type b = "MESH" /\ occurs_in "Cube" (name b))).
Proof.
  unfold find_sphere, find_cube, except_return, bind.
  destruct (data_objects h) as [objs|e].
  - split; [|split].
    + intros o F. apply find_first in F. destruct F as (before & after & -> & Fo & Hb).
      apply mesh_named_spec in Fo. exists before, after.
      repeat split; try tauto.
      intros b Hin Hq. apply mesh_named_spec in Hq. rewrite (Hb b Hin) in Hq. discriminate.
    + split.
      * intros F. right. exists objs. split; [reflexivity|].
        intros b Hin Hq. apply mesh_named_spec in Hq.
        pose proof (find_none _ _ F b Hin) as Hf. simpl in Hf. congruence.
      * intros [(e & E)|(objs' & E & Hn)]; [discriminate E|].
        inversion E; subst objs'.
        destruct (find _ objs) as [o|] eqn:F; [|reflexivity].
        exfalso. apply find_some in F. destruct F as [Hin Fo].
        apply mesh_named_spec in Fo. exact (Hn o Hin Fo).
    + intros o F. apply find_first in F. destruct F as (before & after & -> & Fo & Hb).
      apply mesh_named_spec in Fo. exists before, after.
      repeat split; try tauto.
      intros b Hin Hq. apply mesh_named_spec in Hq. rewrite (Hb b Hin) in Hq. discriminate.
  - split; [intros o F; discriminate F|]. split.
    + split; [intros _; left; exists e; reflexivity | reflexivity].
    + intros o F. discriminate F.
Qed.

(** X9: [get_view3d_space] returns a space of type VIEW_3D that belongs
    to an area of type VIEW_3D of the screen, and returns [None] exactly
    when reading the areas faults or no such area has such a space. *)
Theorem get_view3d_space_finds_view (h : Host) :
  (forall sp, get_view3d_space h = Some sp ->
     exists areas area,
       context_screen_areas h = Ok areas
       /\ In area areas /\ area_type area = "VIEW_3D"
       /\ In sp (spaces area) /\ space_type sp = "VIEW_3D")
  /\ (get_view3d_space h = None <->
      (exists e, context_screen_areas h = Raise e)
      \/ exists areas,
           context_screen_areas h = Ok areas
           /\ forall area sp, In area areas -> area_type area = "VIEW_3D" ->
                              In sp (spaces area) -> space_type sp <> "VIEW_3D").
Proof.
  unfold get_view3d_space, except_return, bind.
  destruct (context_screen_areas h) as [areas|e].
  - split.
    + intros sp F. destruct (first_view3d_space_sound areas sp F) as (area & H).
      exists areas, area. tauto.
    + split.
      * intros F. right. exists areas. split; [reflexivity|].
        apply first_view3d_space_complete, F.
      * intros [(e & E)|(areas' & E & Hn)]; [discriminate E|].
        inversion E; subst areas'.
        destruct (first_view3d_space areas) as [sp|] eqn:F; [|reflexivity].
        exfalso. destruct (first_view3d_space_sound areas sp F) as (area & Ha & Ht & Hs & Hst).
        exact (Hn area sp Ha Ht Hs Hst).
  - split; [intros sp F; discriminate F|].
    split; [intros _; left; exists e; reflexivity | reflexivity].
Qed.

(* ================================================================= *)
(** ** Sculpting needs six vertices *)

Section FewVertices.

Variable float_pow : float -> float -> float.

Lemma count_le_length {A : Type} (f : A -> bool) (l : list A) :
  (count f l <= List.length l)%nat.
Proof.
  unfold count. induction l as [|a l IH]; simpl; [lia|].
  destruct (f a); simpl; lia.
Qed.

Lemma moved_count_bound (current baseline : list vec3) :
  (moved_count float_pow current baseline
   <= Nat.min (List.length current) (List.length baseline))%nat.
Proof.
  unfold moved_count. etransitivity; [apply count_le_length|].
  rewrite length_seq. lia.
Qed.

End FewVertices.

(** X10: the number of moved vertices never exceeds the shorter of the
    two vertex counts, so at chapter 4 stage 2 a baseline of at most five
    stored positions, or a sphere of at most five vertices, can never be
    validated as complete. *)
Theorem few_vertices_never_complete
        (float_pow : float -> float -> float) (h : Host) (p : TUTORIAL_PG_Properties) :
  current_chapter p = 4 ->
  current_stage p = 2 ->
  (List.length (initial_vertex_positions p) <= 5)%nat
  \/ (forall o, find_sphere h = Some o -> (List.length (current_vertices o) <= 5)%nat) ->
  exists msg, validate_stage float_pow h p = Ok (false, msg).
Proof.
  intros Hc Hs Hfew.
  destruct (is_in_sculpt_mode h) eqn:Hm.
  2:{ apply complete_false_msg, not_sculpting_chapter4; assumption. }
  destruct (find_sphere h) as [o|] eqn:Hf.
  2:{ apply complete_false_msg, missing_sphere_incomplete; auto. }
  pose proof (chapter4_stage2_answer float_pow h p o Hc Hs Hm Hf) as A. simpl in A.
  pose proof (moved_count_bound float_pow (current_vertices o) (initial_vertex_positions p)) as B.
  assert ((moved_count float_pow (current_vertices o) (initial_vertex_positions p) <= 5)%nat) as L.
  { destruct Hfew as [Hb|Ho]; [|specialize (Ho o eq_refl)]; lia. }
  rewrite A. apply Nat.ltb_ge in L. rewrite L. eauto.
Qed.

Lemma few_vertices_never_complete_witness :
  exists msg,
    validate_stage Sample.libm_pow Sample.sculpted_host
      (set_initial_vertices (repeat (Vec3 0 0 0) 5) 5 (Sample.props_at 4 2))
    = Ok (false, msg).
Proof.
  apply (few_vertices_never_complete Sample.libm_pow Sample.sculpted_host
           (set_initial_vertices (repeat (Vec3 0 0 0) 5) 5 (Sample.props_at 4 2))
           eq_refl eq_refl).
  left. simpl. lia.
Defined.

(* ================================================================= *)
(** ** A float minus itself *)

Section FloatFacts.

Lemma SFsub_self (s : spec_float) :
  SF64sub s s = S754_zero false \/ SF64sub s s = S754_nan.
Proof.
  destruct s as [[|]|[|]| |sx m e]; simpl; auto.
  left. unfold SF64sub, SFsub.
  rewrite Z.min_id. unfold shl_align. rewrite Z.sub_diag. simpl.
  reflexivity.
Qed.

(** [x - x] is zero, or NaN when [x] is infinite or NaN. *)
Lemma float_sub_self (x : float) : (x - x = 0 \/ x - x = nan)%float.
Proof.
  rewrite <- (SF2Prim_Prim2SF (x - x)), sub_spec.
  destruct (SFsub_self (Prim2SF x)) as [-> | ->]; [left|right]; reflexivity.
Qed.

Lemma no_change_below_threshold (x : float) :
  gt (abs (x - x)) 0.01%float = false
  /\ gt (abs (x - x)) 0.5%float = false
  /\ gt (x - x) 0.2%float = false
  /\ lt (abs (x - x - 2.0)) 0.1%float = false
  /\ lt (abs (x - x - 45.0)) 1.0%float = false.
Proof.
  destruct (float_sub_self x) as [-> | ->]; repeat split; reflexivity.
Qed.

End FloatFacts.

(* ================================================================= *)
(** ** More on Setup *)

Section SetupMore.

Variable float_pow : float -> float -> float.
Variable ops : BpyOps.

Lemma bindM_ok {A B : Type} (m : M A) (k : A -> M B) (s s' : State) (b : B) :
  bindM m k s = (Ok b, s') ->
  exists a s1, m s = (Ok a, s1) /\ k a s1 = (Ok b, s').
Proof.
  unfold bindM. destruct (m s) as [[a|e] s1]; [eauto | discriminate].
Qed.

Lemma kc_ret {A : Type} (a : A) : keeps_control (ret a).
Proof. intros s r s' H. inversion H. reflexivity. Qed.

Lemma kc_bind {A B : Type} (m : M A) (k : A -> M B) :
  keeps_control m -> (forall a, keeps_control (k a)) -> keeps_control (bindM m k).
Proof.
  intros Hm Hk s r s' H. unfold bindM in H.
  destruct (m s) as [[a|e] s1] eqn:E.
  - rewrite (Hk a s1 r s' H). exact (Hm s _ s1 E).
  - inversion H; subst. exact (Hm s _ s' E).
Qed.

Lemma kc_try_pass (m : M unit) : keeps_control m -> keeps_control (try_pass m).
Proof.
  intros Hm s r s' H. unfold try_pass in H.
  destruct (m s) as [r1 s1] eqn:E. inversion H; subst. exact (Hm s _ s' E).
Qed.

Lemma kc_read {A : Type} (f : Host -> result A) : keeps_control (read f).
Proof. intros s r s' H. inversion H. reflexivity. Qed.

Lemma kc_gets {A : Type} (f : State -> A) : keeps_control (gets f).
Proof. intros s r s' H. inversion H. reflexivity. Qed.

Lemma kc_run_action (a : host_action) : keeps_control (run_action a).
Proof.
  intros s r s' H. unfold run_action in H.
  destruct (a (host s)) as [r1 h1]. inversion H. reflexivity.
Qed.

Lemma kc_modify (f : TUTORIAL_PG_Properties -> TUTORIAL_PG_Properties) :
  (forall p, current_chapter (f p) = current_chapter p
             /\ current_stage (f p) = current_stage p
             /\ stage_complete (f p) = stage_complete p
             /\ monitoring_active (f p) = monitoring_active p) ->
  keeps_control (modify_props f).
Proof.
  intros Hf s r s' H. inversion H. unfold control, position, flags. simpl.
  destruct (Hf (props s)) as (-> & -> & -> & ->). reflexivity.
Qed.

Lemma kc_raise {A : Type} (e : exn) :
  keeps_control (fun s : State => (@Raise A e, s)).
Proof. intros s r s' H. inversion H. reflexivity. Qed.

Ltac kc :=
  repeat first
    [ apply kc_ret
    | apply kc_read
    | apply kc_gets
    | apply kc_run_action
    | apply kc_raise
    | apply kc_try_pass
    | apply kc_modify; intros; repeat split; reflexivity
    | apply kc_bind; [|intros]
    | break_match ].

Lemma kc_active_object_ref : keeps_control active_object_ref.
Proof. unfold active_object_ref. kc. Qed.

Lemma kc_new_cube : keeps_control (new_cube ops).
Proof. unfold new_cube. kc; try apply kc_active_object_ref; kc. Qed.

Lemma kc_capture_counts : keeps_control capture_counts.
Proof. unfold capture_counts, bound_object. kc. Qed.

Lemma kc_enter_edit_mode : keeps_control (enter_edit_mode_deselected ops).
Proof. unfold enter_edit_mode_deselected. kc. Qed.

Lemma kc_enter_sculpt_mode : keeps_control (enter_sculpt_mode ops).
Proof.
  intros s r s' H. unfold enter_sculpt_mode in H.
  destruct (run_action (object_mode_set ops "SCULPT") s) as [[u|e] s1] eqn:E.
  - inversion H; subst. exact (kc_run_action _ s _ s' E).
  - rewrite (kc_run_action _ s1 r s' H). exact (kc_run_action _ s _ s1 E).
Qed.

Lemma kc_setup_prepare : keeps_control (setup_prepare ops).
Proof.
  unfold setup_prepare. apply kc_bind; [apply kc_gets|]. intros p.
  repeat break_match.
  - unfold setup_chapter1.
    kc; try apply kc_new_cube; try apply kc_active_object_ref; kc.
  - unfold setup_chapter2. kc.
  - unfold setup_chapter3.
    kc; try apply kc_enter_edit_mode; try apply kc_capture_counts;
      try apply kc_new_cube; kc.
  - unfold setup_chapter4, bound_object.
    kc; try apply kc_active_object_ref; try apply kc_enter_sculpt_mode; kc.
  - unfold setup_chapter5.
    kc; try apply kc_active_object_ref; try apply kc_new_cube; kc.
    intros s r s' H.
    destruct (open_shader_editor_at_bottom ops (host s)) as [b h1].
    inversion H. reflexivity.
  - apply kc_ret.
Qed.

(** Chapter 1: the baseline is the transform of the object left active. *)
Lemma setup_chapter1_captures (s s' : State) :
  setup_chapter1 ops s = (Ok tt, s') ->
  exists o, context_active_object (host s') = Some o
            /\ initial_position (props s') = location o
            /\ initial_rotation (props s') = rotation_euler o
            /\ initial_scale (props s') = scale o.
Proof.
  unfold setup_chapter1. intros H.
  apply bindM_ok in H. destruct H as (u1 & s1 & _ & H).
  apply bindM_ok in H. destruct H as (u2 & s2 & _ & H).
  apply bindM_ok in H. destruct H as (u3 & s3 & _ & H).
  apply bindM_ok in H. destruct H as (cube & s4 & Hc & H).
  unfold active_object_ref, bindM, gets in Hc.
  destruct (context_active_object (host s3)) as [o|] eqn:Ho; [|discriminate Hc].
  inversion Hc; subst. inversion H; subst. exists cube. auto.
Qed.

(** Chapter 2: the host is not touched; the baseline is the view, when
    there is one. *)
Lemma setup_chapter2_result (s : State) :
  setup_chapter2 s =
  (Ok tt,
   match get_view3d_space (host s) with
   | Some sp =>
       match region_3d sp with
       | Some region =>
           with_props (set_initial_view (view_distance region) (view_location region)) s
       | None => s
       end
   | None => s
   end).
Proof.
  unfold setup_chapter2, bindM, gets.
  destruct (get_view3d_space (host s)) as [sp|]; [|reflexivity].
  destruct (region_3d sp); reflexivity.
Qed.

Lemma fresh_transform_incomplete (h : Host) (p : TUTORIAL_PG_Properties) (o : Object) :
  context_active_object h = Some o ->
  initial_position p = location o ->
  initial_rotation p = rotation_euler o ->
  initial_scale p = scale o ->
  current_chapter p = 1 ->
  2 <= current_stage p <= 4 ->
  complete (validate_stage float_pow h p) = false.
Proof.
  intros Ho Hp Hr Hsc Hc Hs. rewrite complete_validate_stage.
  unfold validate_stage_try, validate_chapter1, is_cube. rewrite Hc, Ho. simpl.
  assert (current_stage p = 2 \/ current_stage p = 3 \/ current_stage p = 4) as S by lia.
  destruct (String.eqb (name o) "Cube");
    destruct S as [E|[E|E]]; rewrite E; simpl; try reflexivity.
  - rewrite Hp. simpl.
    destruct (no_change_below_threshold (x (location o))) as (_ & _ & _ & -> & _).
    reflexivity.
  - rewrite Hr. simpl. unfold degrees.
    destruct (no_change_below_threshold (x (rotation_euler o) * (180 / math_pi))%float)
      as (_ & _ & _ & _ & ->).
    reflexivity.
  - rewrite Hsc. simpl.
    destruct (no_change_below_threshold (x (scale o))) as (-> & _).
    reflexivity.
Qed.

Lemma fresh_view_incomplete (h : Host) (p : TUTORIAL_PG_Properties) :
  (forall sp region, get_view3d_space h = Some sp -> region_3d sp = Some region ->
                     initial_view_distance p = view_distance region) ->
  current_chapter p = 2 ->
  current_stage p = 2 \/ current_stage p = 4 ->
  complete (validate_stage float_pow h p) = false.
Proof.
  intros Hv Hc Hs. rewrite complete_validate_stage.
  unfold validate_stage_try, validate_chapter2. rewrite Hc. simpl.
  destruct (get_view3d_space h) as [sp|]; [|reflexivity].
  destruct (region_3d sp) as [region|] eqn:Hr; [|reflexivity].
  unfold dist_diff. rewrite (Hv sp region eq_refl Hr).
  destruct (no_change_below_threshold (view_distance region)) as (_ & G & _).
  destruct Hs as [E|E]; rewrite E; simpl; rewrite G; [reflexivity|].
  rewrite andb_false_r. reflexivity.
Qed.

End SetupMore.

(** X11: right after a Setup that completes, with Blender untouched,
    the validator answers incomplete at chapter 1 stages 2 to 4 (the
    baseline is the cube's own transform) and at chapter 2 stages 2 and 4
    (the baseline is the view's own distance). *)
Theorem fresh_setup_is_incomplete
        (float_pow : float -> float -> float) (ops : BpyOps) (s s' : State) :
  setup_stage_execute ops s = (FINISHED, s') ->
  (current_chapter (props s) = 1 /\ 2 <= current_stage (props s) <= 4)
  \/ (current_chapter (props s) = 2
      /\ (current_stage (props s) = 2 \/ current_stage (props s) = 4)) ->
  exists msg, validate_answer float_pow s' = Ok (false, msg).
Proof.
  unfold setup_stage_execute, validate_answer. intros H Hpos.
  destruct (setup_prepare ops s) as [[u|e] s1] eqn:P; [|discriminate H].
  inversion H; subst s'. clear H. simpl.
  pose proof (kc_setup_prepare ops s _ s1 P) as K.
  unfold control, position in K. injection K as Kc Ks _ _ _.
  apply complete_false_msg.
  unfold setup_prepare, bindM, gets in P. simpl in P.
  destruct Hpos as [[Hc Hs]|[Hc Hs]]; rewrite Hc in P; simpl in P.
  - destruct u. destruct (setup_chapter1_captures ops s s1 P) as (o & Ho & Hp & Hr & Hsc).
    apply (fresh_transform_incomplete float_pow _ _ o); try assumption;
      simpl; congruence.
  - rewrite setup_chapter2_result in P. inversion P as [E1]. clear P.
    apply fresh_view_incomplete; simpl; try congruence.
    intros sp region Hsp Hr.
    destruct (get_view3d_space (host s)) as [sp0|] eqn:G0; subst s1; simpl in *.
    + destruct (region_3d sp0) as [r0|] eqn:R0; simpl in *.
      * rewrite G0 in Hsp. inversion Hsp; subst sp0. rewrite R0 in Hr.
        inversion Hr; subst r0. reflexivity.
      * rewrite G0 in Hsp. inversion Hsp; subst sp0. congruence.
    + rewrite G0 in Hsp. discriminate Hsp.
Qed.

Lemma fresh_setup_is_incomplete_witness :
  exists msg,
    validate_answer Sample.libm_pow
      (snd (setup_stage_execute Sample.idle_ops
              (Sample.state_of (Sample.host_with Sample.plain_cube "OBJECT"
                                                 Sample.home_view)
                               (Sample.props_at 1 4))))
    = Ok (false, msg).
Proof.
  apply (fresh_setup_is_incomplete Sample.libm_pow Sample.idle_ops
           (Sample.state_of (Sample.host_with Sample.plain_cube "OBJECT" Sample.home_view)
                            (Sample.props_at 1 4))).
  - reflexivity.
  - left. simpl. unfold IntProperty_set. lia.
Defined.

Lemma control_eq (a b : State) :
  control a = control b ->
  position a = position b /\ flags (props a) = flags (props b)
  /\ timers a = timers b /\ trace a = trace b.
Proof.
  intros H. unfold control in H. repeat split.
  - exact (f_equal (fun c => fst (fst (fst c))) H).
  - exact (f_equal (fun c => snd (fst (fst c))) H).
  - exact (f_equal (fun c => snd (fst c)) H).
  - exact (f_equal snd H).
Qed.

(** X12: a Setup returns FINISHED or CANCELLED and never moves the
    position; a cancelled Setup leaves both flags and the timers as they
    were and adds exactly one ERROR report to the trace. *)
Theorem cancelled_setup_keeps_progress (ops : BpyOps) (s : State) :
  let status := fst (setup_stage_execute ops s) in
  let s' := snd (setup_stage_execute ops s) in
  (status = FINISHED \/ status = CANCELLED)
  /\ position s' = position s
  /\ timers s' = timers s
  /\ (status = CANCELLED ->
      flags (props s') = flags (props s)
      /\ exists e, trace s' = trace s ++ [EvReport "ERROR" [ExnFmt e]]).
Proof.
  unfold setup_stage_execute.
  destruct (setup_prepare ops s) as [[u|e] s1] eqn:P; simpl;
    destruct (control_eq _ _ (kc_setup_prepare ops s _ s1 P)) as (Kp & Kf & Kt & Ktr).
  - split; [left; reflexivity|]. split; [exact Kp|]. split; [exact Kt|]. discriminate.
  - split; [right; reflexivity|]. split; [exact Kp|]. split; [exact Kt|].
    intros _. split; [exact Kf|]. exists e. rewrite Ktr. reflexivity.
Qed.

(** X13: Setup at a chapter-2 stage never fails and never touches
    Blender; with a 3D view on screen it stores the view's distance and
    location as the baseline, without one it keeps the old baseline, and
    in both cases it arms monitoring. *)
Theorem setup_chapter2_captures_view (ops : BpyOps) (s : State) :
  current_chapter (props s) = 2 ->
  let s' := snd (setup_stage_execute ops s) in
  fst (setup_stage_execute ops s) = FINISHED
  /\ host s' = host s
  /\ flags (props s') = (false, true)
  /\ (forall sp region,
        get_view3d_space (host s) = Some sp -> region_3d sp = Some region ->
        initial_view_distance (props s') = view_distance region
        /\ initial_view_location (props s') = view_location region)
  /\ (~ view_available (host s) -> baseline (props s') = baseline (props s)).
Proof.
  intros Hc. unfold setup_stage_execute, setup_prepare, bindM, gets. simpl.
  rewrite Hc. simpl. rewrite setup_chapter2_result. simpl.
  split; [reflexivity|].
  destruct (get_view3d_space (host s)) as [sp|] eqn:G.
  - destruct (region_3d sp) as [region|] eqn:R.
    + split; [reflexivity|]. split; [reflexivity|]. split.
      * intros sp' region' Es Er. inversion Es; subst sp'.
        rewrite R in Er. inversion Er; subst region'. split; reflexivity.
      * intros V. exfalso. apply V. exists sp, region. auto.
    + split; [reflexivity|]. split; [reflexivity|]. split.
      * intros sp' region' Es Er. inversion Es; subst sp'. congruence.
      * intros _. reflexivity.
  - split; [reflexivity|]. split; [reflexivity|]. split.
    + intros sp' region' Es. discriminate Es.
    + intros _. reflexivity.
Qed.

Lemma setup_chapter2_captures_view_witness :
  initial_view_distance
    (props (snd (setup_stage_execute Sample.idle_ops
                   (Sample.state_of (Sample.panned_host 0.6) (Sample.props_at 2 1)))))
  = 0.6%float.
Proof.
  apply (proj1 ((proj1 (proj2 (proj2 (proj2
           (setup_chapter2_captures_view Sample.idle_ops
              (Sample.state_of (Sample.panned_host 0.6) (Sample.props_at 2 1))
              eq_refl)))))
           _ _ eq_refl eq_refl)).
Defined.

(** X14: Setup at a chapter-3 stage with no mesh named like "Cube" in
    the scene does nothing to Blender or to the baseline and still
    returns FINISHED with monitoring armed. *)
Theorem setup_chapter3_without_cube (ops : BpyOps) (s : State) :
  current_chapter (props s) = 3 ->
  find_cube (host s) = None ->
  let s' := snd (setup_stage_execute ops s) in
  fst (setup_stage_execute ops s) = FINISHED
  /\ host s' = host s
  /\ baseline (props s') = baseline (props s)
  /\ flags (props s') = (false, true).
Proof.
  intros Hc Hf. unfold setup_stage_execute, setup_prepare, bindM, gets. simpl.
  rewrite Hc. simpl. unfold setup_chapter3, bindM, gets. rewrite Hf. simpl.
  repeat split.
Qed.

Lemma setup_chapter3_without_cube_witness :
  fst (setup_stage_execute Sample.idle_ops
         (Sample.state_of Sample.sculpted_host (Sample.props_at 3 1)))
  = FINISHED.
Proof.
  apply (proj1 (setup_chapter3_without_cube Sample.idle_ops
                  (Sample.state_of Sample.sculpted_host (Sample.props_at 3 1))
                  eq_refl eq_refl)).
Defined.

(* ================================================================= *)
(** ** More on the poll loop *)

Section PollMore.

Variable float_pow : float -> float -> float.

Lemma check_stage_host (s : State) : host (check_stage float_pow s) = host s.
Proof.
  unfold check_stage. simpl.
  destruct (validate_stage float_pow (host s) (props s)) as [[c msg]|e];
    [destruct (c && negb (stage_complete (props s)))|]; reflexivity.
Qed.

Lemma check_stage_monitoring (s : State) :
  monitoring_active (props (check_stage float_pow s)) = monitoring_active (props s).
Proof.
  unfold check_stage. simpl.
  destruct (validate_stage float_pow (host s) (props s)) as [[c msg]|e];
    [destruct (c && negb (stage_complete (props s)))|]; reflexivity.
Qed.

(** A tick whose clock reads the time of the last check validates
    nothing. *)
Lemma modal_same_instant (self : TUTORIAL_OT_monitoring) (s : State) :
  _last_check self = time_time (host s) ->
  validations (trace (snd (modal float_pow self "TIMER" s))) = validations (trace s).
Proof.
  intros E. unfold modal. simpl.
  destruct (monitoring_active (props s)); simpl.
  - destruct (is_undo_running (host s)); [reflexivity|].
    rewrite E.
    destruct (no_change_below_threshold (time_time (host s))) as (_ & _ & -> & _).
    reflexivity.
  - destruct (_timer self); simpl; [|reflexivity].
    rewrite validations_app. unfold validations at 2, count. simpl. lia.
Qed.

Lemma deliver_other_event (ev : string) (ms : list TUTORIAL_OT_monitoring) (s : State) :
  ev <> "TIMER" -> deliver float_pow ev ms s = (ms, s).
Proof.
  intros N. induction ms as [|m ms IH]; [reflexivity|].
  simpl. unfold modal.
  destruct (String.eqb_spec ev "TIMER") as [E|_]; [contradiction|].
  rewrite IH. reflexivity.
Qed.

End PollMore.

(** X15: two timer ticks in a row on an unchanged Blender evaluate the
    validator at most once: the first evaluation stores the clock
    reading, and the gap to it is not above 0.2. *)
Theorem poll_evaluates_once_per_instant
        (float_pow : float -> float -> float)
        (self : TUTORIAL_OT_monitoring) (s : State) :
  (validations (trace (snd (two_ticks float_pow self s)))
   <= S (validations (trace s)))%nat.
Proof.
  unfold two_ticks.
  destruct (modal float_pow self "TIMER" s) as [[st self1] s1] eqn:M.
  unfold modal in M. simpl in M.
  destruct (monitoring_active (props s)) eqn:Hm; simpl in M.
  - destruct (is_undo_running (host s)) eqn:Hu.
    + inversion M; subst. rewrite modal_during_undo by assumption. simpl. lia.
    + destruct (gt (time_time (host s) - _last_check self) 0.2%float) eqn:G.
      * inversion M; subst. clear M.
        rewrite modal_same_instant by (simpl; rewrite check_stage_host; reflexivity).
        rewrite check_stage_validates_once. lia.
      * inversion M; subst. clear M. unfold modal. simpl. rewrite Hm, Hu, G. simpl. lia.
  - inversion M; subst. clear M.
    assert (validations (trace (match _timer self1 with
                                | Some t => event_timer_remove t s
                                | None => s
                                end)) = validations (trace s)) as V.
    { destruct (_timer self1); simpl; [|reflexivity].
      rewrite validations_app. unfold validations at 2, count. simpl. lia. }
    destruct (modal_no_evaluation float_pow self1 "TIMER"
                (match _timer self1 with
                 | Some t => event_timer_remove t s
                 | None => s
                 end)) as [V2 _].
    { left. destruct (_timer self1); simpl; exact Hm. }
    rewrite V2, V. lia.
Qed.

(** X16: a monitoring operator started while monitoring_active is false
    ends at its first timer tick and leaves the window manager's timers
    and the properties exactly as they were before it was started. *)
Theorem idle_monitor_leaves_no_timer
        (float_pow : float -> float -> float) (s : State) :
  monitoring_active (props s) = false ->
  let '(_, self, s1) := monitoring_execute s in
  let '(status, _, s2) := modal float_pow self "TIMER" s1 in
  status = FINISHED /\ timers s2 = timers s /\ props s2 = props s
  /\ ~ In (S (list_max (timers s))) (timers s).
Proof.
  intros Hm. unfold monitoring_execute, event_timer_add. simpl.
  rewrite modal_when_idle by exact Hm. simpl.
  assert (~ In (S (list_max (timers s))) (timers s)) as Fresh.
  { intros Hin.
    assert (Forall (fun k => (k <= list_max (timers s))%nat) (timers s)) as F
        by (apply list_max_le; lia).
    rewrite Forall_forall in F. specialize (F _ Hin). lia. }
  repeat split; try assumption.
  rewrite remove_app, (notin_remove _ _ _ Fresh), remove_cons. apply app_nil_r.
Qed.

Lemma idle_monitor_leaves_no_timer_witness :
  timers (snd (modal Sample.libm_pow
                 (snd (fst (monitoring_execute
                              (Sample.state_of Sample.undoing_host (Sample.props_at 1 1)))))
                 "TIMER"
                 (snd (monitoring_execute
                         (Sample.state_of Sample.undoing_host (Sample.props_at 1 1))))))
  = [].
Proof.
  pose proof (idle_monitor_leaves_no_timer Sample.libm_pow
                (Sample.state_of Sample.undoing_host (Sample.props_at 1 1))
                eq_refl) as H.
  exact (proj1 (proj2 H)).
Defined.

(** X17: an event that is not a timer tick changes nothing: every
    running monitoring operator stays as it is, and so does the state. *)
Theorem only_timer_events_matter
        (float_pow : float -> float -> float) (ops : BpyOps)
        (ev : string) (ss : Session) :
  ev <> "TIMER" ->
  step float_pow ops (Deliver ev) ss = ss.
Proof.
  intros N. simpl. rewrite deliver_other_event by exact N.
  destruct ss. reflexivity.
Qed.

Lemma only_timer_events_matter_witness :
  step Sample.libm_pow Sample.idle_ops (Deliver "MOUSEMOVE")
       (initial_session Sample.undoing_host)
  = initial_session Sample.undoing_host.
Proof.
  apply (only_timer_events_matter Sample.libm_pow Sample.idle_ops "MOUSEMOVE"
           (initial_session Sample.undoing_host)).
  discriminate.
Defined.

(* ================================================================= *)
(** ** The other stages of chapters 1 and 2 *)

(** X18: at chapter 1 the validator answers complete=true exactly when
    the active object is named "Cube" and, at stage 1, nothing more; at
    stage 2, its X position minus the baseline X is within 0.1 of 2.0; at
    stage 3, its X rotation minus the baseline, in degrees, is within 1.0
    of 45.0.  With baseline X = 0, X = 2.05 passes stage 2 and X = 1.8
    does not. *)
Theorem chapter1_transform_stages
        (float_pow : float -> float -> float) (h : Host) (p : TUTORIAL_PG_Properties) :
  current_chapter p = 1 ->
  (current_stage p = 1 ->
   ((exists msg, validate_stage float_pow h p = Ok (true, msg))
    <-> exists o, context_active_object h = Some o /\ name o = "Cube"))
  /\ (current_stage p = 2 ->
      ((exists msg, validate_stage float_pow h p = Ok (true, msg))
       <-> exists o, context_active_object h = Some o /\ name o = "Cube"
                     /\ lt (abs (x (location o) - x (initial_position p) - 2.0)) 0.1%float
                        = true))
  /\ (current_stage p = 3 ->
      ((exists msg, validate_stage float_pow h p = Ok (true, msg))
       <-> exists o, context_active_object h = Some o /\ name o = "Cube"
                     /\ lt (abs (degrees (x (rotation_euler o))
                                 - degrees (x (initial_rotation p)) - 45.0)) 1.0%float
                        = true))
  /\ (forall o, current_stage p = 2 ->
        context_active_object h = Some o -> name o = "Cube" ->
        x (initial_position p) = 0%float ->
        (x (location o) = 2.05%float ->
         validate_stage float_pow h p = Ok (true, [Lit "✓ +2移動しました"]))
        /\ (x (location o) = 1.8%float ->
            exists msg, validate_stage float_pow h p = Ok (false, msg))).
Proof.
  intros Hc.
  assert (forall (cond : Object -> bool) (yes no none : outcome),
             fst yes = true -> fst no = false -> fst none = false ->
             (complete (Ok match is_cube (context_active_object h) with
                           | Some o => if cond o then yes else no
                           | None => none
                           end) = true
              <-> exists o, context_active_object h = Some o /\ name o = "Cube"
                            /\ cond o = true)) as Shape.
  { intros cond [y1 y2] [n1 n2] [z1 z2] Hy Hn Hz. simpl in Hy, Hn, Hz. subst.
    unfold is_cube. destruct (context_active_object h) as [o|]; simpl.
    - destruct (String.eqb_spec (name o) "Cube") as [En|Nn]; simpl.
      + destruct (cond o) eqn:Cd; simpl.
        * split; [intros _; exists o; auto | reflexivity].
        * split; [discriminate|]. intros (o' & E & _ & Cd'). inversion E; subst. congruence.
      + split; [discriminate|]. intros (o' & E & Hn & _). inversion E; subst. contradiction.
    - split; [discriminate | intros (o' & E & _); discriminate E]. }
  split; [|split; [|split]].
  - intros Hs. rewrite <- complete_true_msg, validate_stage_of_try.
    unfold validate_stage_try, validate_chapter1. rewrite Hc, Hs. simpl.
    transitivity (exists o, context_active_object h = Some o /\ name o = "Cube"
                            /\ (fun _ : Object => true) o = true).
    + rewrite <- (Shape (fun _ => true)
                    (true, [Lit "✓ キューブが選択されました"])
                    (false, []) (false, [Lit "❌ キューブを選択してください"])
                    eq_refl eq_refl eq_refl).
      destruct (is_cube (context_active_object h)); reflexivity.
    + split; [intros (o & A & B & _); exists o; auto
             | intros (o & A & B); exists o; auto].
  - intros Hs. rewrite <- complete_true_msg, validate_stage_of_try.
    unfold validate_stage_try, validate_chapter1. rewrite Hc, Hs. simpl.
    rewrite <- (Shape (fun o => lt (abs (x (location o) - x (initial_position p) - 2.0))
                                   0.1%float)
                  (true, [Lit "✓ +2移動しました"])
                  (false, []) (false, [Lit "❌ キューブなし"])
                  eq_refl eq_refl eq_refl).
    destruct (is_cube (context_active_object h)) as [o|]; simpl; [|reflexivity].
    destruct (lt _ _); reflexivity.
  - intros Hs. rewrite <- complete_true_msg, validate_stage_of_try.
    unfold validate_stage_try, validate_chapter1. rewrite Hc, Hs. simpl.
    rewrite <- (Shape (fun o => lt (abs (degrees (x (rotation_euler o))
                                         - degrees (x (initial_rotation p)) - 45.0))
                                   1.0%float)
                  (true, [Lit "✓ 45度回転しました"])
                  (false, []) (false, [Lit "❌ キューブなし"])
                  eq_refl eq_refl eq_refl).
    destruct (is_cube (context_active_object h)) as [o|]; simpl; [|reflexivity].
    destruct (lt _ _); reflexivity.
  - intros o Hs Ho Hn H0.
    assert (forall v, x (location o) = v ->
              validate_stage float_pow h p =
              Ok (if lt (abs (v - 0 - 2.0)) 0.1%float
                  then (true, [Lit "✓ +2移動しました"])
                  else (false, [Lit "❌ 移動: "; FloatFmt 2 (v - 0)]))) as A.
    { intros v Hv. rewrite validate_stage_of_try.
      unfold validate_stage_try, validate_chapter1, is_cube.
      rewrite Hc, Hs, Ho. simpl. rewrite Hn. simpl. rewrite H0, Hv.
      destruct (lt (abs (v - 0 - 2)) 0.1%float); reflexivity. }
    split; intros Hv; rewrite (A _ Hv); [reflexivity | eexists; reflexivity].
Qed.

Lemma chapter1_transform_stages_witness :
  validate_stage Sample.libm_pow
    (Sample.host_with (Sample2.moved_cube 2.05) "OBJECT" Sample.home_view)
    (Sample.props_at 1 2)
  = Ok (true, [Lit "✓ +2移動しました"]).
Proof.
  apply (proj1 (proj2 (proj2 (proj2
           (chapter1_transform_stages Sample.libm_pow
              (Sample.host_with (Sample2.moved_cube 2.05) "OBJECT" Sample.home_view)
              (Sample.props_at 1 2) eq_refl)))
           (Sample2.moved_cube 2.05) eq_refl eq_refl eq_refl eq_refl));
    reflexivity.
Defined.

Section ViewStages.

Variable float_pow : float -> float -> float.

(** The answer of chapter 2 for a stage in the table. *)
Lemma chapter2_complete (h : Host) (p : TUTORIAL_PG_Properties) :
  current_chapter p = 2 ->
  1 <= current_stage p <= 4 ->
  (complete (validate_stage float_pow h p) = true
   <-> exists sp region,
         get_view3d_space h = Some sp /\ region_3d sp = Some region
         /\ (if current_stage p =? 1 then gt (loc_diff float_pow p region) 0.1%float
             else if current_stage p =? 2 then gt (dist_diff p region) 0.5%float
             else if current_stage p =? 3
                  then gt (loc_diff float_pow p region) 0.01%float
                       || gt (dist_diff p region) 0.01%float
             else gt (loc_diff float_pow p region) 0.1%float
                  && gt (dist_diff p region) 0.5%float) = true).
Proof.
  intros Hc Hs. rewrite complete_validate_stage.
  unfold validate_stage_try, validate_chapter2. rewrite Hc. simpl.
  destruct (get_view3d_space h) as [sp|].
  2:{ split; [discriminate | intros (? & ? & E & _); discriminate E]. }
  destruct (region_3d sp) as [region|] eqn:Hr.
  2:{ split; [discriminate|]. intros (? & ? & E & R & _). inversion E; subst. congruence. }
  assert (forall b : bool, forall yes no : message,
             complete_opt (if b then Some (true, yes) else Some (false, no)) = b) as B
      by (intros [|]; reflexivity).
  assert (current_stage p = 1 \/ current_stage p = 2 \/ current_stage p = 3
          \/ current_stage p = 4) as S by lia.
  destruct S as [E|[E|[E|E]]]; rewrite E; simpl; rewrite B; split.
  all: try (intros G; exists sp, region; auto).
  all: intros (sp' & r' & Es & Er & G); inversion Es; subst sp';
    rewrite Hr in Er; inversion Er; subst r'; exact G.
Qed.

End ViewStages.

(** X19: at chapter 2, with a 3D view on screen, stage 1 is complete
    exactly when the Euclidean distance between the current and the
    baseline view location (the power 0.5 of the sum, started at 0, of
    the three squared coordinate differences) exceeds 0.1, stage 2 when
    the absolute value of the view distance minus its baseline exceeds
    0.5, stage 3 when either of the two exceeds 0.01; whenever stage 4
    would be complete on a host and baseline, so would stages 1 and 2. *)
Theorem chapter2_view_stages
        (float_pow : float -> float -> float) (h : Host) (p : TUTORIAL_PG_Properties) :
  current_chapter p = 2 ->
  let location_delta (region : RegionView3D) : float :=
    float_pow
      (0 + float_pow (x (view_location region) - x (initial_view_location p)) 2
         + float_pow (y (view_location region) - y (initial_view_location p)) 2
         + float_pow (z (view_location region) - z (initial_view_location p)) 2)%float
      0.5%float in
  let distance_delta (region : RegionView3D) : float :=
    abs (view_distance region - initial_view_distance p) in
  (current_stage p = 1 ->
   ((exists msg, validate_stage float_pow h p = Ok (true, msg))
    <-> exists sp region,
          get_view3d_space h = Some sp /\ region_3d sp = Some region
          /\ gt (location_delta region) 0.1%float = true))
  /\ (current_stage p = 2 ->
      ((exists msg, validate_stage float_pow h p = Ok (true, msg))
       <-> exists sp region,
             get_view3d_space h = Some sp /\ region_3d sp = Some region
             /\ gt (distance_delta region) 0.5%float = true))
  /\ (current_stage p = 3 ->
      ((exists msg, validate_stage float_pow h p = Ok (true, msg))
       <-> exists sp region,
             get_view3d_space h = Some sp /\ region_3d sp = Some region
             /\ (gt (location_delta region) 0.01%float = true
                 \/ gt (distance_delta region) 0.01%float = true)))
  /\ (complete (validate_stage float_pow h (set_current_stage 4 p)) = true ->
      complete (validate_stage float_pow h (set_current_stage 1 p)) = true
      /\ complete (validate_stage float_pow h (set_current_stage 2 p)) = true).
Proof.
  intros Hc location_delta distance_delta.
  assert (location_delta = loc_diff float_pow p) as EL by reflexivity.
  assert (distance_delta = dist_diff p) as ED by reflexivity.
  clearbody location_delta distance_delta. subst location_delta distance_delta.
  split; [|split; [|split]].
  - intros Hs. rewrite <- complete_true_msg, chapter2_complete by lia.
    rewrite Hs. simpl. reflexivity.
  - intros Hs. rewrite <- complete_true_msg, chapter2_complete by lia.
    rewrite Hs. simpl. reflexivity.
  - intros Hs. rewrite <- complete_true_msg, chapter2_complete by lia.
    rewrite Hs. simpl.
    split; intros (sp & region & A & B & G); exists sp, region;
      repeat split; try assumption; [apply orb_true_iff in G | apply orb_true_iff]; exact G.
  - intros H4.
    apply (chapter2_complete float_pow h (set_current_stage 4 p)) in H4;
      [|exact Hc | simpl; unfold IntProperty_set; lia].
    destruct H4 as (sp & region & A & B & G). simpl in G.
    apply andb_true_iff in G. destruct G as [G1 G2].
    split; apply chapter2_complete; try exact Hc;
      try (simpl; unfold IntProperty_set; lia);
      exists sp, region; repeat split; assumption.
Qed.

Lemma chapter2_view_stages_witness :
  exists msg,
    validate_stage Sample.libm_pow (Sample.panned_host 0.6) (Sample.props_at 2 2)
    = Ok (true, msg).
Proof.
  apply (proj2 (proj1 (proj2 (chapter2_view_stages Sample.libm_pow
                                (Sample.panned_host 0.6) (Sample.props_at 2 2) eq_refl))
                 eq_refl)).
  eexists. eexists. repeat split; reflexivity.
Defined.

(* ================================================================= *)
(** ** The stages of chapter 3 *)

Section EditStages.

Variable float_pow : float -> float -> float.

(** When [get_bm] hands out an edit-mesh. *)
Lemma get_bm_spec (h : Host) (obj : option Object) (bm : BMesh) :
  get_bm h obj = Some bm
  <-> exists o m, obj = Some o /\ type o = "MESH"
                  /\ context_mode h = Ok "EDIT_MESH"
                  /\ data o = Some m /\ edit_bmesh m = Some bm.
Proof.
  unfold get_bm, except_return, bind, from_edit_mesh.
  destruct obj as [o|].
  2:{ split; [discriminate | intros (? & ? & E & _); discriminate E]. }
  destruct (String.eqb_spec (type o) "MESH") as [Et|Nt]; simpl.
  2:{ split; [discriminate|]. intros (? & ? & E & T & _). inversion E; subst. contradiction. }
  destruct (context_mode h) as [m|e].
  2:{ split; [discriminate|]. intros (? & ? & _ & _ & E & _). discriminate E. }
  destruct (String.eqb_spec m "EDIT_MESH") as [->|Nm]; simpl.
  2:{ split; [discriminate|]. intros (? & ? & _ & _ & E & _). inversion E. contradiction. }
  destruct (data o) as [mesh|] eqn:Ed.
  2:{ split; [discriminate|]. intros (? & ? & E & _ & _ & D & _). inversion E; subst.
      congruence. }
  destruct (edit_bmesh mesh) as [bm'|] eqn:Eb.
  - split.
    + intros E. inversion E; subst bm'. exists o, mesh. auto.
    + intros (o' & m' & E & _ & _ & D & B). inversion E; subst o'.
      rewrite Ed in D. inversion D; subst m'. congruence.
  - split; [discriminate|].
    intros (o' & m' & E & _ & _ & D & B). inversion E; subst o'.
    rewrite Ed in D. inversion D; subst m'. congruence.
Qed.

(** Stages 2 to 6 ask [get_bm] first and then test the edit-mesh. *)
Lemma chapter3_complete (h : Host) (p : TUTORIAL_PG_Properties) :
  current_chapter p = 3 ->
  2 <= current_stage p <= 6 ->
  (complete (validate_stage float_pow h p) = true
   <-> exists bm,
         get_bm h (context_active_object h) = Some bm
         /\ (if current_stage p =? 2 then 3 <=? Z.of_nat (count (fun v => v) (verts bm))
             else if current_stage p =? 3 then any (fun e => e) (edges bm)
             else if current_stage p =? 4 then any (fun f => f) (faces bm)
             else if current_stage p =? 5
                  then initial_face_count p <? Z.of_nat (List.length (faces bm))
             else initial_vertex_count p <? Z.of_nat (List.length (verts bm))) = true).
Proof.
  intros Hc Hs. rewrite complete_validate_stage.
  unfold validate_stage_try, validate_chapter3. rewrite Hc. simpl.
  assert (current_stage p = 2 \/ current_stage p = 3 \/ current_stage p = 4
          \/ current_stage p = 5 \/ current_stage p = 6) as S by lia.
  destruct (get_bm h (context_active_object h)) as [bm|].
  - destruct S as [E|[E|[E|[E|E]]]]; rewrite E; simpl;
      match goal with
      | |- context [if ?b then _ else _] => destruct b eqn:B
      end; simpl; split; try discriminate;
      try (intros _; exists bm; auto);
      intros (bm' & Eb & G); inversion Eb; subst bm'; congruence.
  - destruct S as [E|[E|[E|[E|E]]]]; rewrite E; simpl;
      (split; [discriminate | intros (bm' & Eb & _); discriminate Eb]).
Qed.

End EditStages.

(** X20: at chapter 3, stage 1 is complete exactly when some object is
    active and the mode is EDIT_MESH; stages 2 to 6 are complete exactly
    when the active object is a mesh in EDIT_MESH mode whose mesh is
    being edited and, on its edit-mesh: at least 3 vertices are selected
    (stage 2), some edge is selected (3), some face is selected (4), the
    faces outnumber the baseline face count (5), the vertices outnumber
    the baseline vertex count (6). *)
Theorem chapter3_edit_stages
        (float_pow : float -> float -> float) (h : Host) (p : TUTORIAL_PG_Properties) :
  current_chapter p = 3 ->
  let editing bm :=
    exists o m, context_active_object h = Some o /\ type o = "MESH"
                /\ context_mode h = Ok "EDIT_MESH"
                /\ data o = Some m /\ edit_bmesh m = Some bm in
  (current_stage p = 1 ->
   ((exists msg, validate_stage float_pow h p = Ok (true, msg))
    <-> (exists o, context_active_object h = Some o) /\ context_mode h = Ok "EDIT_MESH"))
  /\ (current_stage p = 2 ->
      ((exists msg, validate_stage float_pow h p = Ok (true, msg))
       <-> exists bm, editing bm /\ (3 <= count (fun v => v) (verts bm))%nat))
  /\ (current_stage p = 3 ->
      ((exists msg, validate_stage float_pow h p = Ok (true, msg))
       <-> exists bm, editing bm /\ In true (edges bm)))
  /\ (current_stage p = 4 ->
      ((exists msg, validate_stage float_pow h p = Ok (true, msg))
       <-> exists bm, editing bm /\ In true (faces bm)))
  /\ (current_stage p = 5 ->
      ((exists msg, validate_stage float_pow h p = Ok (true, msg))
       <-> exists bm, editing bm
                      /\ initial_face_count p < Z.of_nat (List.length (faces bm))))
  /\ (current_stage p = 6 ->
      ((exists msg, validate_stage float_pow h p = Ok (true, msg))
       <-> exists bm, editing bm
                      /\ initial_vertex_count p < Z.of_nat (List.length (verts bm)))).
Proof.
  intros Hc editing.
  assert (forall bm, get_bm h (context_active_object h) = Some bm <-> editing bm) as G.
  { intros bm. rewrite get_bm_spec. unfold editing. split.
    - intros (o & m & E & H). exists o, m. tauto.
    - intros (o & m & E & H). exists o, m. tauto. }
  assert (forall l : list bool, any (fun b => b) l = true <-> In true l) as A.
  { intros l. unfold any. rewrite existsb_exists. split.
    - intros (b & Hin & Hb). subst b. exact Hin.
    - intros Hin. exists true. auto. }
  split; [|split; [|split; [|split; [|split]]]].
  - intros Hs. rewrite <- complete_true_msg, complete_validate_stage.
    unfold validate_stage_try, validate_chapter3, bind. rewrite Hc, Hs. simpl.
    destruct (context_active_object h) as [o|]; simpl.
    + destruct (context_mode h) as [m|e]; simpl.
      * destruct (String.eqb_spec m "EDIT_MESH") as [->|N]; simpl.
        -- split; [intros _; split; [exists o|]; reflexivity | reflexivity].
        -- split; [discriminate|]. intros [_ E]. inversion E. contradiction.
      * split; [discriminate|]. intros [_ E]. discriminate E.
    + split; [discriminate|]. intros [(o & E) _]. discriminate E.
  - intros Hs. rewrite <- complete_true_msg, chapter3_complete by lia.
    rewrite Hs. simpl.
    split; intros (bm & B & C); exists bm; (split; [apply G; exact B|]).
    + apply Z.leb_le in C. lia.
    + apply Z.leb_le. lia.
  - intros Hs. rewrite <- complete_true_msg, chapter3_complete by lia.
    rewrite Hs. simpl.
    split; intros (bm & B & C); exists bm; (split; [apply G; exact B | apply A; exact C]).
  - intros Hs. rewrite <- complete_true_msg, chapter3_complete by lia.
    rewrite Hs. simpl.
    split; intros (bm & B & C); exists bm; (split; [apply G; exact B | apply A; exact C]).
  - intros Hs. rewrite <- complete_true_msg, chapter3_complete by lia.
    rewrite Hs. simpl.
    split; intros (bm & B & C); exists bm; (split; [apply G; exact B | apply Z.ltb_lt; exact C]).
  - intros Hs. rewrite <- complete_true_msg, chapter3_complete by lia.
    rewrite Hs. simpl.
    split; intros (bm & B & C); exists bm; (split; [apply G; exact B | apply Z.ltb_lt; exact C]).
Qed.

Lemma chapter3_edit_stages_witness :
  exists msg,
    validate_stage Sample.libm_pow
      (Sample.host_with (Sample2.edited_cube Sample2.three_selected) "EDIT_MESH"
                        Sample.home_view)
      (Sample.props_at 3 2)
    = Ok (true, msg).
Proof.
  apply (proj2 (proj1 (proj2 (chapter3_edit_stages Sample.libm_pow
                                (Sample.host_with
                                   (Sample2.edited_cube Sample2.three_selected)
                                   "EDIT_MESH" Sample.home_view)
                                (Sample.props_at 3 2) eq_refl))
                 eq_refl)).
  exists Sample2.three_selected. split.
  - eexists. eexists. repeat split; reflexivity.
  - vm_compute. lia.
Defined.

(* ================================================================= *)
(** ** The stages of chapter 4 that look at the mode and the brush *)

Section SculptStages.

Variable float_pow : float -> float -> float.

Lemma is_in_sculpt_mode_spec (h : Host) :
  is_in_sculpt_mode h = true <-> context_mode h = Ok "SCULPT".
Proof.
  unfold is_in_sculpt_mode, except_return, bind.
  destruct (context_mode h) as [m|e].
  - rewrite String.eqb_eq. split; [intros -> | intros E; inversion E]; reflexivity.
  - split; discriminate.
Qed.

(** The chain [tool_settings.sculpt.brush.name], each link of which may
    be missing. *)
Lemma get_current_brush_name_spec (h : Host) (n : string) :
  get_current_brush_name h = Some n
  <-> exists ts sc b, context_tool_settings h = Ok (Some ts)
                      /\ sculpt ts = Some sc /\ brush sc = Some b /\ brush_name b = n.
Proof.
  unfold get_current_brush_name, except_return, bind.
  destruct (context_tool_settings h) as [[ts|]|e].
  - destruct (sculpt ts) as [sc|] eqn:Es.
    + destruct (brush sc) as [b|] eqn:Eb.
      * split.
        -- intros E. inversion E. exists ts, sc, b. auto.
        -- intros (ts' & sc' & b' & E & S & B & N). inversion E; subst ts'.
           rewrite Es in S. inversion S; subst sc'.
           rewrite Eb in B. inversion B; subst b'. congruence.
      * split; [discriminate|].
        intros (ts' & sc' & b' & E & S & B & N). inversion E; subst ts'.
        rewrite Es in S. inversion S; subst sc'. congruence.
    + split; [discriminate|].
      intros (ts' & sc' & b' & E & S & B & N). inversion E; subst ts'. congruence.
  - split; [discriminate|]. intros (? & ? & ? & E & _). discriminate E.
  - split; [discriminate|]. intros (? & ? & ? & E & _). discriminate E.
Qed.

(** An empty brush name never counts, whatever is looked for. *)
Lemma is_brush_type_selected_spec (h : Host) (brush_type_name : string) :
  is_brush_type_selected h brush_type_name = true
  <-> exists n, get_current_brush_name h = Some n /\ n <> ""
                /\ occurs_in brush_type_name n.
Proof.
  unfold is_brush_type_selected.
  destruct (get_current_brush_name h) as [[|c n]|].
  - split; [discriminate|]. intros (n & E & N & _). inversion E. congruence.
  - rewrite str_in_spec. split.
    + intros O. exists (String c n). repeat split; [discriminate | exact O].
    + intros (n' & E & _ & O). inversion E; subst n'. exact O.
  - split; [discriminate|]. intros (n & E & _). discriminate E.
Qed.

Lemma occurs_in_nonempty (c : Ascii.ascii) (needle hay : string) :
  occurs_in (String c needle) hay -> hay <> "".
Proof.
  intros (before & after & E) ->. destruct before; discriminate E.
Qed.

Lemma chapter4_brush_stage (h : Host) (p : TUTORIAL_PG_Properties) (wanted : string) :
  current_chapter p = 4 ->
  (current_stage p = 3 /\ wanted = "Smooth") \/ (current_stage p = 4 /\ wanted = "Grab") ->
  (complete (validate_stage float_pow h p) = true
   <-> context_mode h = Ok "SCULPT"
       /\ exists n, get_current_brush_name h = Some n /\ occurs_in wanted n).
Proof.
  intros Hc Hs. rewrite complete_validate_stage, <- is_in_sculpt_mode_spec.
  unfold validate_stage_try, validate_chapter4. rewrite Hc. simpl.
  assert (is_brush_type_selected h wanted = true
          <-> exists n, get_current_brush_name h = Some n /\ occurs_in wanted n) as B.
  { rewrite is_brush_type_selected_spec. split.
    - intros (n & E & _ & O). exists n. auto.
    - intros (n & E & O). exists n. repeat split; auto.
      destruct Hs as [[_ ->]|[_ ->]]; exact (occurs_in_nonempty _ _ _ O). }
  destruct Hs as [[Hs ->]|[Hs ->]]; rewrite Hs; simpl;
    destruct (is_in_sculpt_mode h); simpl;
    try (split; [discriminate | intros [E _]; discriminate E]);
    match goal with
    | |- context [is_brush_type_selected h ?w] =>
        destruct (is_brush_type_selected h w) eqn:S
    end; simpl; rewrite <- B;
    (split; [intros E; split; [reflexivity | exact E] | intros [_ E]; exact E]).
Qed.

End SculptStages.

(** X21: at chapter 4, stage 1 is complete exactly when the mode is
    SCULPT and [find_sphere] finds a sphere; stage 3 (stage 4) exactly
    when the mode is SCULPT and the sculpt brush at the end of
    [tool_settings.sculpt.brush] has a name containing "Smooth"
    ("Grab").  A missing link of that chain, or a fault while reading the
    tool settings, gives no brush name. *)
Theorem chapter4_mode_and_brush_stages
        (float_pow : float -> float -> float) (h : Host) (p : TUTORIAL_PG_Properties) :
  current_chapter p = 4 ->
  let brush_named n :=
    exists ts sc b, context_tool_settings h = Ok (Some ts)
                    /\ sculpt ts = Some sc /\ brush sc = Some b /\ brush_name b = n in
  (current_stage p = 1 ->
   ((exists msg, validate_stage float_pow h p = Ok (true, msg))
    <-> context_mode h = Ok "SCULPT" /\ exists o, find_sphere h = Some o))
  /\ (current_stage p = 3 ->
      ((exists msg, validate_stage float_pow h p = Ok (true, msg))
       <-> context_mode h = Ok "SCULPT"
           /\ exists n, brush_named n /\ occurs_in "Smooth" n))
  /\ (current_stage p = 4 ->
      ((exists msg, validate_stage float_pow h p = Ok (true, msg))
       <-> context_mode h = Ok "SCULPT"
           /\ exists n, brush_named n /\ occurs_in "Grab" n)).
Proof.
  intros Hc brush_named.
  assert (forall w,
            (exists n, get_current_brush_name h = Some n /\ occurs_in w n)
            <-> exists n, brush_named n /\ occurs_in w n) as N.
  { intros w. split; intros (n & E & O); exists n; (split; [|exact O]);
      apply get_current_brush_name_spec; exact E. }
  split; [|split]; intros Hs; rewrite <- complete_true_msg.
  - rewrite complete_validate_stage, <- is_in_sculpt_mode_spec.
    unfold validate_stage_try, validate_chapter4. rewrite Hc, Hs. simpl.
    destruct (is_in_sculpt_mode h); simpl.
    + destruct (find_sphere h) as [o|]; simpl.
      * split; [intros _; split; [|exists o]; reflexivity | reflexivity].
      * split; [discriminate | intros [_ (o & E)]; discriminate E].
    + split; [discriminate | intros [E _]; discriminate E].
  - rewrite (chapter4_brush_stage float_pow h p "Smooth" Hc) by auto.
    rewrite N. reflexivity.
  - rewrite (chapter4_brush_stage float_pow h p "Grab" Hc) by auto.
    rewrite N. reflexivity.
Qed.

Lemma chapter4_mode_and_brush_stages_witness :
  exists msg,
    validate_stage Sample.libm_pow (Sample2.brush_host "Elastic Grab") (Sample.props_at 4 4)
    = Ok (true, msg).
Proof.
  apply (proj2 (proj2 (proj2 (chapter4_mode_and_brush_stages Sample.libm_pow
                                (Sample2.brush_host "Elastic Grab")
                                (Sample.props_at 4 4) eq_refl))
                 eq_refl)).
  split; [reflexivity|].
  exists "Elastic Grab". split.
  - eexists. eexists. eexists. repeat split; reflexivity.
  - exists "Elastic ", "". reflexivity.
Defined.

(* ================================================================= *)
(** ** The stages of chapter 5 that read the material *)

Section MaterialStages.

Variable float_pow : float -> float -> float.

(** The four guards of [get_active_material]. *)
Lemma get_active_material_spec (obj : option Object) (mat : Material) :
  get_active_material obj = Some mat
  <-> exists o mesh, obj = Some o /\ data o = Some mesh
                     /\ 0 <= active_material_index o
                     /\ nth_error (material_slots o)
                                  (Z.to_nat (active_material_index o))
                        = Some (Some mat).
Proof.
  unfold get_active_material.
  destruct obj as [o|].
  2:{ split; [discriminate | intros (? & ? & E & _); discriminate E]. }
  destruct (data o) as [mesh|] eqn:Ed.
  2:{ split; [discriminate|]. intros (o' & ? & E & D & _). inversion E; subst o'.
      congruence. }
  assert (active_material o = Some mat
          <-> 0 <= active_material_index o
              /\ nth_error (material_slots o) (Z.to_nat (active_material_index o))
                 = Some (Some mat)) as A.
  { unfold active_material.
    destruct (Z.ltb_spec (active_material_index o) 0) as [L|L].
    - split; [discriminate | intros [G _]; lia].
    - destruct (nth_error (material_slots o) (Z.to_nat (active_material_index o)))
        as [[m|]|].
      + split; [intros E; inversion E; auto | intros [_ E]; inversion E; reflexivity].
      + split; [discriminate | intros [_ E]; discriminate E].
      + split; [discriminate | intros [_ E]; discriminate E]. }
  destruct (material_slots o) as [|slot slots] eqn:Es.
  - split; [discriminate|]. intros (o' & ? & E & _ & _ & N). inversion E; subst o'.
    rewrite Es in N. destruct (Z.to_nat (active_material_index o)); discriminate N.
  - destruct (Z.ltb_spec (active_material_index o) 0) as [L|L].
    + split; [discriminate|]. intros (o' & ? & E & _ & G & _). inversion E; subst o'. lia.
    + rewrite A. split.
      * intros [G N]. exists o, mesh. rewrite Es. repeat split; auto.
      * intros (o' & ? & E & _ & G & N). inversion E; subst o'.
        rewrite Es in N. auto.
Qed.

Lemma find_first_iff {A : Type} (f : A -> bool) (l : list A) (a : A) :
  find f l = Some a
  <-> exists before after,
        l = before ++ a :: after /\ f a = true /\ forall b, In b before -> f b = false.
Proof.
  split; [apply find_first|].
  intros (before & after & -> & Fa & Hb).
  induction before as [|b before IH]; simpl.
  - rewrite Fa. reflexivity.
  - rewrite (Hb b (or_introl eq_refl)). apply IH. intros c Hc. apply Hb. right. exact Hc.
Qed.

Lemma get_principled_bsdf_spec (mat : Material) (bsdf : Node) :
  get_principled_bsdf (Some mat) = Some bsdf
  <-> use_nodes mat = true
      /\ exists tree before after,
           node_tree mat = Some tree
           /\ nodes tree = before ++ bsdf :: after
           /\ node_type bsdf = "BSDF_PRINCIPLED"
           /\ forall b, In b before -> node_type b <> "BSDF_PRINCIPLED".
Proof.
  unfold get_principled_bsdf, except_return, bind, node_tree_nodes.
  destruct (use_nodes mat); simpl.
  2:{ split; [discriminate | intros [E _]; discriminate E]. }
  destruct (node_tree mat) as [tree|].
  2:{ split; [discriminate | intros [_ (? & ? & ? & E & _)]; discriminate E]. }
  rewrite find_first_iff. split.
  - intros (before & after & E & T & Hb). split; [reflexivity|].
    exists tree, before, after. apply String.eqb_eq in T. repeat split; auto.
    intros b Hin. apply String.eqb_neq. exact (Hb b Hin).
  - intros [_ (tree' & before & after & E & N & T & Hb)]. inversion E; subst tree'.
    exists before, after. rewrite String.eqb_eq. repeat split; auto.
    intros b Hin. apply String.eqb_neq. exact (Hb b Hin).
Qed.

(** With one Principled BSDF in the graph, the first one found is the
    last one found. *)
Lemma first_principled_is_last (ns : list Node) (bsdf : Node) :
  count (fun n => String.eqb (node_type n) "BSDF_PRINCIPLED") ns = 1%nat ->
  find (fun node => String.eqb (node_type node) "BSDF_PRINCIPLED") ns = Some bsdf ->
  last_of_type "BSDF_PRINCIPLED" ns = Some bsdf.
Proof.
  intros C F. apply find_some in F. destruct F as [Hin T]. apply String.eqb_eq in T.
  exact (only_of_type _ _ _ C Hin T).
Qed.

Lemma check_image_texture_node_exists_spec (obj : option Object) :
  check_image_texture_node_exists obj = true
  <-> exists mat tree node img,
        get_active_material obj = Some mat /\ use_nodes mat = true
        /\ node_tree mat = Some tree /\ In node (nodes tree)
        /\ node_type node = "TEX_IMAGE" /\ image node = Some img.
Proof.
  unfold check_image_texture_node_exists, except_return, bind, node_tree_nodes, any.
  destruct (get_active_material obj) as [mat|].
  2:{ split; [discriminate | intros (? & ? & ? & ? & E & _); discriminate E]. }
  destruct (use_nodes mat) eqn:U; simpl.
  2:{ split; [discriminate|]. intros (? & ? & ? & ? & E & U' & _).
      inversion E; subst. congruence. }
  destruct (node_tree mat) as [tree|] eqn:T.
  2:{ split; [discriminate|]. intros (? & ? & ? & ? & E & _ & T' & _).
      inversion E; subst. congruence. }
  rewrite existsb_exists. split.
  - intros (node & Hin & Hn). apply andb_true_iff in Hn. destruct Hn as [Ht Hi].
    apply String.eqb_eq in Ht. destruct (image node) as [img|] eqn:I; [|discriminate].
    exists mat, tree, node, img. auto 10.
  - intros (mat' & tree' & node & img & E & _ & T' & Hin & Ht & I).
    inversion E; subst mat'. rewrite T in T'. inversion T'; subst tree'.
    exists node. split; [exact Hin|]. rewrite Ht, I. reflexivity.
Qed.

(** Without an active object every stage of chapter 5 answers the same. *)
Lemma chapter5_without_object (h : Host) (p : TUTORIAL_PG_Properties) :
  current_chapter p = 5 -> 1 <= current_stage p <= 5 ->
  context_active_object h = None ->
  validate_stage float_pow h p = Ok no_object.
Proof.
  intros Hc Hs Ho. rewrite validate_stage_of_try.
  unfold validate_stage_try, validate_chapter5. rewrite Hc, Ho. simpl.
  assert (current_stage p = 1 \/ current_stage p = 2 \/ current_stage p = 3
          \/ current_stage p = 4 \/ current_stage p = 5) as S by lia.
  destruct S as [E|[E|[E|[E|E]]]]; rewrite E; reflexivity.
Qed.

(** Stages 2 and 5 hand the Principled BSDF to their inner [try]. *)
Lemma chapter5_stage2_result (h : Host) (p : TUTORIAL_PG_Properties)
      (mat : Material) (bsdf : Node) :
  current_chapter p = 5 -> current_stage p = 2 ->
  get_active_material (context_active_object h) = Some mat ->
  get_principled_bsdf (Some mat) = Some bsdf ->
  validate_stage float_pow h p = Ok (validate_base_color bsdf).
Proof.
  intros Hc Hs Hm Hb. rewrite validate_stage_of_try.
  unfold validate_stage_try, validate_chapter5. rewrite Hc, Hs.
  destruct (context_active_object h) as [o|]; [|discriminate Hm].
  rewrite Hm, Hb. reflexivity.
Qed.

Lemma chapter5_stage5_result (h : Host) (p : TUTORIAL_PG_Properties)
      (mat : Material) (bsdf : Node) :
  current_chapter p = 5 -> current_stage p = 5 ->
  get_active_material (context_active_object h) = Some mat ->
  get_principled_bsdf (Some mat) = Some bsdf ->
  validate_stage float_pow h p = Ok (validate_pbr bsdf).
Proof.
  intros Hc Hs Hm Hb. rewrite validate_stage_of_try.
  unfold validate_stage_try, validate_chapter5. rewrite Hc, Hs.
  destruct (context_active_object h) as [o|]; [|discriminate Hm].
  rewrite Hm, Hb. reflexivity.
Qed.

Lemma chapter5_stage1_complete (h : Host) (p : TUTORIAL_PG_Properties) :
  current_chapter p = 5 -> current_stage p = 1 ->
  (complete (validate_stage float_pow h p) = true
   <-> exists mat, get_active_material (context_active_object h) = Some mat
                   /\ use_nodes mat = true).
Proof.
  intros Hc Hs. rewrite complete_validate_stage.
  unfold validate_stage_try, validate_chapter5. rewrite Hc, Hs. simpl.
  destruct (context_active_object h) as [o|].
  - destruct (get_active_material (Some o)) as [mat|].
    + destruct (use_nodes mat) eqn:U; simpl.
      * split; [intros _; exists mat; auto | reflexivity].
      * split; [discriminate|]. intros (mat' & M & U'). inversion M; subst mat'.
        congruence.
    + simpl. split; [discriminate | intros (mat' & M & _); discriminate M].
  - simpl. split; [discriminate | intros (mat' & M & _); discriminate M].
Qed.

Lemma chapter5_stage3_complete (h : Host) (p : TUTORIAL_PG_Properties) :
  current_chapter p = 5 -> current_stage p = 3 ->
  complete (validate_stage float_pow h p)
  = check_image_texture_node_exists (context_active_object h).
Proof.
  intros Hc Hs. rewrite complete_validate_stage.
  unfold validate_stage_try, validate_chapter5. rewrite Hc, Hs. simpl.
  destruct (context_active_object h) as [o|]; [|reflexivity].
  destruct (check_image_texture_node_exists (Some o)); reflexivity.
Qed.

End MaterialStages.

(** X22: at chapter 5, stage 1 is complete exactly when the active
    object has mesh data and a material in its active slot (index not
    negative) that uses nodes; stage 3 exactly when, besides, the graph
    of that material holds an image-texture node with an image loaded.
    With no active object every stage from 1 to 5 answers (false,
    "select an object"). *)
Theorem chapter5_material_and_texture_stages
        (float_pow : float -> float -> float) (h : Host) (p : TUTORIAL_PG_Properties) :
  current_chapter p = 5 ->
  let has_material mat :=
    exists o mesh, context_active_object h = Some o /\ data o = Some mesh
                   /\ 0 <= active_material_index o
                   /\ nth_error (material_slots o)
                                (Z.to_nat (active_material_index o))
                      = Some (Some mat) in
  (current_stage p = 1 ->
   ((exists msg, validate_stage float_pow h p = Ok (true, msg))
    <-> exists mat, has_material mat /\ use_nodes mat = true))
  /\ (current_stage p = 3 ->
      ((exists msg, validate_stage float_pow h p = Ok (true, msg))
       <-> exists mat tree node img,
             has_material mat /\ use_nodes mat = true
             /\ node_tree mat = Some tree /\ In node (nodes tree)
             /\ node_type node = "TEX_IMAGE" /\ image node = Some img))
  /\ (context_active_object h = None -> 1 <= current_stage p <= 5 ->
      validate_stage float_pow h p
      = Ok (false, [Lit "❌ オブジェクトを選択してください"])).
Proof.
  intros Hc has_material.
  assert (forall mat, get_active_material (context_active_object h) = Some mat
                      <-> has_material mat) as G.
  { intros mat. rewrite get_active_material_spec. unfold has_material. reflexivity. }
  split; [|split].
  - intros Hs. rewrite <- complete_true_msg, (chapter5_stage1_complete float_pow h p Hc Hs).
    split; intros (mat & M & U); exists mat; (split; [apply G; exact M | exact U]).
  - intros Hs. rewrite <- complete_true_msg, (chapter5_stage3_complete float_pow h p Hc Hs).
    rewrite check_image_texture_node_exists_spec.
    split; intros (mat & tree & node & img & M & R); exists mat, tree, node, img;
      (split; [apply G; exact M | exact R]).
  - intros Ho Hs. exact (chapter5_without_object float_pow h p Hc Hs Ho).
Qed.

Lemma chapter5_material_and_texture_stages_witness :
  exists msg,
    validate_stage Sample.libm_pow (Sample.shading_host Sample.one_texture_tree)
                   (Sample.props_at 5 3)
    = Ok (true, msg).
Proof.
  apply (proj2 (proj1 (proj2 (chapter5_material_and_texture_stages Sample.libm_pow
                                (Sample.shading_host Sample.one_texture_tree)
                                (Sample.props_at 5 3) eq_refl))
                 eq_refl)).
  exists (Sample.material_of Sample.one_texture_tree), Sample.one_texture_tree,
    Sample.texture_a, "a.png".
  split.
  - exists (Sample.shaded_cube Sample.one_texture_tree), (Sample.mesh_of []).
    split; [reflexivity|]. split; [reflexivity|]. split; [simpl; lia | reflexivity].
  - split; [reflexivity|]. split; [reflexivity|]. split; [left; reflexivity|].
    split; reflexivity.
Defined.

(** X23: at chapter 5 with a Principled BSDF found in the active
    material, stage 2 is complete exactly when some channel of the four
    of "Base Color" is more than 0.01 away from 1.0, and stage 5 exactly
    when "Roughness" is more than 0.01 away from 0.5 or "Metallic" more
    than 0.01 away from 0.0.  A socket that is missing makes the stage
    answer (false, error message of the KeyError) instead of raising. *)
Theorem chapter5_colour_and_pbr_stages
        (float_pow : float -> float -> float) (h : Host) (p : TUTORIAL_PG_Properties)
        (mat : Material) (bsdf : Node) :
  current_chapter p = 5 ->
  get_active_material (context_active_object h) = Some mat ->
  get_principled_bsdf (Some mat) = Some bsdf ->
  (current_stage p = 2 ->
   (forall r g b a,
      socket_lookup (inputs bsdf) "Base Color" = Ok (SVColor r g b a) ->
      ((exists msg, validate_stage float_pow h p = Ok (true, msg))
       <-> exists c, In c [r; g; b; a] /\ gt (abs (c - 1.0)) 0.01%float = true))
   /\ (forall e,
         socket_lookup (inputs bsdf) "Base Color" = Raise e ->
         validate_stage float_pow h p = Ok (false, [Lit "❌ エラー: "; ExnFmt e])))
  /\ (current_stage p = 5 ->
      (forall r m,
         socket_lookup (inputs bsdf) "Roughness" = Ok (SVFloat r) ->
         socket_lookup (inputs bsdf) "Metallic" = Ok (SVFloat m) ->
         ((exists msg, validate_stage float_pow h p = Ok (true, msg))
          <-> gt (abs (r - 0.5)) 0.01%float = true
              \/ gt (abs (m - 0.0)) 0.01%float = true))
      /\ (forall e,
            socket_lookup (inputs bsdf) "Roughness" = Raise e ->
            validate_stage float_pow h p = Ok (false, [Lit "❌ エラー: "; ExnFmt e]))
      /\ (forall rv e,
            socket_lookup (inputs bsdf) "Roughness" = Ok rv ->
            socket_lookup (inputs bsdf) "Metallic" = Raise e ->
            validate_stage float_pow h p = Ok (false, [Lit "❌ エラー: "; ExnFmt e]))).
Proof.
  intros Hc Hm Hb. split; intros Hs.
  - rewrite (chapter5_stage2_result float_pow h p mat bsdf Hc Hs Hm Hb).
    unfold validate_base_color, except_error, bind. split.
    + intros r g b a E. rewrite E. simpl as_color. cbv iota beta.
      set (changed := any _ _).
      assert (changed = true
              <-> exists c, In c [r; g; b; a] /\ gt (abs (c - 1.0)) 0.01%float = true) as C.
      { unfold changed, any. rewrite existsb_exists. reflexivity. }
      rewrite <- C. destruct changed.
      * split; [reflexivity | intros _; eexists; reflexivity].
      * split; [intros (msg & F); inversion F | discriminate].
    + intros e E. rewrite E. reflexivity.
  - rewrite (chapter5_stage5_result float_pow h p mat bsdf Hc Hs Hm Hb).
    unfold validate_pbr, except_error, bind. split; [|split].
    + intros r m Er Em. rewrite Er, Em. simpl as_float. cbv iota beta zeta.
      rewrite <- orb_true_iff.
      destruct (gt (abs (r - 0.5)) 0.01 || gt (abs (m - 0.0)) 0.01)%float.
      * split; [reflexivity | intros _; eexists; reflexivity].
      * split; [intros (msg & F); inversion F | discriminate].
    + intros e E. rewrite E. reflexivity.
    + intros rv e Er Em. rewrite Er, Em. reflexivity.
Qed.

Lemma chapter5_colour_and_pbr_stages_witness :
  (exists msg,
     validate_stage Sample.libm_pow
       (Sample.shading_host (Sample2.tree_of [Sample2.rough_principled]))
       (Sample.props_at 5 5)
     = Ok (true, msg))
  /\ validate_stage Sample.libm_pow
       (Sample.shading_host (Sample2.tree_of [Sample2.bare_principled]))
       (Sample.props_at 5 5)
     = Ok (false, [Lit "❌ エラー: "; ExnFmt (KeyError "Roughness")]).
Proof.
  split.
  - apply (proj1 (proj2 (chapter5_colour_and_pbr_stages Sample.libm_pow
                           (Sample.shading_host (Sample2.tree_of [Sample2.rough_principled]))
                           (Sample.props_at 5 5)
                           (Sample.material_of (Sample2.tree_of [Sample2.rough_principled]))
                           Sample2.rough_principled eq_refl eq_refl eq_refl)
                    eq_refl)
             0.8%float 0%float eq_refl eq_refl).
    left. vm_compute. reflexivity.
  - apply (proj1 (proj2 (proj2 (chapter5_colour_and_pbr_stages Sample.libm_pow
                           (Sample.shading_host (Sample2.tree_of [Sample2.bare_principled]))
                           (Sample.props_at 5 5)
                           (Sample.material_of (Sample2.tree_of [Sample2.bare_principled]))
                           Sample2.bare_principled eq_refl eq_refl eq_refl)
                    eq_refl))
             (KeyError "Roughness") eq_refl).
Defined.

(** X24: [get_principled_bsdf] returns the first node of type
    BSDF_PRINCIPLED of a material that uses nodes, and nothing for a
    material whose nodes are switched off or whose graph is missing; when
    the graph holds exactly one such node, it is also the node the scan
    of [check_correct_node_link] keeps. *)
Theorem get_principled_bsdf_first_node (mat : Material) :
  (forall bsdf,
     get_principled_bsdf (Some mat) = Some bsdf
     <-> use_nodes mat = true
         /\ exists tree before after,
              node_tree mat = Some tree
              /\ nodes tree = before ++ bsdf :: after
              /\ node_type bsdf = "BSDF_PRINCIPLED"
              /\ forall b, In b before -> node_type b <> "BSDF_PRINCIPLED")
  /\ (forall tree bsdf,
        node_tree mat = Some tree ->
        count (fun n => String.eqb (node_type n) "BSDF_PRINCIPLED") (nodes tree) = 1%nat ->
        get_principled_bsdf (Some mat) = Some bsdf ->
        snd (fold_left remember_node (nodes tree) (None, None)) = Some bsdf).
Proof.
  split.
  - intros bsdf. apply get_principled_bsdf_spec.
  - intros tree bsdf T C G. rewrite remember_last. simpl.
    unfold get_principled_bsdf, except_return, bind, node_tree_nodes in G.
    destruct (use_nodes mat); [|discriminate G]. simpl in G. rewrite T in G.
    rewrite (first_principled_is_last (nodes tree) bsdf C G). reflexivity.
Qed.

(* ================================================================= *)
(** ** The Confirm button and the monitor's check *)

(** Setting a flag that is set changes nothing. *)
Lemma set_stage_complete_same (p : TUTORIAL_PG_Properties) :
  set_stage_complete (stage_complete p) p = p.
Proof. destruct p; reflexivity. Qed.

(** X25: the Confirm button always finishes, never cancels: it
    evaluates the validator once and reports its message once, as INFO
    when the stage is complete and as WARNING when it is not; it leaves
    Blender and the timers alone.  The monitor's [check_stage] reports
    nothing and leaves the properties exactly as the button does. *)
Theorem confirm_button_agrees_with_monitor
        (float_pow : float -> float -> float) (s : State) :
  let r := validate_stage_execute float_pow s in
  let asked := EvValidate (current_chapter (props s)) (current_stage (props s)) in
  fst r = FINISHED
  /\ host (snd r) = host s
  /\ timers (snd r) = timers s
  /\ props (snd r) = props (check_stage float_pow s)
  /\ trace (check_stage float_pow s) = trace s ++ [asked]
  /\ exists c msg,
       validate_stage float_pow (host s) (props s) = Ok (c, msg)
       /\ trace (snd r)
          = trace s ++ [asked; EvReport (if c then "INFO" else "WARNING") msg].
Proof.
  intros r asked. subst r asked.
  unfold validate_stage_execute, check_stage. cbn [emit host props timers trace].
  destruct (validate_stage_total float_pow (host s) (props s)) as (c & msg & E).
  rewrite E.
  destruct c; cbn [fst snd report emit with_props host props timers trace andb].
  - repeat split.
    + destruct (stage_complete (props s)) eqn:F; cbn [negb with_props props].
      * rewrite <- F at 1. apply set_stage_complete_same.
      * reflexivity.
    + destruct (negb (stage_complete (props s))); reflexivity.
    + exists true, msg. split; [reflexivity|]. rewrite <- app_assoc. reflexivity.
  - repeat split.
    exists false, msg. split; [reflexivity|]. rewrite <- app_assoc. reflexivity.
Qed.
